(** * Resumable bulk crawler of download_pcc_data.py

    A shallow embedding of [PCCDownloader] (src/download_pcc_data.py):
    the retrying fetch [_request_with_retry], [list_by_date],
    the list pass [download_all_data] with its checkpoint
    [_save_progress], the detail pass [download_tender_details], the
    downloads [download_date_range] and [download_all_tenders_by_keyword],
    and the tables of [export_to_csv] and [convert_jsonl_to_csv].

    Conventions of the embedding.
    - Python [int] is [Z]; a JSON document is a value of [json]
      (JSON numbers are restricted to integers).
    - Text is [string], one [ascii] per byte; slices count bytes, which
      agrees with Python on ASCII text.
    - The network is a function from the number of requests issued so
      far, and the request, to the outcome of [session.get].
    - Every side effect (a GET, a sleep, a buffered write, a flush, a
      checkpoint snapshot) is appended to a log, newest first; the
      contents of the files are recovered by replaying the log.
    - [print] calls and the progress percentage are left out. *)

From Stdlib Require Import ZArith Lia List String Ascii Bool Sorted.
From stdpp Require Import base gmap strings list sorting.
Import ListNotations.
Local Open Scope Z_scope.
Set Warnings "-register-all,-clear-no-such-hyp".

(** ** Results of fallible code *)

(** The exceptions the crawler can meet.  [Timeout], [ConnectionError]
    and [HTTPError] are subclasses of [requests.exceptions.RequestException];
    [JSONDecodeError] is one from requests 2.27 on and a plain [ValueError]
    before, which [decode_is_request_exception] selects. *)
Inductive exn :=
| Timeout
| ConnectionError
| HTTPError (status : Z)
| JSONDecodeError
| TypeError
| ValueError
| AttributeError
| ZeroDivisionError
| OverflowError.

(** A value, or an exception raised. *)
Inductive result (A : Type) :=
| Ok (a : A)
| Raise (e : exn).
Arguments Ok {A} a.
Arguments Raise {A} e.

(** [isinstance(e, requests.exceptions.RequestException)]. *)
Definition is_request_exception (decode_is_request_exception : bool) (e : exn) : bool :=
  match e with
  | Timeout | ConnectionError | HTTPError _ => true
  | JSONDecodeError => decode_is_request_exception
  | TypeError | ValueError | AttributeError | ZeroDivisionError | OverflowError => false
  end.

(** ** JSON documents *)

Inductive json :=
| JNull
| JBool (b : bool)
| JNum (n : Z)
| JStr (s : string)
| JArr (items : list json)
| JObj (fields : list (string * json)).

(** Python truth value of a decoded JSON document. *)
Definition truthy (v : json) : bool :=
  match v with
  | JNull => false
  | JBool b => b
  | JNum n => negb (n =? 0)
  | JStr s => negb (String.eqb s "")
  | JArr items => match items with [] => false | _ => true end
  | JObj fields => match fields with [] => false | _ => true end
  end.

(** [d.get(key)] on the fields of a dict: [None] when the key is absent. *)
Fixpoint dict_lookup (key : string) (fields : list (string * json)) : option json :=
  match fields with
  | [] => None
  | (k, v) :: rest => if String.eqb k key then Some v else dict_lookup key rest
  end.

(** [d.get(key, default)]. *)
Definition dict_get (key : string) (default : json) (fields : list (string * json)) : json :=
  match dict_lookup key fields with
  | Some v => v
  | None => default
  end.

(** [d[key] = v]: an existing key keeps its position, a new key goes last. *)
Fixpoint dict_set (key : string) (v : json) (fields : list (string * json))
  : list (string * json) :=
  match fields with
  | [] => [(key, v)]
  | (k, w) :: rest =>
      if String.eqb k key then (k, v) :: rest else (k, w) :: dict_set key v rest
  end.

(** [item[key] = v] on an arbitrary decoded value: only a dict supports it
    with a string key; every other JSON value raises [TypeError]. *)
Definition setitem (key : string) (v : json) (item : json) : result json :=
  match item with
  | JObj fields => Ok (JObj (dict_set key v fields))
  | _ => Raise TypeError
  end.

(** [len(v)]: defined on strings, lists and dicts. *)
Definition py_len (v : json) : result Z :=
  match v with
  | JStr s => Ok (Z.of_nat (String.length s))
  | JArr items => Ok (Z.of_nat (List.length items))
  | JObj fields => Ok (Z.of_nat (List.length fields))
  | _ => Raise TypeError
  end.

(** [for item in v]: a list yields its items, a dict its keys, a string its
    characters; anything else is not iterable. *)
Fixpoint chars (s : string) : list json :=
  match s with
  | EmptyString => []
  | String c rest => JStr (String c EmptyString) :: chars rest
  end.

Definition py_iter (v : json) : result (list json) :=
  match v with
  | JArr items => Ok items
  | JObj fields => Ok (map (fun kv => JStr (fst kv)) fields)
  | JStr s => Ok (chars s)
  | _ => Raise TypeError
  end.

(** ** Text: decimal fields, slices and [str.replace] *)

(** The character of a decimal digit, and back. *)
Definition digit_of_Z (n : Z) : ascii := ascii_of_nat (48 + Z.to_nat n).

Definition Z_of_digit (c : ascii) : option Z :=
  let n := Z.of_nat (nat_of_ascii c) in
  if (48 <=? n) && (n <=? 57) then Some (n - 48) else None.

(** The last [width] decimal digits of [n], most significant first: the
    zero-padded field of [strftime] when [0 <= n < 10 ^ width]. *)
Fixpoint digits (width : nat) (n : Z) : string :=
  match width with
  | O => EmptyString
  | S w => digits w (n / 10) +:+ String (digit_of_Z (n mod 10)) EmptyString
  end.

(** Reads a string made of decimal digits only. *)
Fixpoint parse_digits (s : string) (acc : Z) : option Z :=
  match s with
  | EmptyString => Some acc
  | String c rest =>
      match Z_of_digit c with
      | Some d => parse_digits rest (10 * acc + d)
      | None => None
      end
  end.

(** A field of exactly [width] digits. *)
Definition parse_field (width : nat) (s : string) : option Z :=
  if Nat.eqb (String.length s) width then parse_digits s 0 else None.

(** [s[n:]]. *)
Fixpoint string_drop (n : nat) (s : string) : string :=
  match n, s with
  | O, _ => s
  | S _, EmptyString => EmptyString
  | S k, String _ rest => string_drop k rest
  end.

(** [s[:n]]. *)
Definition string_take (n : nat) (s : string) : string := String.substring 0 n s.

(** [s.replace(old, new)] for a non-empty [old]: every occurrence, left to
    right, without overlap.  [skip] counts the characters of an occurrence
    still to be passed over. *)
Fixpoint replace_from (old new : string) (skip : nat) (s : string) : string :=
  match s with
  | EmptyString => EmptyString
  | String c rest =>
      match skip with
      | S k => replace_from old new k rest
      | O =>
          if String.prefix old s
          then new +:+ replace_from old new (String.length old - 1)%nat rest
          else String c (replace_from old new 0%nat rest)
      end
  end.

Definition str_replace (old new s : string) : string := replace_from old new 0%nat s.

(** ** [datetime] *)

Record datetime := mkdt {
  year : Z; month : Z; day : Z;
  hour : Z; minute : Z; second : Z; microsecond : Z
}.

(** The proleptic Gregorian calendar of [datetime]. *)
Definition is_leap (y : Z) : bool :=
  (y mod 4 =? 0) && (negb (y mod 100 =? 0) || (y mod 400 =? 0)).

Definition days_in_month (y m : Z) : Z :=
  match m with
  | 2 => if is_leap y then 29 else 28
  | 4 | 6 | 9 | 11 => 30
  | _ => 31
  end.

Definition MAXYEAR : Z := 9999.

Definition valid_date (y m d : Z) : bool :=
  (1 <=? y) && (y <=? MAXYEAR) && (1 <=? m) && (m <=? 12) &&
  (1 <=? d) && (d <=? days_in_month y m).

Definition valid_time (h mi s us : Z) : bool :=
  (0 <=? h) && (h <? 24) && (0 <=? mi) && (mi <? 60) &&
  (0 <=? s) && (s <? 60) && (0 <=? us) && (us <? 1000000).

Definition valid_datetime (dt : datetime) : bool :=
  valid_date (year dt) (month dt) (day dt) &&
  valid_time (hour dt) (minute dt) (second dt) (microsecond dt).

(** [datetime(y, m, d, h, mi, s, us)]: [None] stands for [ValueError]. *)
Definition datetime_new (y m d h mi s us : Z) : option datetime :=
  if valid_date y m d && valid_time h mi s us
  then Some (mkdt y m d h mi s us) else None.

(** [dt + timedelta(days=1)]: the time of day is kept; stepping past
    [MAXYEAR] raises [OverflowError]. *)
Definition add_one_day (dt : datetime) : result datetime :=
  let with_date y m d :=
    mkdt y m d (hour dt) (minute dt) (second dt) (microsecond dt) in
  if day dt <? days_in_month (year dt) (month dt)
  then Ok (with_date (year dt) (month dt) (day dt + 1))
  else if month dt <? 12
  then Ok (with_date (year dt) (month dt + 1) 1)
  else if year dt <? MAXYEAR
  then Ok (with_date (year dt + 1) 1 1)
  else Raise OverflowError.

(** Lexicographic [<=] on lists of numbers of the same length. *)
Fixpoint lex_leb (a b : list Z) : bool :=
  match a, b with
  | x :: a', y :: b' => (x <? y) || ((x =? y) && lex_leb a' b')
  | _, _ => true
  end.

Definition date_fields (dt : datetime) : list Z := [year dt; month dt; day dt].
Definition time_fields (dt : datetime) : list Z :=
  [hour dt; minute dt; second dt; microsecond dt].

(** [a <= b] on naive datetimes. *)
Definition dt_leb (a b : datetime) : bool :=
  lex_leb (date_fields a ++ time_fields a) (date_fields b ++ time_fields b).

(** [dt.strftime("%Y%m%d")] and [dt.strftime("%Y-%m-%d")], the year padded
    to four digits as documented. *)
Definition strftime_Ymd (dt : datetime) : string :=
  digits 4 (year dt) +:+ digits 2 (month dt) +:+ digits 2 (day dt).

Definition strftime_Y_m_d (dt : datetime) : string :=
  digits 4 (year dt) +:+ "-" +:+ digits 2 (month dt) +:+ "-" +:+ digits 2 (day dt).

(** [dt.isoformat()] of a naive datetime: the fraction of a second is
    written, with six digits, only when it is not zero. *)
Definition isoformat (dt : datetime) : string :=
  strftime_Y_m_d dt +:+ "T" +:+ digits 2 (hour dt) +:+ ":" +:+ digits 2 (minute dt)
    +:+ ":" +:+ digits 2 (second dt)
    +:+ (if microsecond dt =? 0 then "" else "." +:+ digits 6 (microsecond dt)).

(** ** Naive and aware values *)

(** A [datetime] object: its fields on the wall clock and, when it is
    timezone-aware, its offset from UTC in microseconds. *)
Record moment := mkmoment { wall : datetime; utcoffset : option Z }.

Definition naive (dt : datetime) : moment := mkmoment dt None.
Definition aware (dt : datetime) (offset : Z) : moment := mkmoment dt (Some offset).

(** The number of a day, 0001-01-01 being day 1, as [toordinal] counts. *)
Definition days_before_year (y : Z) : Z :=
  365 * (y - 1) + (y - 1) / 4 - (y - 1) / 100 + (y - 1) / 400.

Definition days_before_month (y m : Z) : Z :=
  foldr Z.add 0 (days_in_month y <$> (Z.of_nat <$> seq 1 (Z.to_nat (m - 1)))).

Definition toordinal (dt : datetime) : Z :=
  days_before_year (year dt) + days_before_month (year dt) (month dt) + day dt.

(** A point of the wall clock in microseconds. *)
Definition microseconds_of (dt : datetime) : Z :=
  (((toordinal dt * 24 + hour dt) * 60 + minute dt) * 60 + second dt) * 1000000
  + microsecond dt.

(** The year of a day number, and the days of that year before it. *)
Definition year_of_ordinal (n : Z) : Z * Z :=
  let r := (n - 1) mod 146097 in
  let n100 := Z.min 3 (r / 36524) in
  let r1 := r - 36524 * n100 in
  let r2 := r1 mod 1461 in
  let n1 := Z.min 3 (r2 / 365) in
  (400 * ((n - 1) / 146097) + 100 * n100 + 4 * (r1 / 1461) + n1 + 1, r2 - 365 * n1).

(** The month and the day of the month of the day [n] of a year, counted
    from zero, looking through the months still to come. *)
Fixpoint month_of_day (y : Z) (months : list Z) (n : Z) : Z * Z :=
  match months with
  | [] => (1, n + 1)
  | [m] => (m, n + 1)
  | m :: rest =>
      if n <? days_in_month y m then (m, n + 1)
      else month_of_day y rest (n - days_in_month y m)
  end.

(** The point of the wall clock that lies at a number of microseconds. *)
Definition datetime_of_microseconds (us : Z) : datetime :=
  let '(y, n) := year_of_ordinal (us / 86400000000) in
  let '(m, d) := month_of_day y [1; 2; 3; 4; 5; 6; 7; 8; 9; 10; 11; 12] n in
  let t := us mod 86400000000 in
  mkdt y m d (t / 3600000000) (t / 60000000 mod 60) (t / 1000000 mod 60) (t mod 1000000).

(** ** The two library parsers used by [parse_date] *)

(** [datetime.fromisoformat] is a function of the interpreter, and its
    grammar depends on the version of Python: the crawler is embedded with
    the parser as a parameter.  What follows is the parser of CPython 3.7
    to 3.10, after [datetime_fromisoformat] in [Modules/_datetimemodule.c];
    later versions also read other ISO 8601 forms. *)

(** The end of a C string. *)
Definition NUL : ascii := "000"%char.

(** The byte at a position of a buffer, [NUL] from its end on. *)
Definition byte_at (i : nat) (buf : string) : ascii :=
  match String.get i buf with
  | Some c => c
  | None => NUL
  end.

(** [parse_isoformat_date]: the date part [YYYY-MM-DD] at the start of the
    buffer. *)
Definition parse_iso_date (s : string) : option (Z * Z * Z) :=
  match parse_field 4 (String.substring 0 4 s),
        parse_field 2 (String.substring 5 2 s),
        parse_field 2 (String.substring 8 2 s) with
  | Some y, Some m, Some d =>
      if String.eqb (String.substring 4 1 s) "-" && String.eqb (String.substring 7 1 s) "-"
      then Some (y, m, d) else None
  | _, _, _ => None
  end.

(** The bytes of the one character that separates the date from the time. *)
Definition separator_width (buf : string) : nat :=
  let b := nat_of_ascii (byte_at 10 buf) in
  if (b <? 128)%nat then 1%nat
  else if (240 <=? b)%nat then 4%nat
  else if (224 <=? b)%nat then 3%nat
  else 2%nat.

(** What follows a field of two digits: the end of the part that is
    parsed, with the news whether the buffer goes on, another field, or
    the fraction. *)
Inductive after_field :=
| Finished (more : bool)
| Another
| Fraction.

(** One turn of the loop of [parse_hh_mm_ss_ff]: two digits at [p] and the
    byte after them. *)
Definition field_at (buf : string) (p p_end : nat) : option (Z * after_field) :=
  match parse_field 2 (String.substring p 2 buf) with
  | None => None
  | Some v =>
      let c := byte_at (p + 2) buf in
      if (p_end <=? p + 3)%nat then Some (v, Finished (negb (Ascii.eqb c NUL)))
      else if Ascii.eqb c ":" then Some (v, Another)
      else if Ascii.eqb c "." then Some (v, Fraction)
      else None
  end.

(** The fraction of a second from [p] to [p_end]: three or six digits. *)
Definition parse_fraction (buf : string) (p p_end : nat) : option (Z * bool) :=
  let n := (p_end - p)%nat in
  if Nat.eqb n 3 || Nat.eqb n 6 then
    match parse_field n (String.substring p n buf) with
    | Some v =>
        Some (if Nat.eqb n 3 then v * 1000 else v, negb (Ascii.eqb (byte_at p_end buf) NUL))
    | None => None
    end
  else None.

(** [parse_hh_mm_ss_ff]: [HH[:MM[:SS[.fff[fff]]]]] between [p] and [p_end],
    and whether the buffer goes on after it. *)
Definition parse_hh_mm_ss_ff (buf : string) (p p_end : nat)
  : option (Z * Z * Z * Z * bool) :=
  let fraction h mi s q :=
    match parse_fraction buf q p_end with
    | Some (us, more) => Some (h, mi, s, us, more)
    | None => None
    end in
  match field_at buf p p_end with
  | None => None
  | Some (h, Finished more) => Some (h, 0, 0, 0, more)
  | Some (h, Fraction) => fraction h 0 0 (p + 3)%nat
  | Some (h, Another) =>
      match field_at buf (p + 3) p_end with
      | None => None
      | Some (mi, Finished more) => Some (h, mi, 0, 0, more)
      | Some (mi, Fraction) => fraction h mi 0 (p + 6)%nat
      | Some (mi, Another) =>
          match field_at buf (p + 6) p_end with
          | None => None
          | Some (s, Finished more) => Some (h, mi, s, 0, more)
          | Some (s, Fraction) | Some (s, Another) => fraction h mi s (p + 9)%nat
          end
      end
  end.

(** The position of the first sign from [p] on, the end of the buffer
    when there is none. *)
Fixpoint find_sign (buf : string) (p : nat) : nat :=
  match buf with
  | EmptyString => p
  | String c rest =>
      if Ascii.eqb c "+" || Ascii.eqb c "-" then p else find_sign rest (S p)
  end.

(** [parse_isoformat_time]: the time from [p] on, with the offset from UTC
    in microseconds when the text carries one. *)
Definition parse_iso_time (buf : string) (p : nat) : option (Z * Z * Z * Z * option Z) :=
  let p_end := String.length buf in
  let tz := find_sign (string_drop p buf) p in
  match parse_hh_mm_ss_ff buf p tz with
  | None => None
  | Some (h, mi, s, us, more) =>
      if Nat.eqb tz p_end then
        if more then None else Some (h, mi, s, us, None)
      else
        let tzlen := (p_end - tz)%nat in
        if Nat.eqb tzlen 6 || Nat.eqb tzlen 9 || Nat.eqb tzlen 16 then
          match parse_hh_mm_ss_ff buf (S tz) p_end with
          | Some (tzh, tzmi, tzs, tzus, false) =>
              let sign := if Ascii.eqb (byte_at tz buf) "-" then -1 else 1 in
              Some (h, mi, s, us, Some (sign * ((tzh * 3600 + tzmi * 60 + tzs) * 1000000 + tzus)))
          | _ => None
          end
        else None
  end.

(** [timezone(offset)]: the offset lies strictly between minus and plus
    24 hours. *)
Definition valid_offset (offset : Z) : bool :=
  (-86400000000 <? offset) && (offset <? 86400000000).

(** [datetime.fromisoformat(s)] of CPython 3.7 to 3.10.  [None] stands for
    [ValueError]. *)
Definition fromisoformat_py37 (s : string) : option moment :=
  match parse_iso_date s with
  | None => None
  | Some (y, m, d) =>
      if (String.length s <=? 10)%nat then naive <$> datetime_new y m d 0 0 0 0
      else
        match parse_iso_time s (10 + separator_width s) with
        | None => None
        | Some (h, mi, sec, us, tz) =>
            match tz with
            | None => naive <$> datetime_new y m d h mi sec us
            | Some offset =>
                if valid_offset offset
                then (fun dt => aware dt offset) <$> datetime_new y m d h mi sec us
                else None
            end
        end
  end.

(** A digit between [lo] and [hi]. *)
Definition digit_in (lo hi : Z) (c : ascii) : option Z :=
  match Z_of_digit c with
  | Some d => if (lo <=? d) && (d <=? hi) then Some d else None
  | None => None
  end.

(** One alternative made of a first character in [lo1..hi1] (or a space
    when [space] is set) followed by a digit in [lo2..hi2]. *)
Definition two_chars (space : bool) (lo1 hi1 lo2 hi2 : Z) (s : string)
  : list (Z * string) :=
  match s with
  | String c1 (String c2 rest) =>
      let first :=
        if space then (if Ascii.eqb c1 " " then Some 0 else None)
        else digit_in lo1 hi1 c1 in
      match first, digit_in lo2 hi2 c2 with
      | Some a, Some b => [(10 * a + b, rest)]
      | _, _ => []
      end
  | _ => []
  end.

(** One alternative made of a single digit in [lo..hi]. *)
Definition one_char (lo hi : Z) (s : string) : list (Z * string) :=
  match s with
  | String c rest =>
      match digit_in lo hi c with
      | Some a => [(a, rest)]
      | None => []
      end
  | _ => []
  end.

(** The ways [%m] and [%d] can match at the start of a text, in the order
    of their alternatives, each with the text left over. *)
Definition month_matches (s : string) : list (Z * string) :=
  two_chars false 1 1 0 2 s ++ two_chars false 0 0 1 9 s ++ one_char 1 9 s.

Definition day_matches (s : string) : list (Z * string) :=
  two_chars false 3 3 0 1 s ++ two_chars false 1 2 0 9 s ++
  two_chars false 0 0 1 9 s ++ one_char 1 9 s ++ two_chars true 0 0 1 9 s.

(** [datetime.strptime(s, "%Y%m%d")].  The format compiles to the regular
    expression [(\d\d\d\d)(1[0-2]|0[1-9]|[1-9])(3[01]|[12]\d|0[1-9]|[1-9]| [1-9])];
    the first match in the order of the alternatives is taken, and text
    left over after it is an error.  [None] stands for [ValueError]. *)
Definition strptime_Ymd (s : string) : option datetime :=
  if (String.length s <? 4)%nat then None
  else
    match parse_field 4 (String.substring 0 4 s) with
    | None => None
    | Some y =>
        let found :=
          flat_map (fun '(m, rest) => map (fun '(d, rest') => (m, d, rest'))
                                          (day_matches rest))
                   (month_matches (string_drop 4 s)) in
        match found with
        | (m, d, EmptyString) :: _ => datetime_new y m d 0 0 0 0
        | _ => None
        end
    end.

(** ** The crawl range: [parse_date] and the preamble of [download_all_data] *)

Section ParseDate.

(** [datetime.fromisoformat] of the interpreter; [None] stands for
    [ValueError]. *)
Variable fromisoformat : string -> option moment.

(** The local [parse_date] of [download_all_data].  Both [try] blocks end in
    a bare [except:], so every failure, including the [AttributeError] or
    [TypeError] of a value that is not a string, falls through. *)
Definition parse_date (date_str : json) : option moment :=
  if negb (truthy date_str) then None
  else
    match date_str with
    | JStr s =>
        match fromisoformat (str_replace "+08:00" "" s) with
        | Some dt => Some dt
        | None => naive <$> strptime_Ymd (string_take 8 s)
        end
    | _ => None
    end.

(** The start and end of the crawl computed from the answer of [get_info]
    and the clock.  [info.get] needs a dict: [None] or any other JSON value
    raises [AttributeError]. *)
Definition crawl_range (info : json) (now : datetime)
  : result (moment * moment) :=
  match info with
  | JObj fields =>
      let oldest_date := parse_date (dict_get "最舊資料時間" (JStr "") fields) in
      let newest_date := parse_date (dict_get "最新資料時間" (JStr "") fields) in
      match oldest_date, newest_date with
      | Some o, Some n => Ok (o, n)
      | _, _ => Ok (naive (mkdt 1999 1 21 0 0 0 0), naive now)
      end
  | _ => Raise AttributeError
  end.

End ParseDate.

(** The two ends as the loop uses them.  [end_date - start_date] and the
    test [current_date <= end_date] need two naive or two aware values, and
    raise [TypeError] on one of each.  Two aware values with the same
    offset are compared field by field; with different offsets they are
    compared as instants, which is the comparison of the fields once the
    end is put on the wall clock of the start.  [strftime] and the step of
    one day work on the fields of the wall clock. *)
Definition loop_bounds (start_date end_date : moment) : result (datetime * datetime) :=
  match utcoffset start_date, utcoffset end_date with
  | None, None => Ok (wall start_date, wall end_date)
  | Some a, Some b =>
      Ok (wall start_date,
          if a =? b then wall end_date
          else datetime_of_microseconds (microseconds_of (wall end_date) + (a - b)))
  | _, _ => Raise TypeError
  end.

(** ** The network, the files and the log of effects *)

(** What [session.get(url, params=params, timeout=30)] can do: answer with
    a status and a body ([None] when the body is not JSON), run into the
    timeout, or fail with another [RequestException]. *)
Inductive outcome :=
| Responded (status : Z) (body : option json)
| TimedOut
| Unreachable.

(** The upstream: the outcome of a request, given how many requests came
    before it, its URL and its parameters. *)
Definition server := nat -> string -> list (string * json) -> outcome.

(** Which [time.sleep] of a fixed number of seconds: the back-off after a
    429, the pause before retrying a timeout, the pause of the list pass
    after a network error. *)
Inductive sleep_reason := RateLimit | TimeoutRetry | NetworkError.

(** The effects.  [EvDelay] is [time.sleep(delay)] with the caller's
    [delay]; [EvWrite] is a buffered write of one line to the record file
    of the pass, opened in append mode; [EvSave] rewrites the progress file
    of the pass with a full snapshot (the [last_update] time stamp is left
    out). *)
Inductive event :=
| EvGet (url : string) (params : list (string * json)) (attempt : Z)
| EvSleep (why : sleep_reason) (secs : Z)
| EvDelay
| EvWrite (line : json)
| EvFlush
| EvClose
| EvSave (keys : gset string) (total : option Z).

(** The number of requests sent and the effects so far, newest first. *)
Record io := mkio { requests : nat; log : list event }.

(** One more effect. *)
Definition emit (e : event) (w : io) : io :=
  {| requests := requests w; log := e :: log w |}.

(** [self.session.get(url, params=params, timeout=30)]: the request is
    logged with the number of its attempt. *)
Definition session_get (srv : server) (url : string) (params : list (string * json))
    (attempt : Z) (w : io) : outcome * io :=
  (srv (requests w) url params,
   {| requests := S (requests w); log := EvGet url params attempt :: log w |}).

(** The record file, on disk and in the write buffer, and the progress
    file of one pass.  The buffer is taken to hold every line until a
    flush or the closing of the file. *)
Record files := mkfiles {
  sink_disk : list json;
  sink_buffer : list json;
  checkpoint : option (gset string * option Z)
}.

(** What one effect does to the files. *)
Definition apply_event (f : files) (e : event) : files :=
  match e with
  | EvWrite line =>
      {| sink_disk := sink_disk f; sink_buffer := sink_buffer f ++ [line];
         checkpoint := checkpoint f |}
  | EvFlush | EvClose =>
      {| sink_disk := sink_disk f ++ sink_buffer f; sink_buffer := [];
         checkpoint := checkpoint f |}
  | EvSave keys total =>
      {| sink_disk := sink_disk f; sink_buffer := sink_buffer f;
         checkpoint := Some (keys, total) |}
  | EvGet _ _ _ | EvSleep _ _ | EvDelay => f
  end.

(** The files after the events of [evs], oldest first. *)
Definition replay (evs : list event) (f : files) : files := fold_left apply_event evs f.

(** The events of a log in the order they happened. *)
Definition trace (w : io) : list event := rev (log w).

(** ** [_request_with_retry] *)

(** [range(n)]. *)
Definition py_range (n : Z) : list Z := Z.of_nat <$> seq 0 (Z.to_nat n).

(** The body of [for attempt in range(max_retries)], over the attempts
    still to come.  Python's [None] is [JNull]. *)
Fixpoint retry_loop (srv : server) (url : string) (params : list (string * json))
    (max_retries : Z) (todo : list Z) (w : io) : result json * io :=
  match todo with
  | [] => (Ok JNull, w)
  | attempt :: rest =>
      let '(response, w1) := session_get srv url params attempt w in
      match response with
      | Responded status body =>
          if status =? 429 then
            let wait_time := 10 * (attempt + 1) in
            retry_loop srv url params max_retries rest (emit (EvSleep RateLimit wait_time) w1)
          else if (400 <=? status) && (status <? 600) then (Raise (HTTPError status), w1)
          else
            match body with
            | Some v => (Ok v, w1)
            | None => (Raise JSONDecodeError, w1)
            end
      | TimedOut =>
          if attempt <? max_retries - 1
          then retry_loop srv url params max_retries rest (emit (EvSleep TimeoutRetry 5) w1)
          else (Raise Timeout, w1)
      | Unreachable => (Raise ConnectionError, w1)
      end
  end.

(** [_request_with_retry(url, params, max_retries)]. *)
Definition _request_with_retry (srv : server) (url : string)
    (params : list (string * json)) (max_retries : Z) (w : io) : result json * io :=
  retry_loop srv url params max_retries (py_range max_retries) w.

Definition BASE_URL : string := "https://pcc-api.openfun.app/api".

(** [get_info()]. *)
Definition get_info (srv : server) (w : io) : result json * io :=
  _request_with_retry srv (BASE_URL +:+ "/getinfo") [] 3 w.

(** [result.get('records', [])] when [result] is a non-empty dict, [[]]
    otherwise. *)
Definition records_of (result : json) : json :=
  match result with
  | JObj fields => if truthy result then dict_get "records" (JArr []) fields else JArr []
  | _ => JArr []
  end.

(** [list_by_date(date_str)]. *)
Definition list_by_date (srv : server) (date_str : string) (w : io) : result json * io :=
  let '(r, w') :=
    _request_with_retry srv (BASE_URL +:+ "/listbydate") [("date", JStr date_str)] 3 w in
  match r with
  | Ok result => (Ok (records_of result), w')
  | Raise e => (Raise e, w')
  end.

(** [get_tender_detail(unit_id, job_number)]. *)
Definition get_tender_detail (srv : server) (unit_id job_number : json) (w : io)
  : result json * io :=
  _request_with_retry srv (BASE_URL +:+ "/tender")
    [("unit_id", unit_id); ("job_number", job_number)] 3 w.

(** ** The list pass: [download_all_data] *)

(** The local variables of the loop and the effects so far. *)
Record crawl := mkcrawl {
  current_date : datetime;
  downloaded_dates : gset string;
  downloaded_count : Z;
  total_tenders : Z;
  days_processed : Z;
  world : io
}.

(** The state with its effects replaced. *)
Definition with_world (w : io) (st : crawl) : crawl :=
  {| current_date := current_date st; downloaded_dates := downloaded_dates st;
     downloaded_count := downloaded_count st; total_tenders := total_tenders st;
     days_processed := days_processed st; world := w |}.

(** How one turn of a loop ends: on to the next turn, or with an exception
    that leaves the function. *)
Inductive step (S : Type) :=
| Next (st : S)
| Crash (e : exn) (st : S).
Arguments Next {S} st.
Arguments Crash {S} e st.

(** The state a turn ends in, either way. *)
Definition state_of {S : Type} (s : step S) : S :=
  match s with
  | Next st => st
  | Crash _ st => st
  end.

(** [for item in data: item['_download_date'] = date_str; data_file.write(...)]. *)
Fixpoint write_items (date_str : string) (items : list json) (w : io) : result unit * io :=
  match items with
  | [] => (Ok tt, w)
  | item :: rest =>
      match setitem "_download_date" (JStr date_str) item with
      | Ok stamped => write_items date_str rest (emit (EvWrite stamped) w)
      | Raise e => (Raise e, w)
      end
  end.

(** The [try] block of one date, up to the first exception. *)
Definition try_block (srv : server) (date_str : string) (st : crawl) : result unit * crawl :=
  let '(r, w1) := list_by_date srv date_str (world st) in
  match r with
  | Raise e => (Raise e, with_world w1 st)
  | Ok data =>
      match (if truthy data then py_len data else Ok 0) with
      | Raise e => (Raise e, with_world w1 st)
      | Ok count =>
          let '(written, w2) :=
            if truthy data then
              match py_iter data with
              | Ok items => write_items date_str items w1
              | Raise e => (Raise e, w1)
              end
            else (Ok tt, w1) in
          match written with
          | Raise e => (Raise e, with_world w2 st)
          | Ok _ =>
              (Ok tt,
               {| current_date := current_date st;
                  downloaded_dates := {[date_str]} ∪ downloaded_dates st;
                  downloaded_count := downloaded_count st + 1;
                  total_tenders :=
                    if truthy data then total_tenders st + count else total_tenders st;
                  days_processed := days_processed st;
                  world := w2 |})
          end
      end
  end.

(** [current_date += timedelta(days=1); days_processed += 1]. *)
Definition advance (st : crawl) : step crawl :=
  match add_one_day (current_date st) with
  | Ok d =>
      Next {| current_date := d; downloaded_dates := downloaded_dates st;
              downloaded_count := downloaded_count st; total_tenders := total_tenders st;
              days_processed := days_processed st + 1; world := world st |}
  | Raise e => Crash e st
  end.

(** [_save_progress(progress_file, downloaded_dates, total_tenders)]. *)
Definition _save_progress (downloaded : gset string) (total : Z) (w : io) : io :=
  emit (EvSave downloaded (Some total)) w.

(** The end of a turn that was not cut short by [continue]: the periodic
    save, the step to the next day and the delay between requests. *)
Definition periodic_save (save_interval : Z) (st : crawl) : step crawl :=
  if save_interval =? 0 then Crash ZeroDivisionError st
  else
    let st1 :=
      if downloaded_count st mod save_interval =? 0
      then with_world
             (emit EvFlush (_save_progress (downloaded_dates st) (total_tenders st) (world st)))
             st
      else st in
    match advance st1 with
    | Next st2 => Next (with_world (emit EvDelay (world st2)) st2)
    | Crash e st2 => Crash e st2
    end.

(** One turn of [while current_date <= end_date]. *)
Definition loop_body (srv : server) (decode_is_request_exception : bool)
    (save_interval : Z) (st : crawl) : step crawl :=
  let date_str := strftime_Ymd (current_date st) in
  if bool_decide (date_str ∈ downloaded_dates st) then advance st
  else
    let '(r, st1) := try_block srv date_str st in
    match r with
    | Ok _ => periodic_save save_interval st1
    | Raise e =>
        if is_request_exception decode_is_request_exception e
        then advance (with_world (emit (EvSleep NetworkError 5) (world st1)) st1)
        else periodic_save save_interval st1
    end.

(** The [while] loop; [None] when [fuel] turns were not enough. *)
Fixpoint crawl_loop (fuel : nat) (srv : server) (decode_is_request_exception : bool)
    (save_interval : Z) (end_date : datetime) (st : crawl) : option (step crawl) :=
  match fuel with
  | O => None
  | S k =>
      if dt_leb (current_date st) end_date then
        match loop_body srv decode_is_request_exception save_interval st with
        | Next st' => crawl_loop k srv decode_is_request_exception save_interval end_date st'
        | Crash e st' => Some (Crash e st')
        end
      else Some (Next st)
  end.

(** The loop from [start_date] to [end_date] inside [with open(all_data_file, 'a')],
    and the final [_save_progress].  [progress] is the content of the
    progress file found at the start, if there is one; the counters start
    from zero whatever it holds.  An exception leaving the loop closes the
    record file and skips the final save. *)
Definition crawl_dates (fuel : nat) (srv : server) (decode_is_request_exception : bool)
    (save_interval : Z) (progress : option (gset string * option Z))
    (start_date end_date : datetime) (w : io) : option (step crawl) :=
  let st0 :=
    {| current_date := start_date;
       downloaded_dates := match progress with Some (dates, _) => dates | None => ∅ end;
       downloaded_count := 0; total_tenders := 0; days_processed := 0; world := w |} in
  match crawl_loop fuel srv decode_is_request_exception save_interval end_date st0 with
  | None => None
  | Some (Crash e st) => Some (Crash e (with_world (emit EvClose (world st)) st))
  | Some (Next st) =>
      Some (Next (with_world
                    (_save_progress (downloaded_dates st) (total_tenders st)
                       (emit EvClose (world st))) st))
  end.

(** [print(f"總公告數: {total_count:,}")] with [total_count = info.get('公告數', 0)]:
    the thousands separator needs a number. *)
Definition print_total_count (fields : list (string * json)) : result unit :=
  match dict_get "公告數" (JNum 0) fields with
  | JNum _ | JBool _ => Ok tt
  | JStr _ => Raise ValueError
  | _ => Raise TypeError
  end.

(** [download_all_data]: the range comes from [get_info], then the dates
    are crawled.  The result is [total_tenders]. *)
Definition download_all_data (fuel : nat) (srv : server) (decode_is_request_exception : bool)
    (fromisoformat : string -> option moment) (now : datetime) (save_interval : Z)
    (progress : option (gset string * option Z)) (w : io) : option (result Z * io) :=
  let '(r, w1) := get_info srv w in
  match r with
  | Raise e => Some (Raise e, w1)
  | Ok info =>
      match crawl_range fromisoformat info now,
            match info with JObj fields => print_total_count fields | _ => Ok tt end with
      | Raise e, _ | Ok _, Raise e => Some (Raise e, w1)
      | Ok (oldest_date, newest_date), Ok _ =>
          match loop_bounds oldest_date newest_date with
          | Raise e => Some (Raise e, w1)
          | Ok (start_date, end_date) =>
              match crawl_dates fuel srv decode_is_request_exception save_interval progress
                      start_date end_date w1 with
              | None => None
              | Some (Next st) => Some (Ok (total_tenders st), world st)
              | Some (Crash e st) => Some (Raise e, world st)
              end
          end
      end
  end.

(** ** The detail pass: [download_tender_details] *)

Section DetailPass.

(** [str(v)] for a JSON value that is not a string, as an f-string
    formats it. *)
Variable str_other : json -> string.

(** [str(v)]. *)
Definition py_str (v : json) : string :=
  match v with
  | JStr s => s
  | _ => str_other v
  end.

(** [f"{tender.get('unit_id', '')}_{tender.get('job_number', '')}"]. *)
Definition tender_id (fields : list (string * json)) : string :=
  py_str (dict_get "unit_id" (JStr "") fields) +:+ "_" +:+
  py_str (dict_get "job_number" (JStr "") fields).

(** [tender.get(key)] used as a condition: a missing key gives [None]. *)
Definition has_field (key : string) (fields : list (string * json)) : bool :=
  match dict_lookup key fields with
  | Some v => truthy v
  | None => false
  end.

(** The scan of [all_tenders.jsonl].  A line is [None] when [json.loads]
    fails on it; such a line, and a document that is not a dict, raise
    inside the [try] and are passed over. *)
Fixpoint scan_tenders (downloaded_ids : gset string) (lines : list (option json))
  : list (list (string * json)) :=
  match lines with
  | [] => []
  | Some (JObj fields) :: rest =>
      if negb (bool_decide (tender_id fields ∈ downloaded_ids))
         && has_field "unit_id" fields && has_field "job_number" fields
      then fields :: scan_tenders downloaded_ids rest
      else scan_tenders downloaded_ids rest
  | _ :: rest => scan_tenders downloaded_ids rest
  end.

(** The local variables of the detail loop and the effects so far. *)
Record detail := mkdetail {
  downloaded_ids : gset string;
  count : Z;
  dworld : io
}.

(** One turn of [for tender in tenders].  Every exception of the [try]
    block, the [ZeroDivisionError] of [count % batch_size] included, is
    caught and printed; the delay follows in all cases. *)
Definition detail_body (srv : server) (batch_size : Z) (fields : list (string * json))
    (st : detail) : detail :=
  let unit_id := dict_get "unit_id" (JStr "") fields in
  let job_number := dict_get "job_number" (JStr "") fields in
  let '(r, w1) := get_tender_detail srv unit_id job_number (dworld st) in
  let st1 :=
    match r with
    | Raise _ => {| downloaded_ids := downloaded_ids st; count := count st; dworld := w1 |}
    | Ok detail =>
        if truthy detail then
          let ids := {[tender_id fields]} ∪ downloaded_ids st in
          let n := count st + 1 in
          let w2 := emit (EvWrite detail) w1 in
          if batch_size =? 0 then {| downloaded_ids := ids; count := n; dworld := w2 |}
          else if n mod batch_size =? 0
          then {| downloaded_ids := ids; count := n;
                  dworld := emit EvFlush (emit (EvSave ids None) w2) |}
          else {| downloaded_ids := ids; count := n; dworld := w2 |}
        else {| downloaded_ids := downloaded_ids st; count := count st; dworld := w1 |}
    end in
  {| downloaded_ids := downloaded_ids st1; count := count st1;
     dworld := emit EvDelay (dworld st1) |}.

(** [for tender in tenders]. *)
Definition detail_loop (srv : server) (batch_size : Z)
    (tenders : list (list (string * json))) (st : detail) : detail :=
  fold_left (fun st fields => detail_body srv batch_size fields st) tenders st.

(** [download_tender_details] once [all_tenders.jsonl] exists: the progress
    file is read, the list is scanned, every kept record is fetched, the
    detail file is closed and the progress is saved. *)
Definition download_tender_details (srv : server) (batch_size : Z)
    (progress : option (gset string * option Z)) (lines : list (option json))
    (w : io) : detail :=
  let loaded := match progress with Some (ids, _) => ids | None => ∅ end in
  let tenders := scan_tenders loaded lines in
  let st := detail_loop srv batch_size tenders
              {| downloaded_ids := loaded; count := 0; dworld := w |} in
  {| downloaded_ids := downloaded_ids st; count := count st;
     dworld := emit (EvSave (downloaded_ids st) None) (emit EvClose (dworld st)) |}.

End DetailPass.

(** ** The other downloads: [download_date_range] and
    [download_all_tenders_by_keyword] *)

(** [search_by_title(query, page)]. *)
Definition search_by_title (srv : server) (query : string) (page : Z) (w : io)
  : result json * io :=
  let '(r, w') :=
    _request_with_retry srv (BASE_URL +:+ "/searchbytitle")
      [("query", JStr query); ("page", JNum page)] 3 w in
  match r with
  | Ok result => (Ok (records_of result), w')
  | Raise e => (Raise e, w')
  end.

(** [all_data.extend(data)]: [None] stands for the [TypeError] of a value
    that cannot be iterated, which leaves the list as it was. *)
Definition extend (all_data : list json) (data : json) : option (list json) :=
  match py_iter data with
  | Ok items => Some (all_data ++ items)
  | Raise _ => None
  end.

(** A date argument of [download_date_range]: a [datetime] or a text. *)
Inductive date_arg :=
| DateValue (dt : datetime)
| DateText (s : string).

(** [if isinstance(d, str): d = datetime.strptime(d, "%Y%m%d")]. *)
Definition date_of_arg (d : date_arg) : result datetime :=
  match d with
  | DateValue dt => Ok dt
  | DateText s =>
      match strptime_Ymd s with
      | Some dt => Ok dt
      | None => Raise ValueError
      end
  end.

(** The local variables of the loop of [download_date_range]. *)
Record range_state := mkrange {
  range_date : datetime;
  range_data : list json;
  range_world : io
}.

(** One turn of [while current_date <= end_date]: every exception of the
    [try] block is caught and printed, then the day is stepped and the
    delay follows. *)
Definition range_body (srv : server) (st : range_state) : step range_state :=
  let date_str := strftime_Ymd (range_date st) in
  let '(r, w1) := list_by_date srv date_str (range_world st) in
  let all_data :=
    match r with
    | Ok data =>
        if truthy data then
          match extend (range_data st) data with
          | Some extended => extended
          | None => range_data st
          end
        else range_data st
    | Raise _ => range_data st
    end in
  match add_one_day (range_date st) with
  | Ok next =>
      Next {| range_date := next; range_data := all_data; range_world := emit EvDelay w1 |}
  | Raise e =>
      Crash e {| range_date := range_date st; range_data := all_data; range_world := w1 |}
  end.

Fixpoint range_loop (fuel : nat) (srv : server) (end_date : datetime) (st : range_state)
  : option (step range_state) :=
  match fuel with
  | O => None
  | S k =>
      if dt_leb (range_date st) end_date then
        match range_body srv st with
        | Next st' => range_loop k srv end_date st'
        | Crash e st' => Some (Crash e st')
        end
      else Some (Next st)
  end.

(** What [download_date_range] leaves: the name of the file it dumps the
    records to, and the records, which it also returns. *)
Record range_output := mkoutput {
  output_name : string;
  all_data : list json
}.

(** [download_date_range(start_date, end_date)]; [None] when [fuel] turns
    were not enough. *)
Definition download_date_range (fuel : nat) (srv : server) (start_date end_date : date_arg)
    (w : io) : option (result range_output * io) :=
  match date_of_arg start_date, date_of_arg end_date with
  | Raise e, _ | Ok _, Raise e => Some (Raise e, w)
  | Ok start, Ok stop =>
      match range_loop fuel srv stop
              {| range_date := start; range_data := []; range_world := w |} with
      | None => None
      | Some (Crash e st) => Some (Raise e, range_world st)
      | Some (Next st) =>
          Some (Ok {| output_name :=
                        "tenders_" +:+ strftime_Ymd start +:+ "_" +:+ strftime_Ymd stop
                          +:+ ".json";
                      all_data := range_data st |},
                range_world st)
      end
  end.

(** The local variables of the loop of [download_all_tenders_by_keyword]. *)
Record search_state := mksearch {
  page : Z;
  found : list json;
  search_world : io
}.

(** One turn of [while page <= max_pages]; the flag tells whether the loop
    goes on: it is left by [break] on an empty page and on any exception. *)
Definition search_body (srv : server) (keyword : string) (st : search_state)
  : search_state * bool :=
  let '(r, w1) := search_by_title srv keyword (page st) (search_world st) in
  let stop := ({| page := page st; found := found st; search_world := w1 |}, false) in
  match r with
  | Raise _ => stop
  | Ok data =>
      if negb (truthy data) then stop
      else
        match py_len data with
        | Raise _ => stop
        | Ok n =>
            if n =? 0 then stop
            else
              match extend (found st) data with
              | None => stop
              | Some extended =>
                  ({| page := page st + 1; found := extended;
                      search_world := emit EvDelay w1 |}, true)
              end
        end
  end.

Fixpoint search_loop (fuel : nat) (srv : server) (keyword : string) (max_pages : Z)
    (st : search_state) : option search_state :=
  match fuel with
  | O => None
  | S k =>
      if page st <=? max_pages then
        let '(st', continue) := search_body srv keyword st in
        if continue then search_loop k srv keyword max_pages st' else Some st'
      else Some st
  end.

(** [keyword.replace('/', '_').replace('\\', '_')]. *)
Definition safe_keyword (keyword : string) : string :=
  str_replace "\" "_" (str_replace "/" "_" keyword).

(** [download_all_tenders_by_keyword(keyword, max_pages)]. *)
Definition download_all_tenders_by_keyword (fuel : nat) (srv : server) (keyword : string)
    (max_pages : Z) (w : io) : option (range_output * io) :=
  match search_loop fuel srv keyword max_pages
          {| page := 1; found := []; search_world := w |} with
  | None => None
  | Some st =>
      Some ({| output_name := "search_" +:+ safe_keyword keyword +:+ ".json";
               all_data := found st |},
            search_world st)
  end.

(** ** The tables: [export_to_csv] and [convert_jsonl_to_csv] *)

(** What is handed to [csv.DictWriter]: the field names, and for every row
    the values of the cells before they are turned into text. *)
Record table := mktable {
  header : list string;
  rows : list (list json)
}.

(** [all_keys.update(item.keys())] over the dicts of a list. *)
Fixpoint all_keys (items : list json) : gset string :=
  match items with
  | [] => ∅
  | JObj fields :: rest => list_to_set (map fst fields) ∪ all_keys rest
  | _ :: rest => all_keys rest
  end.

(** [sorted(all_keys)]: texts are ordered character by character. *)
Definition sorted_keys (keys : gset string) : list string :=
  merge_sort String.le (elements keys).

(** [writer.writerow(item)] with the default [restval=''], for the dicts of
    a list; anything else is passed over. *)
Fixpoint dict_rows (fieldnames : list string) (items : list json) : list (list json) :=
  match items with
  | [] => []
  | JObj fields :: rest =>
      map (fun key => dict_get key (JStr "") fields) fieldnames :: dict_rows fieldnames rest
  | _ :: rest => dict_rows fieldnames rest
  end.

(** [export_to_csv(data, filename)]: [None] when there is nothing to
    export and no file is written. *)
Definition export_to_csv (data : list json) : option table :=
  match data with
  | [] => None
  | _ =>
      let fieldnames := sorted_keys (all_keys data) in
      Some {| header := fieldnames; rows := dict_rows fieldnames data |}
  end.

(** The documents of the lines that [json.loads] accepts. *)
Definition decoded (lines : list (option json)) : list json :=
  omap (fun line => line) lines.

(** [convert_jsonl_to_csv] once the input file exists: both passes skip
    the lines that fail, in [json.loads], in [item.keys()] or in
    [writer.writerow]. *)
Definition convert_jsonl_to_csv (lines : list (option json)) : table :=
  let fieldnames := sorted_keys (all_keys (decoded lines)) in
  {| header := fieldnames; rows := dict_rows fieldnames (decoded lines) |}.

(** ** Reading a log *)

(** The [date] parameters of the [listbydate] requests of a trace. *)
Definition get_date (e : event) : option (string * Z) :=
  match e with
  | EvGet url [(key, JStr d)] attempt =>
      if String.eqb url (BASE_URL +:+ "/listbydate") && String.eqb key "date"
      then Some (d, attempt) else None
  | _ => None
  end.

(** All dates requested, one entry per request. *)
Definition requested_dates (evs : list event) : list string :=
  omap (fun e => fst <$> get_date e) evs.

(** The dates on which a fetch was started: the first attempts. *)
Definition fetched_dates (evs : list event) : list string :=
  omap (fun e => match get_date e with
                 | Some (d, 0) => Some d
                 | _ => None
                 end) evs.

(** The identifier pairs on which a detail fetch was started. *)
Definition fetched_pairs (evs : list event) : list (json * json) :=
  omap (fun e => match e with
                 | EvGet url [(_, u); (_, j)] 0 =>
                     if String.eqb url (BASE_URL +:+ "/tender") then Some (u, j) else None
                 | _ => None
                 end) evs.

(** The waits of the rate-limit back-off, in order. *)
Definition backoff_sleeps (evs : list event) : list Z :=
  omap (fun e => match e with EvSleep RateLimit secs => Some secs | _ => None end) evs.

(** All sleeps of a fixed length, with their reason. *)
Definition sleeps (evs : list event) : list (sleep_reason * Z) :=
  omap (fun e => match e with EvSleep why secs => Some (why, secs) | _ => None end) evs.

(** The lines written to the record file, in order. *)
Definition written (evs : list event) : list json :=
  omap (fun e => match e with EvWrite line => Some line | _ => None end) evs.

(** The totals of the snapshots saved, in order. *)
Definition saved_totals (evs : list event) : list Z :=
  omap (fun e => match e with EvSave _ (Some total) => Some total | _ => None end) evs.

(** ** Vocabulary of the statements *)

(** What one call of the retry loop adds to the trace: requests of its own
    URL and parameters, numbered by attempts still to come, and sleeps. *)
Definition retry_event (url : string) (params : list (string * json)) (todo : list Z)
    (e : event) : Prop :=
  match e with
  | EvGet u p a => u = url /\ p = params /\ a ∈ todo
  | EvSleep _ _ => True
  | _ => False
  end.

(** A JSON object, a Python dict. *)
Definition is_dict (v : json) : Prop :=
  match v with
  | JObj _ => True
  | _ => False
  end.

(** A record with its source date set. *)
Definition stamp (date_str : string) (item : json) : json :=
  match item with
  | JObj fields => JObj (dict_set "_download_date" (JStr date_str) fields)
  | _ => item
  end.

(** What the end of a turn adds to the trace: a snapshot of the given set
    and counter, a flush of the record file, the delay. *)
Definition save_event (keys : gset string) (total : Z) (e : event) : Prop :=
  match e with
  | EvSave k (Some t) => k = keys /\ t = total
  | EvFlush | EvDelay => True
  | _ => False
  end.

(** A server that follows a script of outcomes, one per request. *)
Definition scripted (script : list outcome) (otherwise : outcome) : server :=
  fun n _ _ => nth n script otherwise.

(** A day at 00:00:00. *)
Definition midnight (y m d : Z) : datetime := mkdt y m d 0 0 0 0.

(** A list pass about to start on [start_date] with nothing downloaded. *)
Definition fresh_crawl (start_date : datetime) : crawl :=
  {| current_date := start_date; downloaded_dates := ∅; downloaded_count := 0;
     total_tenders := 0; days_processed := 0; world := mkio 0 [] |}.

(** The URL and the parameters of the request of [list_by_date]. *)
Definition list_url : string := BASE_URL +:+ "/listbydate".
Definition list_params (date_str : string) : list (string * json) := [("date", JStr date_str)].


(** Whether a character occurs in a text. *)
Fixpoint has_char (c : ascii) (s : string) : bool :=
  match s with
  | EmptyString => false
  | String c' rest => Ascii.eqb c c' || has_char c rest
  end.

(** Whether the first match of the month and day alternatives on the two
    padded fields of [m] and [d] reads them back and leaves nothing. *)
Definition first_match_is (m d : Z) : bool :=
  match flat_map (fun '(m', rest) => map (fun '(d', rest') => (m', d', rest'))
                                        (day_matches rest))
                 (month_matches (digits 2 m +:+ digits 2 d)) with
  | (m', d', EmptyString) :: _ => (m' =? m) && (d' =? d)
  | _ => false
  end.

(** What a turn on [date_str] adds after its first request, when it ends
    with the set [keys] and the counter [total]. *)
Definition turn_event (date_str : string) (keys : gset string) (total : Z) (e : event) : Prop :=
  match e with
  | EvGet u p a => u = list_url /\ p = list_params date_str /\ a ∈ [1; 2]
  | EvSleep _ _ | EvDelay | EvFlush | EvWrite _ => True
  | EvSave k (Some t) => k = keys /\ t = total
  | _ => False
  end.

(** No record file and no progress file yet. *)
Definition no_files : files := mkfiles [] [] None.

(** The totals saved by [download_all_data] run from scratch and then run
    again on the progress file that the first run left. *)
Definition resumed_totals (fuel : nat) (srv : server) (decode_rx : bool)
    (fromisoformat : string -> option moment) (now : datetime) (save_interval : Z)
  : option (list Z) :=
  match download_all_data fuel srv decode_rx fromisoformat now save_interval None
          (mkio 0 []) with
  | Some (Ok _, w1) =>
      let progress := checkpoint (replay (trace w1) no_files) in
      match download_all_data fuel srv decode_rx fromisoformat now save_interval progress w1 with
      | Some (Ok _, w2) => Some (saved_totals (trace w2))
      | _ => None
      end
  | _ => None
  end.

(** The claim on the counter as the specification words it: the totals
    saved never decrease, a resumed run included. *)
Definition counter_monotone_across_resume (fuel : nat) (srv : server) (decode_rx : bool)
    (fromisoformat : string -> option moment) (now : datetime) (save_interval : Z) : Prop :=
  forall totals,
    resumed_totals fuel srv decode_rx fromisoformat now save_interval = Some totals ->
    StronglySorted Z.le totals.

(** An upstream with data for the single day 2026-01-05: one list record,
    and a detail document for every pair. *)
Definition one_day_api : server :=
  fun _ url params =>
    if String.eqb url (BASE_URL +:+ "/getinfo") then
      Responded 200 (Some (JObj [("最新資料時間", JStr "2026-01-05T00:00:00+08:00");
                                 ("最舊資料時間", JStr "2026-01-05T00:00:00+08:00");
                                 ("公告數", JNum 1)]))
    else if String.eqb url (BASE_URL +:+ "/listbydate") then
      Responded 200 (Some (JObj [("records",
        JArr [JObj [("unit_id", JStr "A"); ("job_number", JStr "1")]])]))
    else Responded 200 (Some (JObj [("detail", JStr "x")])).

(** A server with one record on the first request and none afterwards. *)
Definition one_record_then_empty : server :=
  scripted [Responded 200 (Some (JObj [("records", JArr [JObj [("title", JStr "a")]])]))]
           (Responded 200 (Some (JObj [("records", JArr [])]))).

(** The identifier pair of a list record. *)
Definition pair_of (fields : list (string * json)) : json * json :=
  (dict_get "unit_id" (JStr "") fields, dict_get "job_number" (JStr "") fields).

(** The claim on the detail pass as the specification words it: no pair is
    fetched twice in a run. *)
Definition pair_fetched_at_most_once (str_other : json -> string) (srv : server)
    (batch_size : Z) (progress : option (gset string * option Z))
    (lines : list (option json)) : Prop :=
  NoDup (fetched_pairs
           (trace (dworld (download_tender_details str_other srv batch_size progress lines
                             (mkio 0 []))))).

(** A tender announced and later amended: two list records, one pair. *)
Definition amended_tender : list (option json) :=
  [Some (JObj [("unit_id", JStr "A"); ("job_number", JStr "1"); ("date", JNum 20260105)]);
   Some (JObj [("unit_id", JStr "A"); ("job_number", JStr "1"); ("date", JNum 20260106)])].

(** The order of calendar days: the lexicographic order on year, month
    and day. *)
Definition date_le (a b : datetime) : Prop := lex_leb (date_fields a) (date_fields b) = true.
Definition date_lt (a b : datetime) : Prop := lex_leb (date_fields b) (date_fields a) = false.

(** A number that grows with the day: on valid dates it orders as
    [date_le] does. *)
Definition rank (dt : datetime) : Z := 372 * year dt + 31 * month dt + day dt.

(** The days visited from [d] on, one step of [add_one_day] at a time,
    while they do not pass [end_date]. *)
Fixpoint span (fuel : nat) (d end_date : datetime) : list datetime :=
  match fuel with
  | O => []
  | S k =>
      if dt_leb d end_date then
        d :: match add_one_day d with
             | Ok next => span k next end_date
             | Raise _ => []
             end
      else []
  end.

(** More turns than there are days from [start_date] to [end_date]. *)
Definition enough_fuel (start_date end_date : datetime) : nat :=
  S (Z.to_nat (rank end_date - rank start_date + 1)).

(** The days from [start_date] to [end_date]. *)
Definition dates_between (start_date end_date : datetime) : list datetime :=
  span (enough_fuel start_date end_date) start_date end_date.

(** ** Vocabulary of the further properties *)

(** The requests of a trace: URL, parameters and number of the attempt. *)
(** The requests of a trace, in order: URL, parameters and attempt. *)
Definition requests_of (evs : list event) : list (string * list (string * json) * Z) :=
  omap (fun e => match e with EvGet u p a => Some (u, p, a) | _ => None end) evs.

(** The seconds slept in the sleeps of fixed length of a trace. *)
(** The seconds spent in the sleeps of a fixed length. *)
Definition seconds_slept (evs : list event) : Z :=
  foldr Z.add 0 (snd <$> sleeps evs).


(** An upstream that answers every request with a non-empty document. *)
Definition always_answers (srv : server) : Prop :=
  forall n url params,
    exists body, srv n url params = Responded 200 (Some body) /\ truthy body = true.

(** The snapshots of the detail pass: the sets saved, in order. *)
Definition saved_ids (evs : list event) : list (gset string) :=
  omap (fun e => match e with EvSave ids None => Some ids | _ => None end) evs.

(** The URL and the parameters of the request of [search_by_title]. *)
Definition search_url : string := BASE_URL +:+ "/searchbytitle".
Definition search_params (query : string) (page : Z) : list (string * json) :=
  [("query", JStr query); ("page", JNum page)].

(** The pages on which a search was started: the first attempts. *)
Definition searched_pages (evs : list event) : list Z :=
  omap (fun e => match e with
                 | EvGet url [(_, _); (_, JNum p)] 0 =>
                     if String.eqb url search_url then Some p else None
                 | _ => None
                 end) evs.

(** A text with every character replaced by its image. *)
Fixpoint map_chars (f : ascii -> ascii) (s : string) : string :=
  match s with
  | EmptyString => EmptyString
  | String c rest => String (f c) (map_chars f rest)
  end.

(** What [safe_keyword] does to one character. *)
Definition safe_char (c : ascii) : ascii :=
  if Ascii.eqb c "/" || Ascii.eqb c "\" then "_"%char else c.

(** The dicts of a list of documents, in order. *)
Definition dicts_of (data : list json) : list (list (string * json)) :=
  omap (fun v => match v with JObj fields => Some fields | _ => None end) data.

(** A header for the documents of [data]: sorted, without repetition, and
    made of the keys of the dicts of [data]. *)
Definition lists_keys_of (data : list json) (names : list string) : Prop :=
  StronglySorted String.le names /\ NoDup names /\
  forall key, key ∈ names <->
              exists fields, JObj fields ∈ data /\ is_Some (dict_lookup key fields).

(** Rows for the documents of [data] under the header [names]: one row for
    every dict, in order, with one cell for every name; the cell of a name
    holds the value of that key, or the empty text when the dict has no
    such key, and every field of the dict is in the cell of its key. *)
Definition holds_fields_of (data : list json) (names : list string)
    (cells : list (list json)) : Prop :=
  length cells = length (dicts_of data) /\
  forall i fields,
    dicts_of data !! i = Some fields ->
    exists row,
      cells !! i = Some row /\ length row = length names /\
      (forall j key, names !! j = Some key ->
                     row !! j = Some (dict_get key (JStr "") fields)) /\
      (forall key v, dict_lookup key fields = Some v ->
                     exists j, names !! j = Some key /\ row !! j = Some v).

(** What every version of Python documents of [datetime.fromisoformat]: it
    reads back what [isoformat] writes. *)
Definition reads_isoformat (fromisoformat : string -> option moment) : Prop :=
  forall dt, valid_datetime dt = true -> fromisoformat (isoformat dt) = Some (naive dt).

(** * Properties *)

(** ** Traces *)

(** Brings appended lists to one right-nested list. *)
Ltac list_assoc := repeat (rewrite <- app_assoc || rewrite <- app_comm_cons).

Lemma trace_emit e w : trace (emit e w) = trace w ++ [e].
Proof. reflexivity. Qed.

Lemma session_get_trace srv url params attempt w :
  trace (snd (session_get srv url params attempt w)) = trace w ++ [EvGet url params attempt].
Proof. reflexivity. Qed.

Lemma retry_event_mono url params todo todo' e :
  todo ⊆ todo' -> retry_event url params todo e -> retry_event url params todo' e.
Proof. destruct e; simpl; intros Hsub H; try done. set_solver. Qed.

Lemma retry_loop_trace srv url params max_retries todo :
  forall w r w',
    retry_loop srv url params max_retries todo w = (r, w') ->
    exists added, trace w' = trace w ++ added /\ Forall (retry_event url params todo) added.
Proof.
  induction todo as [|attempt rest IH]; intros w r w' Hrun; simpl in Hrun.
  - inversion Hrun; subst. exists []. by rewrite app_nil_r.
  - assert (Hget : retry_event url params (attempt :: rest) (EvGet url params attempt))
      by (simpl; set_solver).
    assert (Hstop : exists added,
               trace (snd (session_get srv url params attempt w)) = trace w ++ added /\
               Forall (retry_event url params (attempt :: rest)) added).
    { exists [EvGet url params attempt]. split; [apply session_get_trace | by constructor]. }
    assert (Hmore : forall why secs r w',
               retry_loop srv url params max_retries rest
                 (emit (EvSleep why secs) (snd (session_get srv url params attempt w)))
               = (r, w') ->
               exists added, trace w' = trace w ++ added /\
                             Forall (retry_event url params (attempt :: rest)) added).
    { intros why secs r0 w0 Hrest. apply IH in Hrest as (added & Htr & Hall).
      exists (EvGet url params attempt :: EvSleep why secs :: added). split.
      - rewrite Htr, trace_emit, session_get_trace, <- !app_assoc. reflexivity.
      - constructor; [done|]. constructor; [done|].
        eapply Forall_impl; [exact Hall|]. intros e. apply retry_event_mono. set_solver. }
    unfold session_get in *. simpl in *.
    destruct (srv (requests w) url params) as [status body| |].
    + destruct (status =? 429); [by eapply Hmore|].
      destruct ((400 <=? status) && (status <? 600)); [inversion Hrun; by subst|].
      destruct body; inversion Hrun; by subst.
    + destruct (attempt <? max_retries - 1); [by eapply Hmore|]. inversion Hrun; by subst.
    + inversion Hrun; by subst.
Qed.

Lemma py_range_sorted n : StronglySorted Z.lt (py_range n).
Proof.
  unfold py_range. generalize (Z.to_nat n) as k. generalize 0%nat as a.
  intros a k. revert a. induction k as [|k IH]; intros a; simpl; constructor.
  - apply IH.
  - apply Forall_forall. intros x Hx.
    apply list_elem_of_fmap in Hx as (i & -> & Hi).
    apply elem_of_seq in Hi. lia.
Qed.

Lemma py_range_bounds n a : a ∈ py_range n -> 0 <= a < n.
Proof.
  unfold py_range. intros Ha. apply list_elem_of_fmap in Ha as (i & -> & Hi).
  apply elem_of_seq in Hi. lia.
Qed.

Lemma backoff_sleeps_app a b : backoff_sleeps (a ++ b) = backoff_sleeps a ++ backoff_sleeps b.
Proof. apply omap_app. Qed.

(** The back-off waits of one run of the retry loop over increasing attempt
    numbers are [10 * (attempt + 1)] for some of these attempts, in order. *)
Lemma retry_loop_backoff srv url params max_retries todo :
  StronglySorted Z.lt todo ->
  forall w r w',
    retry_loop srv url params max_retries todo w = (r, w') ->
    exists waits,
      backoff_sleeps (trace w') = backoff_sleeps (trace w) ++ waits /\
      StronglySorted Z.lt waits /\
      Forall (fun s => exists attempt, attempt ∈ todo /\ s = 10 * (attempt + 1)) waits.
Proof.
  induction 1 as [|attempt rest Hsorted IH Hlt]; intros w r w' Hrun; simpl in Hrun.
  - inversion Hrun; subst. exists []. rewrite app_nil_r. repeat constructor.
  - set (w1 := {| requests := S (requests w); log := EvGet url params attempt :: log w |}) in *.
    assert (Hw1 : trace w1 = trace w ++ [EvGet url params attempt]) by reflexivity.
    assert (Hstop : exists waits,
               backoff_sleeps (trace w1) = backoff_sleeps (trace w) ++ waits /\
               StronglySorted Z.lt waits /\
               Forall (fun s => exists a, a ∈ attempt :: rest /\ s = 10 * (a + 1)) waits).
    { exists []. rewrite Hw1, backoff_sleeps_app. simpl. repeat constructor. }
    assert (Hweaken : forall waits,
               Forall (fun s => exists a, a ∈ rest /\ s = 10 * (a + 1)) waits ->
               Forall (fun s => exists a, a ∈ attempt :: rest /\ s = 10 * (a + 1)) waits).
    { intros waits Hf. eapply Forall_impl; [exact Hf|].
      intros s (a & Ha & ->). exists a. set_solver. }
    destruct (srv (requests w) url params) as [status body| |].
    + destruct (status =? 429).
      * apply IH in Hrun as (waits & Htr & Hs & Hall).
        exists (10 * (attempt + 1) :: waits). split; [|split].
        -- rewrite Htr, trace_emit, backoff_sleeps_app, Hw1, backoff_sleeps_app.
           rewrite <- !app_assoc. reflexivity.
        -- constructor; [done|]. eapply Forall_impl; [exact Hall|].
           intros s (a & Ha & ->). rewrite Forall_forall in Hlt.
           apply Hlt in Ha. lia.
        -- constructor; [exists attempt; set_solver|]. by apply Hweaken.
      * destruct ((400 <=? status) && (status <? 600)); [by inversion Hrun; subst|].
        destruct body; by inversion Hrun; subst.
    + destruct (attempt <? max_retries - 1).
      * apply IH in Hrun as (waits & Htr & Hs & Hall).
        exists waits. split; [|split]; [|done|by apply Hweaken].
        rewrite Htr, trace_emit, backoff_sleeps_app, Hw1, backoff_sleeps_app.
        cbn. by rewrite !app_nil_r.
      * by inversion Hrun; subst.
    + by inversion Hrun; subst.
Qed.

(** ** One date of the list pass *)

Lemma dict_lookup_set key v fields : dict_lookup key (dict_set key v fields) = Some v.
Proof.
  induction fields as [|[k w] rest IH]; simpl.
  - by rewrite String.eqb_refl.
  - destruct (String.eqb k key) eqn:E; simpl; rewrite E; [done | exact IH].
Qed.

Lemma write_items_dicts date_str items :
  Forall is_dict items ->
  forall w, exists w',
    write_items date_str items w = (Ok tt, w') /\
    requests w' = requests w /\
    trace w' = trace w ++ (EvWrite <$> (stamp date_str <$> items)).
Proof.
  induction 1 as [|item rest Hitem _ IH]; intros w; simpl.
  - exists w. by rewrite app_nil_r.
  - destruct item; try done. simpl.
    destruct (IH (emit (EvWrite (JObj (dict_set "_download_date" (JStr date_str) fields))) w))
      as (w' & Hrun & Hreq & Htr).
    exists w'. split; [exact Hrun|]. split; [by rewrite Hreq|].
    rewrite Htr, trace_emit, <- app_assoc. reflexivity.
Qed.

Lemma list_by_date_unfold srv date_str w :
  list_by_date srv date_str w =
  match _request_with_retry srv (BASE_URL +:+ "/listbydate") [("date", JStr date_str)] 3 w with
  | (Ok result, w') => (Ok (records_of result), w')
  | (Raise e, w') => (Raise e, w')
  end.
Proof.
  unfold list_by_date.
  by destruct (_request_with_retry srv (BASE_URL +:+ "/listbydate") [("date", JStr date_str)] 3 w)
    as [[result|e] w'].
Qed.

(** The [try] block on a day for which [list_by_date] returns a list of
    dicts: every record is written with its date, in order, the date joins
    the set and the counters move. *)
Lemma try_block_records srv date_str st items w1 :
  list_by_date srv date_str (world st) = (Ok (JArr items), w1) ->
  Forall is_dict items ->
  exists st',
    try_block srv date_str st = (Ok tt, st') /\
    current_date st' = current_date st /\
    downloaded_dates st' = {[date_str]} ∪ downloaded_dates st /\
    downloaded_count st' = downloaded_count st + 1 /\
    total_tenders st' = total_tenders st + Z.of_nat (length items) /\
    requests (world st') = requests w1 /\
    trace (world st') = trace w1 ++ (EvWrite <$> (stamp date_str <$> items)).
Proof.
  intros Hlist Hdicts. unfold try_block. rewrite Hlist.
  destruct items as [|item rest].
  - simpl. eexists. split; [reflexivity|]. simpl.
    rewrite Z.add_0_r, app_nil_r. by repeat split.
  - change (truthy (JArr (item :: rest))) with true. cbv iota.
    change (py_len (JArr (item :: rest))) with (@Ok Z (Z.of_nat (length (item :: rest)))).
    change (py_iter (JArr (item :: rest))) with (Ok (item :: rest)). cbv iota.
    destruct (write_items_dicts date_str (item :: rest) Hdicts w1) as (w2 & -> & Hreq & Htr).
    eexists. split; [reflexivity|]. simpl. by repeat split.
Qed.

(** The end of a turn keeps the set of dates, the counters and the lines
    written; it adds no request. *)
Lemma advance_keeps st :
  downloaded_dates (state_of (advance st)) = downloaded_dates st /\
  downloaded_count (state_of (advance st)) = downloaded_count st /\
  total_tenders (state_of (advance st)) = total_tenders st /\
  world (state_of (advance st)) = world st.
Proof. unfold advance. by destruct (add_one_day (current_date st)). Qed.

Lemma periodic_save_keeps save_interval st :
  let st' := state_of (periodic_save save_interval st) in
  downloaded_dates st' = downloaded_dates st /\
  downloaded_count st' = downloaded_count st /\
  total_tenders st' = total_tenders st /\
  requests (world st') = requests (world st) /\
  exists added,
    trace (world st') = trace (world st) ++ added /\
    Forall (save_event (downloaded_dates st) (total_tenders st)) added.
Proof.
  unfold periodic_save.
  destruct (save_interval =? 0); simpl.
  { repeat split; try done. exists []. by rewrite app_nil_r. }
  destruct (downloaded_count st mod save_interval =? 0); unfold advance; simpl;
    destruct (add_one_day (current_date st)); simpl; repeat split; try done.
  - exists [EvSave (downloaded_dates st) (Some (total_tenders st)); EvFlush; EvDelay].
    unfold trace; simpl. rewrite <- !app_assoc. split; [done|]. by repeat constructor.
  - exists [EvSave (downloaded_dates st) (Some (total_tenders st)); EvFlush].
    unfold trace; simpl. rewrite <- !app_assoc. split; [done|]. by repeat constructor.
  - exists [EvDelay]. unfold trace; simpl. split; [done|]. by repeat constructor.
  - exists []. by rewrite app_nil_r.
Qed.

Lemma written_app a b : written (a ++ b) = written a ++ written b.
Proof. apply omap_app. Qed.

Lemma written_writes lines : written (EvWrite <$> lines) = lines.
Proof. induction lines as [|l rest IH]; [done|]. cbn. by rewrite <- IH at 2. Qed.

Lemma written_none (P : event -> Prop) added :
  Forall P added ->
  (forall e, P e -> match e with EvWrite _ => False | _ => True end) ->
  written added = [].
Proof.
  intros Hall. induction Hall as [|e rest He _ IH]; intros HP; [done|].
  apply HP in He. destruct e; try done; by apply IH.
Qed.

(** A fetch writes no line. *)
Lemma request_written srv url params max_retries w :
  written (trace (snd (_request_with_retry srv url params max_retries w))) = written (trace w).
Proof.
  unfold _request_with_retry.
  destruct (retry_loop srv url params max_retries (py_range max_retries) w) as [r w'] eqn:E.
  apply retry_loop_trace in E as (added & Htr & Hall). simpl.
  rewrite Htr, written_app, (written_none _ added Hall); [by rewrite app_nil_r|].
  by intros [].
Qed.

(** A turn on a date that is not in the set, when [list_by_date] returns a
    list of dicts: the lines of the day, then the end of the turn. *)
Lemma loop_body_records srv decode_rx save_interval st items w1 :
  strftime_Ymd (current_date st) ∉ downloaded_dates st ->
  list_by_date srv (strftime_Ymd (current_date st)) (world st) = (Ok (JArr items), w1) ->
  Forall is_dict items ->
  let date_str := strftime_Ymd (current_date st) in
  let st' := state_of (loop_body srv decode_rx save_interval st) in
  downloaded_dates st' = {[date_str]} ∪ downloaded_dates st /\
  downloaded_count st' = downloaded_count st + 1 /\
  total_tenders st' = total_tenders st + Z.of_nat (length items) /\
  exists tail,
    trace (world st') = trace w1 ++ (EvWrite <$> (stamp date_str <$> items)) ++ tail /\
    Forall (save_event (downloaded_dates st') (total_tenders st')) tail.
Proof.
  intros Hnew Hlist Hdicts. unfold loop_body.
  rewrite bool_decide_eq_false_2 by done.
  destruct (try_block_records srv _ st items w1 Hlist Hdicts)
    as (st1 & -> & _ & Hdates & Hcount & Htotal & _ & Htr).
  cbv zeta.
  destruct (periodic_save_keeps save_interval st1) as (-> & -> & -> & _ & tail & -> & Hall).
  repeat split; try done. exists tail. by rewrite Htr, <- app_assoc.
Qed.

Lemma save_event_written keys total tail :
  Forall (save_event keys total) tail -> written tail = [].
Proof. intros Hall. apply (written_none _ _ Hall). by intros []. Qed.

Lemma save_event_backoff keys total tail :
  Forall (save_event keys total) tail -> backoff_sleeps tail = [].
Proof. induction 1 as [|[] rest He _ IH]; try done. Qed.

Lemma backoff_writes lines : backoff_sleeps (EvWrite <$> lines) = [].
Proof. by induction lines. Qed.

Lemma written_trace_request srv url params max_retries w r w' :
  _request_with_retry srv url params max_retries w = (r, w') ->
  written (trace w') = written (trace w).
Proof.
  intros E. rewrite <- (request_written srv url params max_retries w). by rewrite E.
Qed.

(** ** Exhausting the retries *)

(** Every attempt answered 429: each one is followed by its back-off wait,
    the last one too, and the loop falls through to [return None]. *)
Lemma retry_loop_all_429 srv url params max_retries todo :
  forall w,
    (forall i, (i < length todo)%nat ->
               exists body, srv (requests w + i)%nat url params = Responded 429 body) ->
    exists w',
      retry_loop srv url params max_retries todo w = (Ok JNull, w') /\
      requests w' = (requests w + length todo)%nat /\
      trace w' = trace w ++
        flat_map (fun attempt => [EvGet url params attempt;
                                  EvSleep RateLimit (10 * (attempt + 1))]) todo.
Proof.
  induction todo as [|attempt rest IH]; intros w Hsrv; simpl.
  - exists w. by rewrite Nat.add_0_r, app_nil_r.
  - destruct (Hsrv 0%nat ltac:(simpl; lia)) as [body Hbody].
    rewrite Nat.add_0_r in Hbody. rewrite Hbody. simpl.
    destruct (IH (emit (EvSleep RateLimit (10 * (attempt + 1)))
                    {| requests := S (requests w); log := EvGet url params attempt :: log w |}))
      as (w' & Hrun & Hreq & Htr).
    { intros i Hi. simpl. destruct (Hsrv (S i) ltac:(simpl; lia)) as [b Hb].
      exists b. by rewrite <- Hb, Nat.add_succ_r. }
    exists w'. split; [exact Hrun|]. split.
    + rewrite Hreq. simpl. lia.
    + rewrite Htr. unfold trace at 1. simpl. by rewrite <- !app_assoc.
Qed.

(** Every attempt timing out: a wait of five seconds between attempts, and
    [Timeout] is raised again from the last one. *)
Lemma retry_loop_all_timeouts srv url params max_retries k :
  forall a w,
    Z.of_nat (a + S k) = max_retries ->
    (forall i, (i <= k)%nat -> srv (requests w + i)%nat url params = TimedOut) ->
    exists w',
      retry_loop srv url params max_retries (Z.of_nat <$> seq a (S k)) w = (Raise Timeout, w') /\
      requests w' = (requests w + S k)%nat /\
      trace w' = trace w ++
        flat_map (fun attempt => [EvGet url params attempt; EvSleep TimeoutRetry 5])
                 (Z.of_nat <$> seq a k)
        ++ [EvGet url params (max_retries - 1)].
Proof.
  induction k as [|k IH]; intros a w Hmax Hsrv.
  - pose proof (Hsrv 0%nat ltac:(lia)) as H0. rewrite Nat.add_0_r in H0.
    simpl. rewrite H0.
    replace (Z.of_nat a <? max_retries - 1) with false by (symmetry; apply Z.ltb_ge; lia).
    eexists. split; [reflexivity|]. simpl. split; [lia|].
    unfold trace. simpl. repeat f_equal. lia.
  - change (Z.of_nat <$> seq a (S (S k))) with (Z.of_nat a :: (Z.of_nat <$> seq (S a) (S k))).
    cbn [retry_loop session_get]. pose proof (Hsrv 0%nat ltac:(lia)) as H0.
    rewrite Nat.add_0_r in H0. rewrite H0.
    replace (Z.of_nat a <? max_retries - 1) with true by (symmetry; apply Z.ltb_lt; lia).
    destruct (IH (S a) (emit (EvSleep TimeoutRetry 5)
                    {| requests := S (requests w); log := EvGet url params (Z.of_nat a) :: log w |}))
      as (w' & Hrun & Hreq & Htr).
    { lia. }
    { intros i Hi. simpl. rewrite <- (Hsrv (S i)) by lia. by rewrite Nat.add_succ_r. }
    exists w'. split; [exact Hrun|]. split.
    + rewrite Hreq. simpl. lia.
    + rewrite Htr. unfold trace at 1. simpl. by rewrite <- !app_assoc.
Qed.

(** ** The fetch client *)

(** The answers 429, 429 and then a body. *)
Lemma request_after_two_429 srv url params b1 b2 body w :
  srv (requests w) url params = Responded 429 b1 ->
  srv (S (requests w)) url params = Responded 429 b2 ->
  srv (S (S (requests w))) url params = Responded 200 (Some body) ->
  exists w',
    _request_with_retry srv url params 3 w = (Ok body, w') /\
    trace w' = trace w ++ [EvGet url params 0; EvSleep RateLimit 10;
                           EvGet url params 1; EvSleep RateLimit 20;
                           EvGet url params 2].
Proof.
  intros H1 H2 H3. unfold _request_with_retry.
  change (py_range 3) with [0; 1; 2]. simpl. rewrite H1. simpl. rewrite H2. simpl.
  rewrite H3. simpl. eexists. split; [reflexivity|].
  unfold trace. simpl. by list_assoc.
Qed.

(** C8. Within one call of the fetch, the waits after HTTP 429 answers are
    strictly increasing, each being ten seconds times the number of the
    attempt; the answers 429, 429, success give exactly the waits 10 and
    20 and then the decoded body, which the list pass records as for any
    other day. *)
Theorem backoff_waits_increase :
  (forall srv url params max_retries w,
     exists waits,
       backoff_sleeps (trace (snd (_request_with_retry srv url params max_retries w)))
       = backoff_sleeps (trace w) ++ waits /\
       StronglySorted Z.lt waits /\
       Forall (fun secs => exists attempt_number,
                   1 <= attempt_number <= max_retries /\ secs = 10 * attempt_number) waits) /\
  (forall srv url params b1 b2 body w,
     srv (requests w) url params = Responded 429 b1 ->
     srv (S (requests w)) url params = Responded 429 b2 ->
     srv (S (S (requests w))) url params = Responded 200 (Some body) ->
     exists w',
       _request_with_retry srv url params 3 w = (Ok body, w') /\
       trace w' = trace w ++ [EvGet url params 0; EvSleep RateLimit 10;
                              EvGet url params 1; EvSleep RateLimit 20;
                              EvGet url params 2]) /\
  (forall srv decode_rx save_interval st b1 b2 items,
     let date_str := strftime_Ymd (current_date st) in
     date_str ∉ downloaded_dates st ->
     srv (requests (world st)) list_url (list_params date_str) = Responded 429 b1 ->
     srv (S (requests (world st))) list_url (list_params date_str) = Responded 429 b2 ->
     srv (S (S (requests (world st)))) list_url (list_params date_str)
     = Responded 200 (Some (JObj [("records", JArr items)])) ->
     Forall is_dict items ->
     let st' := state_of (loop_body srv decode_rx save_interval st) in
     backoff_sleeps (trace (world st')) = backoff_sleeps (trace (world st)) ++ [10; 20] /\
     written (trace (world st')) = written (trace (world st)) ++ (stamp date_str <$> items) /\
     date_str ∈ downloaded_dates st').
Proof.
  split; [|split; [exact request_after_two_429|]].
  - intros srv url params max_retries w. unfold _request_with_retry.
    destruct (retry_loop srv url params max_retries (py_range max_retries) w) as [r w'] eqn:E.
    apply retry_loop_backoff in E as (waits & Htr & Hsorted & Hall); [|apply py_range_sorted].
    exists waits. split; [exact Htr|]. split; [exact Hsorted|].
    eapply Forall_impl; [exact Hall|]. intros secs (a & Ha & ->).
    apply py_range_bounds in Ha. exists (a + 1). lia.
  - intros srv decode_rx save_interval st b1 b2 items date_str Hnew H1 H2 H3 Hdicts st'.
    destruct (request_after_two_429 _ _ _ _ _ _ _ H1 H2 H3) as (w1 & Hfetch & Htr).
    assert (Hlist : list_by_date srv date_str (world st) = (Ok (JArr items), w1)).
    { rewrite list_by_date_unfold. fold list_url. fold (list_params date_str).
      by rewrite Hfetch. }
    destruct (loop_body_records srv decode_rx save_interval st items w1 Hnew Hlist Hdicts)
      as (Hdates & _ & _ & tail & Htr' & Hall).
    subst st'. rewrite Htr', Htr. split; [|split].
    + rewrite !backoff_sleeps_app, (save_event_backoff _ _ _ Hall).
      by rewrite backoff_writes, !app_nil_r.
    + rewrite !written_app, (save_event_written _ _ _ Hall), written_writes.
      by rewrite !app_nil_r.
    + rewrite Hdates. set_solver.
Qed.

Lemma backoff_waits_increase_witness :
  let srv := scripted [Responded 429 None; Responded 429 None;
                       Responded 200 (Some (JObj [("records", JArr [])]))] Unreachable in
  exists w',
    _request_with_retry srv list_url (list_params "20260105") 3 (mkio 0 [])
    = (Ok (JObj [("records", JArr [])]), w') /\
    trace w' = [EvGet list_url (list_params "20260105") 0; EvSleep RateLimit 10;
                EvGet list_url (list_params "20260105") 1; EvSleep RateLimit 20;
                EvGet list_url (list_params "20260105") 2].
Proof.
  intros srv.
  exact (proj1 (proj2 backoff_waits_increase) srv list_url (list_params "20260105") None None
           (JObj [("records", JArr [])]) (mkio 0 []) eq_refl eq_refl eq_refl).
Defined.

Lemma sleeps_app a b : sleeps (a ++ b) = sleeps a ++ sleeps b.
Proof. apply omap_app. Qed.

Lemma sleeps_writes lines : sleeps (EvWrite <$> lines) = [].
Proof. by induction lines. Qed.

Lemma save_event_sleeps keys total tail :
  Forall (save_event keys total) tail -> sleeps tail = [].
Proof. induction 1 as [|[] rest He _ IH]; try done. Qed.

Lemma records_of_not_dict result : ~ is_dict result -> records_of result = JArr [].
Proof. by destruct result. Qed.

(** A fetch whose attempts all time out. *)
Lemma request_all_timeouts srv url params max_retries w :
  1 <= max_retries ->
  (forall i, Z.of_nat i < max_retries -> srv (requests w + i)%nat url params = TimedOut) ->
  exists w',
    _request_with_retry srv url params max_retries w = (Raise Timeout, w') /\
    trace w' = trace w ++
      flat_map (fun attempt => [EvGet url params attempt; EvSleep TimeoutRetry 5])
               (py_range (max_retries - 1))
      ++ [EvGet url params (max_retries - 1)].
Proof.
  intros Hmax Hsrv. unfold _request_with_retry, py_range.
  destruct (Z.to_nat max_retries) as [|k] eqn:Ek; [lia|].
  destruct (retry_loop_all_timeouts srv url params max_retries k 0%nat w)
    as (w' & Hrun & _ & Htr); [lia| |].
  { intros i Hi. apply Hsrv. lia. }
  exists w'. split; [exact Hrun|]. rewrite Htr.
  by replace (Z.to_nat (max_retries - 1)) with k by lia.
Qed.

(** C5. When every attempt of a fetch times out, the fetch waits five
    seconds between attempts and raises [Timeout] from the last one, and
    an answer after a timeout is returned as usual; after the [Timeout]
    the list pass waits, leaves the date out of the set of downloaded
    dates, writes and saves nothing and goes on with the next day. *)
Theorem timeout_propagates_and_day_is_skipped :
  (forall srv url params max_retries w,
     1 <= max_retries ->
     (forall i, Z.of_nat i < max_retries -> srv (requests w + i)%nat url params = TimedOut) ->
     exists w',
       _request_with_retry srv url params max_retries w = (Raise Timeout, w') /\
       trace w' = trace w ++
         flat_map (fun attempt => [EvGet url params attempt; EvSleep TimeoutRetry 5])
                  (py_range (max_retries - 1))
         ++ [EvGet url params (max_retries - 1)]) /\
  (forall srv url params body w,
     srv (requests w) url params = TimedOut ->
     srv (S (requests w)) url params = Responded 200 (Some body) ->
     exists w',
       _request_with_retry srv url params 3 w = (Ok body, w') /\
       trace w' = trace w ++ [EvGet url params 0; EvSleep TimeoutRetry 5;
                              EvGet url params 1]) /\
  (forall srv decode_rx save_interval st next,
     let date_str := strftime_Ymd (current_date st) in
     date_str ∉ downloaded_dates st ->
     (forall i, (i < 3)%nat ->
        srv (requests (world st) + i)%nat list_url (list_params date_str) = TimedOut) ->
     add_one_day (current_date st) = Ok next ->
     exists st',
       loop_body srv decode_rx save_interval st = Next st' /\
       current_date st' = next /\
       downloaded_dates st' = downloaded_dates st /\
       trace (world st') = trace (world st) ++
         [EvGet list_url (list_params date_str) 0; EvSleep TimeoutRetry 5;
          EvGet list_url (list_params date_str) 1; EvSleep TimeoutRetry 5;
          EvGet list_url (list_params date_str) 2; EvSleep NetworkError 5]).
Proof.
  split; [exact request_all_timeouts|]. split.
  { intros srv url params body w H1 H2. unfold _request_with_retry.
    change (py_range 3) with [0; 1; 2]. simpl. rewrite H1. simpl. rewrite H2. simpl.
    eexists. split; [reflexivity|]. unfold trace. simpl. by list_assoc. }
  intros srv decode_rx save_interval st next date_str Hnew Hsrv Hnext.
  destruct (request_all_timeouts srv list_url (list_params date_str) 3 (world st))
    as (w1 & Hrun & Htr); [lia| |].
  { intros i Hi. apply Hsrv. lia. }
  unfold loop_body. fold date_str. rewrite bool_decide_eq_false_2 by done.
  unfold try_block. rewrite list_by_date_unfold. fold list_url. fold (list_params date_str).
  rewrite Hrun. cbn [is_request_exception]. unfold advance. cbn [current_date with_world].
  rewrite Hnext. eexists. split; [reflexivity|]. cbn. repeat split.
  change (rev (log w1)) with (trace w1). rewrite Htr.
  change (py_range (3 - 1)) with [0; 1]. simpl. by rewrite <- !app_assoc.
Qed.

Lemma timeout_propagates_and_day_is_skipped_witness :
  let srv := scripted [] TimedOut in
  let st := fresh_crawl (midnight 2026 1 5) in
  exists st',
    loop_body srv true 100 st = Next st' /\
    current_date st' = midnight 2026 1 6 /\
    downloaded_dates st' = ∅ /\
    trace (world st') =
      [EvGet list_url (list_params "20260105") 0; EvSleep TimeoutRetry 5;
       EvGet list_url (list_params "20260105") 1; EvSleep TimeoutRetry 5;
       EvGet list_url (list_params "20260105") 2; EvSleep NetworkError 5].
Proof.
  intros srv st.
  refine (proj2 (proj2 timeout_propagates_and_day_is_skipped) srv true 100 st
            (midnight 2026 1 6) _ _ eq_refl).
  - apply not_elem_of_empty.
  - intros i _. unfold srv, scripted. by destruct i.
Defined.

(** ** Days of the list pass *)

Lemma list_by_date_of_fetch srv date_str w result w1 :
  _request_with_retry srv list_url (list_params date_str) 3 w = (Ok result, w1) ->
  list_by_date srv date_str w = (Ok (records_of result), w1).
Proof.
  intros E. rewrite list_by_date_unfold. fold list_url. fold (list_params date_str).
  by rewrite E.
Qed.

Lemma records_of_container fields items :
  dict_lookup "records" fields = Some (JArr items) ->
  records_of (JObj fields) = JArr items.
Proof.
  intros Hrec. unfold records_of, dict_get. rewrite Hrec.
  by destruct fields.
Qed.

(** The effect of a turn whose fetch returned [result], read off the
    records that [list_by_date] makes of it. *)
Lemma loop_body_of_fetch srv decode_rx save_interval st result items w1 :
  strftime_Ymd (current_date st) ∉ downloaded_dates st ->
  _request_with_retry srv list_url (list_params (strftime_Ymd (current_date st))) 3 (world st)
  = (Ok result, w1) ->
  records_of result = JArr items ->
  Forall is_dict items ->
  let date_str := strftime_Ymd (current_date st) in
  let st' := state_of (loop_body srv decode_rx save_interval st) in
  downloaded_dates st' = {[date_str]} ∪ downloaded_dates st /\
  downloaded_count st' = downloaded_count st + 1 /\
  total_tenders st' = total_tenders st + Z.of_nat (length items) /\
  written (trace (world st')) = written (trace (world st)) ++ (stamp date_str <$> items) /\
  sleeps (trace (world st')) = sleeps (trace w1).
Proof.
  intros Hnew Hfetch Hrec Hdicts date_str st'.
  pose proof (list_by_date_of_fetch _ _ _ _ _ Hfetch) as Hlist. rewrite Hrec in Hlist.
  destruct (loop_body_records srv decode_rx save_interval st items w1 Hnew Hlist Hdicts)
    as (Hdates & Hcount & Htotal & tail & Htr & Hall).
  repeat split; try done.
  - subst st'. rewrite Htr, !written_app, (save_event_written _ _ _ Hall), written_writes.
    by rewrite (written_trace_request _ _ _ _ _ _ _ Hfetch), app_nil_r.
  - subst st'. rewrite Htr, !sleeps_app, (save_event_sleeps _ _ _ Hall), sleeps_writes.
    by rewrite !app_nil_r.
Qed.

(** C7. A day whose list request succeeds with an empty record container
    adds no line to the record file and is still put in the set of
    downloaded dates; on a day with records, every record is written with
    [_download_date] set to that day, in the order received. *)
Theorem list_day_recorded srv decode_rx save_interval st fields items w1 :
  let date_str := strftime_Ymd (current_date st) in
  date_str ∉ downloaded_dates st ->
  _request_with_retry srv list_url (list_params date_str) 3 (world st) = (Ok (JObj fields), w1) ->
  dict_lookup "records" fields = Some (JArr items) ->
  Forall is_dict items ->
  let st' := state_of (loop_body srv decode_rx save_interval st) in
  date_str ∈ downloaded_dates st' /\
  written (trace (world st')) = written (trace (world st)) ++ (stamp date_str <$> items) /\
  Forall (fun line => exists fs, line = JObj fs /\
                        dict_lookup "_download_date" fs = Some (JStr date_str))
         (stamp date_str <$> items) /\
  (items = [] -> written (trace (world st')) = written (trace (world st))).
Proof.
  intros date_str Hnew Hfetch Hrec Hdicts st'.
  destruct (loop_body_of_fetch srv decode_rx save_interval st (JObj fields) items w1
              Hnew Hfetch (records_of_container _ _ Hrec) Hdicts)
    as (Hdates & _ & _ & Hwritten & _).
  fold date_str in Hdates, Hwritten. fold st' in Hdates, Hwritten.
  split; [rewrite Hdates; set_solver|]. split; [exact Hwritten|]. split.
  - apply Forall_fmap. eapply Forall_impl; [exact Hdicts|].
    intros [] Hd; try done. simpl. eexists. split; [reflexivity|]. apply dict_lookup_set.
  - intros ->. by rewrite Hwritten, app_nil_r.
Qed.

Lemma list_day_recorded_witness :
  let srv := scripted [Responded 200 (Some (JObj [("records", JArr [JObj [("title", JStr "a")]])]))]
               (Responded 200 (Some (JObj [("records", JArr [])]))) in
  let st := fresh_crawl (midnight 2026 1 5) in
  let st' := state_of (loop_body srv true 100 st) in
  "20260105" ∈ downloaded_dates st' /\
  written (trace (world st')) =
    [] ++ (stamp "20260105" <$> [JObj [("title", JStr "a")]]) /\
  Forall (fun line => exists fs, line = JObj fs /\
                        dict_lookup "_download_date" fs = Some (JStr "20260105"))
         (stamp "20260105" <$> [JObj [("title", JStr "a")]]) /\
  ([JObj [("title", JStr "a")]] = [] -> written (trace (world st')) = []).
Proof.
  intros srv st.
  refine (list_day_recorded srv true 100 st _ [JObj [("title", JStr "a")]] _ _ eq_refl eq_refl _).
  - apply not_elem_of_empty.
  - by repeat constructor.
Defined.

(** C10. [list_by_date] never raises on the shape of what the fetch
    returned: it yields a value whenever the fetch does, and the empty
    list when the fetch returned [None] (as after three 429 answers) or a
    document that is not a dict.  The turn of the list pass then ends as
    on a day with an empty record container: the date joins the set, the
    counter of records stays, no line is written. *)
Theorem list_by_date_total :
  (forall srv date_str w result w1,
     _request_with_retry srv list_url (list_params date_str) 3 w = (Ok result, w1) ->
     exists data,
       list_by_date srv date_str w = (Ok data, w1) /\
       (~ is_dict result -> data = JArr [])) /\
  (forall srv date_str w,
     (forall i, (i < 3)%nat ->
        exists body, srv (requests w + i)%nat list_url (list_params date_str)
                     = Responded 429 body) ->
     exists w1,
       _request_with_retry srv list_url (list_params date_str) 3 w = (Ok JNull, w1) /\
       list_by_date srv date_str w = (Ok (JArr []), w1)) /\
  (forall srv srv_empty decode_rx save_interval st result w1 w2,
     let date_str := strftime_Ymd (current_date st) in
     date_str ∉ downloaded_dates st ->
     _request_with_retry srv list_url (list_params date_str) 3 (world st) = (Ok result, w1) ->
     ~ is_dict result ->
     _request_with_retry srv_empty list_url (list_params date_str) 3 (world st)
     = (Ok (JObj [("records", JArr [])]), w2) ->
     let st' := state_of (loop_body srv decode_rx save_interval st) in
     let st_empty := state_of (loop_body srv_empty decode_rx save_interval st) in
     date_str ∈ downloaded_dates st' /\
     downloaded_dates st' = downloaded_dates st_empty /\
     downloaded_count st' = downloaded_count st_empty /\
     total_tenders st' = total_tenders st_empty /\
     total_tenders st' = total_tenders st /\
     written (trace (world st')) = written (trace (world st_empty)) /\
     written (trace (world st')) = written (trace (world st))).
Proof.
  split; [|split].
  - intros srv date_str w result w1 Hfetch. exists (records_of result).
    split; [by apply list_by_date_of_fetch | apply records_of_not_dict].
  - intros srv date_str w Hsrv.
    destruct (retry_loop_all_429 srv list_url (list_params date_str) 3 (py_range 3) w)
      as (w1 & Hrun & _ & _); [exact Hsrv|].
    exists w1. split; [exact Hrun|]. by apply (list_by_date_of_fetch _ _ _ JNull).
  - intros srv srv_empty decode_rx save_interval st result w1 w2 date_str Hnew Hfetch
      Hshape Hempty st' st_empty.
    destruct (loop_body_of_fetch srv decode_rx save_interval st result [] w1
                Hnew Hfetch (records_of_not_dict _ Hshape) ltac:(constructor))
      as (Hd & Hc & Ht & Hw & _).
    destruct (loop_body_of_fetch srv_empty decode_rx save_interval st _ [] w2
                Hnew Hempty eq_refl ltac:(constructor))
      as (Hd' & Hc' & Ht' & Hw' & _).
    fold date_str st' in Hd, Hc, Ht, Hw. fold date_str st_empty in Hd', Hc', Ht', Hw'.
    simpl in Ht, Ht', Hw, Hw'. rewrite app_nil_r in Hw, Hw'. rewrite Z.add_0_r in Ht, Ht'.
    rewrite Hd, Hd', Hc, Hc', Ht, Ht', Hw, Hw'. repeat split; try done. set_solver.
Qed.

Lemma list_by_date_total_witness :
  let srv := scripted [] (Responded 429 None) in
  exists w1,
    _request_with_retry srv list_url (list_params "20260105") 3 (mkio 0 []) = (Ok JNull, w1) /\
    list_by_date srv "20260105" (mkio 0 []) = (Ok (JArr []), w1).
Proof.
  intros srv.
  refine (proj1 (proj2 list_by_date_total) srv "20260105" (mkio 0 []) _).
  intros i _. exists None. unfold srv, scripted. by destruct i.
Defined.

(** ** Rate-limit exhaustion *)


Example rate_limited_day_is_marked :
  let st' := state_of (loop_body (scripted [] (Responded 429 None)) true 100
                         (fresh_crawl (midnight 2026 1 5))) in
  downloaded_dates st' = {["20260105"]} /\ downloaded_count st' = 1 /\
  written (trace (world st')) = [].
Proof. vm_compute. by repeat split. Qed.

(** A fetch whose attempts are all answered 429. *)
Lemma request_all_429 srv url params max_retries w :
  (forall i, Z.of_nat i < max_retries ->
     exists body, srv (requests w + i)%nat url params = Responded 429 body) ->
  exists w',
    _request_with_retry srv url params max_retries w = (Ok JNull, w') /\
    trace w' = trace w ++
      flat_map (fun attempt => [EvGet url params attempt;
                                EvSleep RateLimit (10 * (attempt + 1))])
               (py_range max_retries).
Proof.
  intros Hsrv.
  destruct (retry_loop_all_429 srv url params max_retries (py_range max_retries) w)
    as (w' & Hrun & _ & Htr).
  - intros i Hi. apply Hsrv. unfold py_range in Hi.
    rewrite length_fmap, length_seq in Hi. lia.
  - by exists w'.
Qed.



(** ** Decimal fields *)

Lemma Z_of_digit_of_Z x : 0 <= x <= 9 -> Z_of_digit (digit_of_Z x) = Some x.
Proof.
  intros Hx. assert (Hcases : x = 0 \/ x = 1 \/ x = 2 \/ x = 3 \/ x = 4 \/
                              x = 5 \/ x = 6 \/ x = 7 \/ x = 8 \/ x = 9) by lia.
  repeat (destruct Hcases as [-> | Hcases]; [reflexivity|]). by subst.
Qed.

Lemma digit_of_Z_inj x y : 0 <= x <= 9 -> 0 <= y <= 9 -> digit_of_Z x = digit_of_Z y -> x = y.
Proof.
  intros Hx Hy Heq. apply (f_equal Z_of_digit) in Heq.
  rewrite !Z_of_digit_of_Z in Heq by done. by inversion Heq.
Qed.

Lemma digit_of_Z_not_plus x : 0 <= x <= 9 -> digit_of_Z x <> "+"%char.
Proof.
  intros Hx Heq. apply (f_equal Z_of_digit) in Heq.
  rewrite Z_of_digit_of_Z in Heq by done. discriminate Heq.
Qed.

Lemma parse_digits_app s1 s2 acc :
  parse_digits (s1 +:+ s2) acc =
  match parse_digits s1 acc with
  | Some a => parse_digits s2 a
  | None => None
  end.
Proof.
  revert acc. induction s1 as [|c s1 IH]; intros acc; simpl; [done|].
  destruct (Z_of_digit c); [apply IH | done].
Qed.

Lemma string_length_app s1 s2 :
  String.length (s1 +:+ s2) = (String.length s1 + String.length s2)%nat.
Proof. induction s1 as [|c s1 IH]; simpl; [done | by rewrite IH]. Qed.

Lemma digits_length width n : String.length (digits width n) = width.
Proof.
  revert n. induction width as [|w IH]; intros n; simpl; [done|].
  rewrite string_length_app, IH. simpl. lia.
Qed.

Lemma parse_digits_digits width :
  forall n acc, parse_digits (digits width n) acc
                = Some (acc * 10 ^ Z.of_nat width + n mod 10 ^ Z.of_nat width).
Proof.
  induction width as [|w IH]; intros n acc.
  - simpl. rewrite Z.mod_1_r. f_equal. lia.
  - cbn [digits]. rewrite parse_digits_app, IH. cbn [parse_digits].
    rewrite Z_of_digit_of_Z by (pose proof (Z.mod_pos_bound n 10); lia).
    f_equal. rewrite Nat2Z.inj_succ, Z.pow_succ_r by lia.
    rewrite (Z.rem_mul_r n 10 (10 ^ Z.of_nat w)) by lia. lia.
Qed.

(** Reading back a zero-padded field. *)
Lemma parse_field_digits width n :
  0 <= n < 10 ^ Z.of_nat width -> parse_field width (digits width n) = Some n.
Proof.
  intros Hn. unfold parse_field. rewrite digits_length, Nat.eqb_refl, parse_digits_digits.
  f_equal. rewrite Z.mod_small by done. lia.
Qed.

Lemma digits_inj width n m :
  0 <= n < 10 ^ Z.of_nat width -> 0 <= m < 10 ^ Z.of_nat width ->
  digits width n = digits width m -> n = m.
Proof.
  intros Hn Hm Heq. apply (f_equal (parse_field width)) in Heq.
  rewrite !parse_field_digits in Heq by done. by inversion Heq.
Qed.

(** ** Parsing the dates of [get_info] *)

Lemma valid_datetime_fields dt :
  valid_datetime dt = true ->
  (1 <= year dt <= 9999 /\ 1 <= month dt <= 12 /\
   1 <= day dt <= days_in_month (year dt) (month dt)) /\
  (0 <= hour dt < 24 /\ 0 <= minute dt < 60 /\ 0 <= second dt < 60 /\
   0 <= microsecond dt < 1000000).
Proof.
  unfold valid_datetime, valid_date, valid_time, MAXYEAR. intros H.
  repeat (apply andb_prop in H as [H ?]). lia.
Qed.

Lemma days_in_month_bounds y m : 28 <= days_in_month y m <= 31.
Proof.
  unfold days_in_month. repeat case_match; lia.
Qed.

Lemma has_char_app c s1 s2 : has_char c (s1 +:+ s2) = has_char c s1 || has_char c s2.
Proof. induction s1 as [|c' s1 IH]; simpl; [done|]. by rewrite IH, orb_assoc. Qed.

Lemma digits_no_plus width n : has_char "+" (digits width n) = false.
Proof.
  revert n. induction width as [|w IH]; intros n; [done|].
  cbn [digits]. rewrite has_char_app, IH. cbn [has_char orb].
  rewrite orb_false_r. apply Ascii.eqb_neq. intros Heq. symmetry in Heq. revert Heq.
  apply digit_of_Z_not_plus. pose proof (Z.mod_pos_bound n 10). lia.
Qed.

Lemma digit_of_Z_not_dash x : 0 <= x <= 9 -> Ascii.eqb (digit_of_Z x) "-" = false.
Proof.
  intros Hx. apply Ascii.eqb_neq. intros Heq. apply (f_equal Z_of_digit) in Heq.
  rewrite Z_of_digit_of_Z in Heq by done. discriminate Heq.
Qed.

Lemma digits_no_dash width n : has_char "-" (digits width n) = false.
Proof.
  revert n. induction width as [|w IH]; intros n; [done|].
  cbn [digits]. rewrite has_char_app, IH. cbn [has_char orb].
  rewrite orb_false_r, Ascii.eqb_sym. apply digit_of_Z_not_dash.
  pose proof (Z.mod_pos_bound n 10). lia.
Qed.

(** [str.replace] leaves a prefix without [+] alone. *)
Lemma str_replace_prefix a b :
  has_char "+" a = false ->
  str_replace "+08:00" "" (a +:+ b) = a +:+ str_replace "+08:00" "" b.
Proof.
  unfold str_replace. induction a as [|c a IH]; intros Hno; [reflexivity|].
  change (has_char "+" (String c a)) with (Ascii.eqb "+" c || has_char "+" a) in Hno.
  apply orb_false_elim in Hno as [Hc Hrest]. apply Ascii.eqb_neq in Hc.
  change (replace_from "+08:00" "" 0 (String c a +:+ b))
    with (if String.prefix "+08:00" (String c (a +:+ b))
          then "" +:+ replace_from "+08:00" "" 5 (a +:+ b)
          else String c (replace_from "+08:00" "" 0 (a +:+ b))).
  change (String.prefix "+08:00" (String c (a +:+ b)))
    with (if ascii_dec "+" c then String.prefix "08:00" (a +:+ b) else false).
  destruct (ascii_dec "+" c) as [Heq|_]; [done|]. by rewrite IH.
Qed.

Lemma string_app_empty s : s +:+ "" = s.
Proof.
  induction s as [|c s IH]; [done|].
  change (String c (s +:+ "") = String c s). by rewrite IH.
Qed.

(** Removing the offset suffix of a text with no other [+]. *)
Lemma str_replace_offset body :
  has_char "+" body = false -> str_replace "+08:00" "" (body +:+ "+08:00") = body.
Proof.
  intros Hno. rewrite str_replace_prefix by done.
  change (str_replace "+08:00" "" "+08:00") with "". apply string_app_empty.
Qed.

Lemma isoformat_no_plus dt : has_char "+" (isoformat dt) = false.
Proof.
  unfold isoformat, strftime_Y_m_d. rewrite !has_char_app, !digits_no_plus.
  destruct (microsecond dt =? 0); [done|]. by rewrite has_char_app, digits_no_plus.
Qed.

Lemma isoformat_no_dash_in_time dt :
  has_char "-" (string_drop 11 (isoformat dt)) = false.
Proof.
  replace (string_drop 11 (isoformat dt))
    with (digits 2 (hour dt) +:+ ":" +:+ digits 2 (minute dt) +:+ ":" +:+ digits 2 (second dt)
            +:+ (if microsecond dt =? 0 then "" else "." +:+ digits 6 (microsecond dt)))
    by reflexivity.
  rewrite !has_char_app, !digits_no_dash.
  destruct (microsecond dt =? 0); [done|]. by rewrite has_char_app, digits_no_dash.
Qed.

Lemma string_drop_app_no (c : ascii) n a : has_char c a = false ->
  has_char c (string_drop n a) = false.
Proof.
  revert a. induction n as [|n IH]; intros a Hno; [done|].
  destruct a as [|x a]; [done|]. cbn [has_char string_drop] in *.
  apply orb_false_elim in Hno as [_ Hno]. by apply IH.
Qed.

(** Without a sign the search runs to the end. *)
Lemma find_sign_none s p :
  has_char "+" s = false -> has_char "-" s = false ->
  find_sign s p = (p + String.length s)%nat.
Proof.
  revert p. induction s as [|c s IH]; intros p Hplus Hdash;
    cbn [find_sign String.length]; [lia|].
  cbn [has_char] in Hplus, Hdash.
  apply orb_false_elim in Hplus as [Hp Hplus]. apply orb_false_elim in Hdash as [Hd Hdash].
  rewrite (Ascii.eqb_sym c "+"), Hp, (Ascii.eqb_sym c "-"), Hd. cbn [orb].
  rewrite IH by done. lia.
Qed.

(** The parser of CPython 3.7 to 3.10 reads back what [isoformat] writes,
    fraction of a second included. *)
Lemma fromisoformat_py37_isoformat dt :
  valid_datetime dt = true -> fromisoformat_py37 (isoformat dt) = Some (naive dt).
Proof.
  intros Hvalid. pose proof (valid_datetime_fields dt Hvalid) as (Hd & Ht).
  pose proof (days_in_month_bounds (year dt) (month dt)) as Hdim.
  pose proof (isoformat_no_plus dt) as Hplus.
  pose proof (isoformat_no_dash_in_time dt) as Hdash.
  apply (string_drop_app_no "+" 11) in Hplus.
  pose proof (find_sign_none _ 11 Hplus Hdash) as Hsign. clear Hplus Hdash.
  destruct dt as [y m d h mi s us].
  cbn [year month day hour minute second microsecond] in *.
  unfold valid_datetime in Hvalid.
  cbn [year month day hour minute second microsecond] in Hvalid.
  unfold fromisoformat_py37, parse_iso_date, parse_iso_time.
  replace (separator_width (isoformat (mkdt y m d h mi s us))) with 1%nat by reflexivity.
  change (10 + 1)%nat with 11%nat. rewrite Hsign. clear Hsign.
  unfold parse_hh_mm_ss_ff, field_at, parse_fraction, datetime_new, isoformat.
  cbn [year month day hour minute second microsecond].
  destruct (Z.eqb_spec us 0) as [->|Hus].
  - set (text := _ +:+ _).
    replace (String.substring 0 4 text) with (digits 4 y) by reflexivity.
    replace (String.substring 5 2 text) with (digits 2 m) by reflexivity.
    replace (String.substring 8 2 text) with (digits 2 d) by reflexivity.
    replace (String.substring 4 1 text) with "-"%string by reflexivity.
    replace (String.substring 7 1 text) with "-"%string by reflexivity.
    replace (String.substring 11 2 text) with (digits 2 h) by reflexivity.
    replace (String.substring (11 + 3) 2 text) with (digits 2 mi) by reflexivity.
    replace (String.substring (11 + 6) 2 text) with (digits 2 s) by reflexivity.
    replace (byte_at (11 + 2) text) with ":"%char by reflexivity.
    replace (byte_at (11 + 3 + 2) text) with ":"%char by reflexivity.
    replace (byte_at (11 + 6 + 2) text) with NUL by reflexivity.
    replace (String.length text) with 19%nat by reflexivity.
    replace (String.length (string_drop 11 text)) with 8%nat by reflexivity.
    rewrite !parse_field_digits by (simpl; lia).
    cbn -[valid_date valid_time]. by rewrite Hvalid.
  - set (text := _ +:+ _).
    replace (String.substring 0 4 text) with (digits 4 y) by reflexivity.
    replace (String.substring 5 2 text) with (digits 2 m) by reflexivity.
    replace (String.substring 8 2 text) with (digits 2 d) by reflexivity.
    replace (String.substring 4 1 text) with "-"%string by reflexivity.
    replace (String.substring 7 1 text) with "-"%string by reflexivity.
    replace (String.substring 11 2 text) with (digits 2 h) by reflexivity.
    replace (String.substring (11 + 3) 2 text) with (digits 2 mi) by reflexivity.
    replace (String.substring (11 + 6) 2 text) with (digits 2 s) by reflexivity.
    replace (byte_at (11 + 2) text) with ":"%char by reflexivity.
    replace (byte_at (11 + 3 + 2) text) with ":"%char by reflexivity.
    replace (byte_at (11 + 6 + 2) text) with "."%char by reflexivity.
    replace (String.length text) with 26%nat by reflexivity.
    replace (String.length (string_drop 11 text)) with 15%nat by reflexivity.
    rewrite !parse_field_digits by (simpl; lia).
    cbn [Nat.add Nat.sub Nat.leb Nat.eqb orb String.eqb Ascii.eqb Bool.eqb andb negb].
    replace (String.substring 20 6 text) with (digits 6 us) by reflexivity.
    replace (byte_at 26 text) with NUL by reflexivity.
    rewrite parse_field_digits by (simpl; lia).
    cbn -[valid_date valid_time]. by rewrite Hvalid.
Qed.

Lemma strftime_Ymd_no_plus dt : has_char "+" (strftime_Ymd dt) = false.
Proof. unfold strftime_Ymd. by rewrite !has_char_app, !digits_no_plus. Qed.

(** For the parser of CPython 3.7 to 3.10 a text that starts with eight
    digits is no ISO date. *)
Lemma fromisoformat_py37_compact dt rest :
  fromisoformat_py37 (strftime_Ymd dt +:+ rest) = None.
Proof.
  unfold fromisoformat_py37, parse_iso_date.
  replace (String.substring 4 1 (strftime_Ymd dt +:+ rest))
    with (String (digit_of_Z (month dt / 10 mod 10)) "") by reflexivity.
  cbn [String.eqb].
  rewrite digit_of_Z_not_dash by (pose proof (Z.mod_pos_bound (month dt / 10) 10); lia).
  cbn [andb]. by repeat case_match.
Qed.

Lemma first_match_table :
  forallb (fun m => forallb (fun d => first_match_is (Z.of_nat m) (Z.of_nat d)) (seq 1 31))
          (seq 1 12) = true.
Proof. vm_compute. reflexivity. Qed.

Lemma first_match m d : 1 <= m <= 12 -> 1 <= d <= 31 -> first_match_is m d = true.
Proof.
  intros Hm Hd. pose proof first_match_table as Htable.
  rewrite forallb_forall in Htable.
  specialize (Htable (Z.to_nat m) ltac:(apply in_seq; lia)).
  rewrite forallb_forall in Htable.
  specialize (Htable (Z.to_nat d) ltac:(apply in_seq; lia)).
  by rewrite !Z2Nat.id in Htable by lia.
Qed.

Lemma strptime_strftime dt :
  valid_datetime dt = true ->
  strptime_Ymd (strftime_Ymd dt) = Some (midnight (year dt) (month dt) (day dt)).
Proof.
  intros Hvalid. pose proof (valid_datetime_fields dt Hvalid) as (Hd & _).
  pose proof (days_in_month_bounds (year dt) (month dt)) as Hdim.
  unfold strptime_Ymd.
  replace (String.length (strftime_Ymd dt) <? 4)%nat with false by reflexivity.
  replace (String.substring 0 4 (strftime_Ymd dt)) with (digits 4 (year dt)) by reflexivity.
  replace (string_drop 4 (strftime_Ymd dt)) with (digits 2 (month dt) +:+ digits 2 (day dt))
    by reflexivity.
  rewrite parse_field_digits by (simpl; lia).
  pose proof (first_match (month dt) (day dt) ltac:(lia) ltac:(lia)) as Hfirst.
  unfold first_match_is in Hfirst.
  destruct (flat_map _ _) as [|[[m' d'] [|? ?]] tl]; try done.
  apply andb_prop in Hfirst as [Hm' Hd']. apply Z.eqb_eq in Hm', Hd'. subst m' d'.
  unfold datetime_new, midnight. unfold valid_datetime in Hvalid.
  apply andb_prop in Hvalid as [-> _]. reflexivity.
Qed.

Section ParseDateProofs.

Variable fromisoformat : string -> option moment.
Hypothesis Hreads : reads_isoformat fromisoformat.

Lemma parse_date_iso dt :
  valid_datetime dt = true ->
  parse_date fromisoformat (JStr (isoformat dt +:+ "+08:00")) = Some (naive dt).
Proof.
  intros Hvalid. unfold parse_date.
  replace (truthy (JStr (isoformat dt +:+ "+08:00"))) with true by reflexivity.
  cbn [negb]. rewrite str_replace_offset by apply isoformat_no_plus.
  by rewrite Hreads.
Qed.

Lemma parse_date_fallback s :
  fromisoformat (str_replace "+08:00" "" s) = None ->
  parse_date fromisoformat (JStr s)
  = if String.eqb s "" then None else naive <$> strptime_Ymd (string_take 8 s).
Proof.
  intros Hiso. unfold parse_date. simpl. rewrite Hiso. by destruct (String.eqb s "").
Qed.

Lemma parse_date_compact dt rest :
  valid_datetime dt = true ->
  fromisoformat (str_replace "+08:00" "" (strftime_Ymd dt +:+ rest)) = None ->
  parse_date fromisoformat (JStr (strftime_Ymd dt +:+ rest))
  = Some (naive (midnight (year dt) (month dt) (day dt))).
Proof.
  intros Hvalid Hiso. rewrite parse_date_fallback by done.
  replace (String.eqb (strftime_Ymd dt +:+ rest) "") with false by reflexivity.
  replace (string_take 8 (strftime_Ymd dt +:+ rest)) with (strftime_Ymd dt)
    by (by destruct rest).
  by rewrite strptime_strftime.
Qed.

(** The range of the answer whose two dates are written by [isoformat]
    with the suffix [+08:00]. *)
Lemma crawl_range_iso oldest newest now rest :
  valid_datetime oldest = true -> valid_datetime newest = true ->
  crawl_range fromisoformat
    (JObj (("最新資料時間", JStr (isoformat newest +:+ "+08:00"))
           :: ("最舊資料時間", JStr (isoformat oldest +:+ "+08:00")) :: rest)) now
  = Ok (naive oldest, naive newest).
Proof.
  intros Ho Hn. unfold crawl_range.
  change (dict_get "最舊資料時間" (JStr "") _) with (JStr (isoformat oldest +:+ "+08:00")).
  change (dict_get "最新資料時間" (JStr "") _) with (JStr (isoformat newest +:+ "+08:00")).
  by rewrite !parse_date_iso.
Qed.

End ParseDateProofs.

(** C9.  For every interpreter whose [fromisoformat] reads back what
    [isoformat] writes, the dates of the metadata answer are parsed in
    three stages: an ISO text with the [+08:00] suffix gives its date and
    time; a text on which that fails is read through its first eight
    characters as [YYYYMMDD]; when a date still cannot be read the range
    falls back to the fixed start 1999-01-21 and the clock.  The answer
    with oldest [1999-01-21T00:00:00+08:00] and newest
    [2026-01-06T00:00:00+08:00] gives the range from 1999-01-21 to
    2026-01-06. *)
Theorem metadata_dates_parsed fromisoformat :
  reads_isoformat fromisoformat ->
  (forall dt, valid_datetime dt = true ->
     parse_date fromisoformat (JStr (isoformat dt +:+ "+08:00")) = Some (naive dt)) /\
  (forall s, fromisoformat (str_replace "+08:00" "" s) = None ->
     parse_date fromisoformat (JStr s)
     = if String.eqb s "" then None else naive <$> strptime_Ymd (string_take 8 s)) /\
  (forall dt rest, valid_datetime dt = true ->
     fromisoformat (str_replace "+08:00" "" (strftime_Ymd dt +:+ rest)) = None ->
     parse_date fromisoformat (JStr (strftime_Ymd dt +:+ rest))
     = Some (naive (midnight (year dt) (month dt) (day dt)))) /\
  (forall fields now,
     parse_date fromisoformat (dict_get "最舊資料時間" (JStr "") fields) = None \/
     parse_date fromisoformat (dict_get "最新資料時間" (JStr "") fields) = None ->
     crawl_range fromisoformat (JObj fields) now
     = Ok (naive (midnight 1999 1 21), naive now) /\
     loop_bounds (naive (midnight 1999 1 21)) (naive now) = Ok (midnight 1999 1 21, now)) /\
  (forall now,
     crawl_range fromisoformat
       (JObj [("最舊資料時間", JStr "1999-01-21T00:00:00+08:00");
              ("最新資料時間", JStr "2026-01-06T00:00:00+08:00");
              ("公告數", JNum 100)]) now
     = Ok (naive (midnight 1999 1 21), naive (midnight 2026 1 6)) /\
     loop_bounds (naive (midnight 1999 1 21)) (naive (midnight 2026 1 6))
     = Ok (midnight 1999 1 21, midnight 2026 1 6)) /\
  strftime_Y_m_d (midnight 1999 1 21) = "1999-01-21" /\
  strftime_Y_m_d (midnight 2026 1 6) = "2026-01-06".
Proof.
  intros Hreads.
  split; [by apply parse_date_iso|]. split; [by apply parse_date_fallback|].
  split; [by apply parse_date_compact|]. split.
  { intros fields now Hnone. split; [|reflexivity]. unfold crawl_range.
    destruct Hnone as [-> | ->]; [done|]. by destruct (parse_date _ _). }
  split; [|split]; [|reflexivity..]. intros now. split; [|reflexivity].
  unfold crawl_range.
  change (dict_get "最舊資料時間" (JStr "") _)
    with (JStr (isoformat (midnight 1999 1 21) +:+ "+08:00")).
  change (dict_get "最新資料時間" (JStr "") _)
    with (JStr (isoformat (midnight 2026 1 6) +:+ "+08:00")).
  by rewrite !parse_date_iso.
Qed.

Lemma metadata_dates_parsed_witness :
  parse_date fromisoformat_py37 (JStr "2026-01-06T00:00:00+08:00")
  = Some (naive (midnight 2026 1 6)) /\
  parse_date fromisoformat_py37 (JStr "20260106") = Some (naive (midnight 2026 1 6)) /\
  crawl_range fromisoformat_py37 (JObj [("最舊資料時間", JStr "not a date")])
    (mkdt 2026 1 7 9 30 0 0)
  = Ok (naive (midnight 1999 1 21), naive (mkdt 2026 1 7 9 30 0 0)).
Proof.
  destruct (metadata_dates_parsed fromisoformat_py37 fromisoformat_py37_isoformat)
    as (Hiso & _ & Hcompact & Hepoch & _).
  split; [|split].
  - exact (Hiso (midnight 2026 1 6) eq_refl).
  - exact (Hcompact (midnight 2026 1 6) "" eq_refl eq_refl).
  - apply Hepoch. left. reflexivity.
Defined.

Example parse_date_examples :
  parse_date fromisoformat_py37 (JStr "2026110") = Some (naive (midnight 2026 1 10)) /\
  parse_date fromisoformat_py37 (JStr "2026-02-30") = None /\
  parse_date fromisoformat_py37 (JStr "2026-01-06T12:30")
  = Some (naive (mkdt 2026 1 6 12 30 0 0)) /\
  parse_date fromisoformat_py37 (JStr "2026-01-06 12:30:01.500")
  = Some (naive (mkdt 2026 1 6 12 30 1 500000)) /\
  parse_date fromisoformat_py37 (JStr "2026-01-06T12:30:01+09:00")
  = Some (aware (mkdt 2026 1 6 12 30 1 0) 32400000000) /\
  parse_date fromisoformat_py37 (JStr "2026-01-06T12:30:01-05:30")
  = Some (aware (mkdt 2026 1 6 12 30 1 0) (-19800000000)) /\
  parse_date fromisoformat_py37 (JStr "2026-01-06T12:30:01.250000+00:00")
  = Some (aware (mkdt 2026 1 6 12 30 1 250000) 0) /\
  parse_date fromisoformat_py37 (JStr "2026-01-06T12:30:01+24:00") = None /\
  parse_date fromisoformat_py37 (JStr "") = None /\
  parse_date fromisoformat_py37 (JNum 20260106) = None.
Proof. vm_compute. by repeat split. Qed.

(** ** A turn of the list pass in general *)

(** A fetch with three attempts starts with a first request. *)
Lemma request3_trace srv url params w r w' :
  _request_with_retry srv url params 3 w = (r, w') ->
  exists more,
    trace w' = trace w ++ EvGet url params 0 :: more /\
    Forall (retry_event url params [1; 2]) more.
Proof.
  unfold _request_with_retry. change (py_range 3) with [0; 1; 2].
  cbn [retry_loop session_get].
  set (w1 := {| requests := S (requests w); log := EvGet url params 0 :: log w |}).
  assert (Hw1 : trace w1 = trace w ++ [EvGet url params 0]) by reflexivity.
  assert (Hstop : forall r0, (r0, w1) = (r, w') ->
            exists more, trace w' = trace w ++ EvGet url params 0 :: more /\
                         Forall (retry_event url params [1; 2]) more).
  { intros r0 [= _ <-]. exists []. split; [exact Hw1 | constructor]. }
  assert (Hmore : forall why secs,
            retry_loop srv url params 3 [1; 2] (emit (EvSleep why secs) w1) = (r, w') ->
            exists more, trace w' = trace w ++ EvGet url params 0 :: more /\
                         Forall (retry_event url params [1; 2]) more).
  { intros why secs Hrun. apply retry_loop_trace in Hrun as (added & Htr & Hall).
    exists (EvSleep why secs :: added). split.
    - rewrite Htr, trace_emit, Hw1, <- !app_assoc. reflexivity.
    - by constructor. }
  destruct (srv (requests w) url params) as [status body| |].
  - destruct (status =? 429); [apply Hmore|].
    destruct ((400 <=? status) && (status <? 600)); [apply Hstop|].
    destruct body; apply Hstop.
  - destruct (0 <? 3 - 1); [apply Hmore | apply Hstop].
  - apply Hstop.
Qed.

Lemma write_items_trace date_str items :
  forall w r w',
    write_items date_str items w = (r, w') ->
    exists lines,
      trace w' = trace w ++ (EvWrite <$> lines) /\
      (length lines <= length items)%nat.
Proof.
  induction items as [|item rest IH]; intros w r w' Hrun; simpl in Hrun.
  - inversion Hrun; subst. exists []. by rewrite app_nil_r.
  - destruct (setitem "_download_date" (JStr date_str) item) as [stamped|e].
    + apply IH in Hrun as (lines & Htr & Hlen). exists (stamped :: lines). split.
      * rewrite Htr, trace_emit, <- app_assoc. reflexivity.
      * simpl. lia.
    + inversion Hrun; subst. exists []. rewrite app_nil_r. split; [done | simpl; lia].
Qed.

Lemma write_items_all date_str items :
  forall w w',
    write_items date_str items w = (Ok tt, w') ->
    exists lines,
      trace w' = trace w ++ (EvWrite <$> lines) /\ length lines = length items.
Proof.
  induction items as [|item rest IH]; intros w w' Hrun; simpl in Hrun.
  - inversion Hrun; subst. exists []. by rewrite app_nil_r.
  - destruct (setitem "_download_date" (JStr date_str) item) as [stamped|e]; [|done].
    apply IH in Hrun as (lines & Htr & Hlen). exists (stamped :: lines). split.
    + rewrite Htr, trace_emit, <- app_assoc. reflexivity.
    + simpl. lia.
Qed.

Lemma chars_length s : length (chars s) = String.length s.
Proof. induction s as [|c s IH]; simpl; [done | by rewrite IH]. Qed.

Lemma py_len_iter data count :
  py_len data = Ok count ->
  exists items, py_iter data = Ok items /\ count = Z.of_nat (length items).
Proof.
  destruct data; simpl; intros [= <-]; eexists; (split; [reflexivity|]).
  - by rewrite chars_length.
  - done.
  - by rewrite length_map.
Qed.

(** The [try] block of a day, whatever the server does. *)
Lemma try_block_general srv date_str st r st1 :
  try_block srv date_str st = (r, st1) ->
  current_date st1 = current_date st /\
  exists more lines,
    trace (world st1) = trace (world st) ++
      EvGet list_url (list_params date_str) 0 :: more ++ (EvWrite <$> lines) /\
    Forall (retry_event list_url (list_params date_str) [1; 2]) more /\
    match r with
    | Ok _ =>
        downloaded_dates st1 = {[date_str]} ∪ downloaded_dates st /\
        downloaded_count st1 = downloaded_count st + 1 /\
        total_tenders st <= total_tenders st1 <= total_tenders st + Z.of_nat (length lines)
    | Raise _ =>
        downloaded_dates st1 = downloaded_dates st /\
        downloaded_count st1 = downloaded_count st /\
        total_tenders st1 = total_tenders st
    end.
Proof.
  unfold try_block. rewrite list_by_date_unfold. fold list_url. fold (list_params date_str).
  destruct (_request_with_retry srv list_url (list_params date_str) 3 (world st))
    as [res w1] eqn:Efetch.
  apply request3_trace in Efetch as (more & Htr & Hmore).
  assert (Hnolines : trace w1 = trace (world st) ++
            EvGet list_url (list_params date_str) 0 :: more ++ (EvWrite <$> [])).
  { by rewrite app_nil_r. }
  destruct res as [result|e].
  2: { intros [= <- <-]. split; [done|]. exists more, []. by repeat split. }
  set (data := records_of result).
  destruct (truthy data) eqn:Etruthy.
  - destruct (py_len data) as [count|e] eqn:Elen.
    2: { intros [= <- <-]. split; [done|]. exists more, []. by repeat split. }
    apply py_len_iter in Elen as (items & -> & ->).
    destruct (write_items date_str items w1) as [[[]|e] w2] eqn:Ewrite.
    + apply write_items_all in Ewrite as (lines & Htr2 & Hlen).
      intros [= <- <-]. split; [done|]. exists more, lines. simpl.
      rewrite Htr2, Htr, <- app_assoc. repeat split; try done; lia.
    + apply write_items_trace in Ewrite as (lines & Htr2 & Hlen).
      intros [= <- <-]. split; [done|]. exists more, lines. simpl.
      rewrite Htr2, Htr, <- app_assoc. by repeat split.
  - intros [= <- <-]. split; [done|]. exists more, []. simpl. repeat split; try done; lia.
Qed.

Lemma retry_event_turn date_str keys total more :
  Forall (retry_event list_url (list_params date_str) [1; 2]) more ->
  Forall (turn_event date_str keys total) more.
Proof. intros H. eapply Forall_impl; [exact H|]. by intros []. Qed.

Lemma save_event_turn date_str keys total tail :
  Forall (save_event keys total) tail -> Forall (turn_event date_str keys total) tail.
Proof. intros H. eapply Forall_impl; [exact H|]. by intros []. Qed.

Lemma writes_turn date_str keys total lines :
  Forall (turn_event date_str keys total) (EvWrite <$> lines).
Proof. apply Forall_fmap, Forall_true. done. Qed.

Lemma retry_event_written url params todo more :
  Forall (retry_event url params todo) more -> written more = [].
Proof. intros Hall. apply (written_none _ _ Hall). by intros []. Qed.

(** A turn on a date that is already in the set only steps to the next day. *)
Lemma loop_body_skip srv decode_rx save_interval st :
  strftime_Ymd (current_date st) ∈ downloaded_dates st ->
  loop_body srv decode_rx save_interval st = advance st.
Proof. intros Hin. unfold loop_body. by rewrite bool_decide_eq_true_2. Qed.

(** A turn on a date that is not in the set, whatever the server does: a
    first request for that date, then further attempts, sleeps, lines and
    at most snapshots of the set and counter the turn ends with. *)
Lemma loop_body_general srv decode_rx save_interval st :
  let date_str := strftime_Ymd (current_date st) in
  let st' := state_of (loop_body srv decode_rx save_interval st) in
  date_str ∉ downloaded_dates st ->
  (downloaded_dates st' = downloaded_dates st \/
   downloaded_dates st' = {[date_str]} ∪ downloaded_dates st) /\
  exists more,
    trace (world st') = trace (world st) ++ EvGet list_url (list_params date_str) 0 :: more /\
    Forall (turn_event date_str (downloaded_dates st') (total_tenders st')) more /\
    total_tenders st <= total_tenders st' <= total_tenders st + Z.of_nat (length (written more)).
Proof.
  intros date_str st' Hnew. subst st'. unfold loop_body. fold date_str.
  rewrite bool_decide_eq_false_2 by done.
  destruct (try_block srv date_str st) as [r st1] eqn:Etry.
  apply try_block_general in Etry as (_ & more & lines & Htr & Hmore & Hr).
  assert (Hwritten : forall tail keys total,
            Forall (save_event keys total) tail ->
            length (written (more ++ (EvWrite <$> lines) ++ tail)) = length lines).
  { intros tail keys total Htail.
    by rewrite !written_app, (retry_event_written _ _ _ _ Hmore), written_writes,
      (save_event_written _ _ _ Htail), app_nil_r. }
  assert (Hsave :
    (downloaded_dates st1 = downloaded_dates st \/
     downloaded_dates st1 = {[date_str]} ∪ downloaded_dates st) ->
    total_tenders st <= total_tenders st1 <= total_tenders st + Z.of_nat (length lines) ->
    let st' := state_of (periodic_save save_interval st1) in
    (downloaded_dates st' = downloaded_dates st \/
     downloaded_dates st' = {[date_str]} ∪ downloaded_dates st) /\
    exists more',
      trace (world st') = trace (world st) ++ EvGet list_url (list_params date_str) 0 :: more' /\
      Forall (turn_event date_str (downloaded_dates st') (total_tenders st')) more' /\
      total_tenders st <= total_tenders st'
        <= total_tenders st + Z.of_nat (length (written more'))).
  { intros Hdates Htotal.
    destruct (periodic_save_keeps save_interval st1) as (Hd & _ & Ht & _ & tail & Htr' & Htail).
    cbv zeta. rewrite Hd, Ht. split; [exact Hdates|].
    exists (more ++ (EvWrite <$> lines) ++ tail). split; [|split].
    - rewrite Htr', Htr. by list_assoc.
    - apply Forall_app. split; [by apply retry_event_turn|].
      apply Forall_app. split; [apply writes_turn | by apply save_event_turn].
    - by rewrite (Hwritten _ _ _ Htail). }
  destruct r as [[]|e].
  - destruct Hr as (Hd & _ & Ht). apply Hsave; [by right | done].
  - destruct Hr as (Hd & _ & Ht).
    destruct (is_request_exception decode_rx e).
    + destruct (advance_keeps (with_world (emit (EvSleep NetworkError 5) (world st1)) st1))
        as (Hd' & _ & Ht' & Hw').
      rewrite Hd', Ht', Hw'. cbn [downloaded_dates total_tenders world with_world].
      split; [by left|].
      exists (more ++ (EvWrite <$> lines) ++ [EvSleep NetworkError 5]). split; [|split].
      * rewrite trace_emit, Htr. by list_assoc.
      * apply Forall_app. split; [by apply retry_event_turn|].
        apply Forall_app. split; [apply writes_turn | by repeat constructor].
      * rewrite Ht. rewrite !written_app. rewrite length_app. lia.
    + apply Hsave; [by left | lia].
Qed.

(** A turn ends in [Next] on the following day when the date can be
    stepped and the interval of the saves is not zero. *)
Lemma loop_body_next srv decode_rx save_interval st next :
  add_one_day (current_date st) = Ok next ->
  save_interval <> 0 ->
  exists st', loop_body srv decode_rx save_interval st = Next st' /\ current_date st' = next.
Proof.
  intros Hnext Hinterval. unfold loop_body.
  assert (Hadvance : forall st0, current_date st0 = current_date st ->
            exists st', advance st0 = Next st' /\ current_date st' = next).
  { intros st0 Hcur. unfold advance. rewrite Hcur, Hnext. by eexists. }
  assert (Hsave : forall st0, current_date st0 = current_date st ->
            exists st', periodic_save save_interval st0 = Next st' /\ current_date st' = next).
  { intros st0 Hcur. unfold periodic_save.
    rewrite (proj2 (Z.eqb_neq save_interval 0) Hinterval).
    destruct (downloaded_count st0 mod save_interval =? 0).
    - destruct (Hadvance (with_world
                  (emit EvFlush (_save_progress (downloaded_dates st0) (total_tenders st0)
                                   (world st0))) st0) Hcur) as (st' & -> & Hc).
      by eexists.
    - destruct (Hadvance st0 Hcur) as (st' & -> & Hc). by eexists. }
  destruct (bool_decide _); [by apply Hadvance|].
  destruct (try_block srv _ st) as [r st1] eqn:Etry.
  apply try_block_general in Etry as (Hcur & _).
  destruct r as [[]|e]; [by apply Hsave|].
  destruct (is_request_exception decode_rx e); [by apply Hadvance | by apply Hsave].
Qed.

(** ** The counter of records *)

Lemma saved_totals_app a b : saved_totals (a ++ b) = saved_totals a ++ saved_totals b.
Proof. apply omap_app. Qed.

Lemma turn_event_saved date_str keys total more :
  Forall (turn_event date_str keys total) more ->
  Forall (fun t => t = total) (saved_totals more).
Proof.
  induction 1 as [|e rest He _ IH]; [constructor|].
  destruct e as [| | | | | |k [t|]]; try done. destruct He as [_ ->]. by constructor.
Qed.

(** What a turn does to the counter and to the totals saved. *)
Lemma loop_body_saved srv decode_rx save_interval st :
  let st' := state_of (loop_body srv decode_rx save_interval st) in
  exists added,
    trace (world st') = trace (world st) ++ added /\
    Forall (fun t => t = total_tenders st') (saved_totals added) /\
    total_tenders st <= total_tenders st' <= total_tenders st + Z.of_nat (length (written added)).
Proof.
  intros st'. subst st'.
  destruct (decide (strftime_Ymd (current_date st) ∈ downloaded_dates st)) as [Hin|Hnew].
  - rewrite loop_body_skip by done.
    destruct (advance_keeps st) as (_ & _ & -> & ->).
    exists []. rewrite app_nil_r. repeat split; [constructor | lia | simpl; lia].
  - destruct (loop_body_general srv decode_rx save_interval st Hnew)
      as (_ & more & Htr & Hall & Htotal).
    exists (EvGet list_url (list_params (strftime_Ymd (current_date st))) 0 :: more).
    split; [exact Htr|]. split; [|exact Htotal].
    by apply turn_event_saved in Hall.
Qed.

Lemma crawl_loop_saved srv decode_rx save_interval end_date fuel :
  forall st s,
    crawl_loop fuel srv decode_rx save_interval end_date st = Some s ->
    exists added,
      trace (world (state_of s)) = trace (world st) ++ added /\
      StronglySorted Z.le (saved_totals added) /\
      Forall (fun t => total_tenders st <= t <= total_tenders (state_of s)) (saved_totals added) /\
      total_tenders st <= total_tenders (state_of s)
        <= total_tenders st + Z.of_nat (length (written added)).
Proof.
  induction fuel as [|fuel IH]; intros st s Hrun; [done|].
  cbn [crawl_loop] in Hrun.
  destruct (dt_leb (current_date st) end_date).
  2: { inversion Hrun; subst. exists []. rewrite app_nil_r. simpl.
       repeat split; try constructor; lia. }
  destruct (loop_body_saved srv decode_rx save_interval st) as (added1 & Htr1 & Hall1 & Htot1).
  assert (Hsorted1 : StronglySorted Z.le (saved_totals added1)).
  { clear -Hall1. induction Hall1 as [|t rest -> Hrest IH]; constructor; [done|].
    eapply Forall_impl; [exact Hrest|]. intros ? ->. lia. }
  destruct (loop_body srv decode_rx save_interval st) as [st'|e st'] eqn:Ebody;
    cbn [state_of] in *.
  - apply IH in Hrun as (added2 & Htr2 & Hsorted2 & Hall2 & Htot2).
    exists (added1 ++ added2). rewrite Htr2, Htr1, app_assoc.
    split; [done|]. rewrite saved_totals_app, written_app, length_app.
    split; [|split; [|lia]].
    + apply StronglySorted_app. split; [|by split].
      intros t1 t2 Ht1 Ht2. rewrite Forall_forall in Hall1, Hall2.
      apply Hall1 in Ht1. apply Hall2 in Ht2. lia.
    + apply Forall_app. split.
      * eapply Forall_impl; [exact Hall1|]. intros ? ->. lia.
      * eapply Forall_impl; [exact Hall2|]. intros t Ht. simpl in Ht. lia.
  - inversion Hrun; subst. cbn [state_of]. exists added1.
    split; [done|]. split; [done|]. split; [|done].
    eapply Forall_impl; [exact Hall1|]. intros ? ->. lia.
Qed.

(** On the upstream with one day of data the parser of the interpreter is
    only asked for the two dates of the metadata, which [isoformat] writes. *)
Lemma download_all_data_one_day fromisoformat fuel decode_rx now save_interval progress w :
  reads_isoformat fromisoformat ->
  download_all_data fuel one_day_api decode_rx fromisoformat now save_interval progress w
  = download_all_data fuel one_day_api decode_rx fromisoformat_py37 now save_interval progress w.
Proof.
  intros Hreads. unfold download_all_data.
  assert (Hinfo : get_info one_day_api w
                  = (Ok (JObj [("最新資料時間", JStr "2026-01-05T00:00:00+08:00");
                               ("最舊資料時間", JStr "2026-01-05T00:00:00+08:00");
                               ("公告數", JNum 1)]),
                     {| requests := S (requests w);
                        log := EvGet (BASE_URL +:+ "/getinfo") [] 0 :: log w |}))
    by reflexivity.
  rewrite Hinfo.
  change (JObj [("最新資料時間", JStr "2026-01-05T00:00:00+08:00");
                ("最舊資料時間", JStr "2026-01-05T00:00:00+08:00"); ("公告數", JNum 1)])
    with (JObj (("最新資料時間", JStr (isoformat (midnight 2026 1 5) +:+ "+08:00"))
                :: ("最舊資料時間", JStr (isoformat (midnight 2026 1 5) +:+ "+08:00"))
                :: [("公告數", JNum 1)])).
  rewrite (crawl_range_iso fromisoformat Hreads) by reflexivity.
  by rewrite (crawl_range_iso fromisoformat_py37 fromisoformat_py37_isoformat) by reflexivity.
Qed.

(** C4.  The totals saved do decrease at a resumed run: [download_all_data]
    run on an upstream with one record, and run again on the progress file
    it left, saves the total 1 and then the total 0, whatever interpreter
    parses the dates of the metadata. *)
Theorem resumed_run_saves_smaller_total fromisoformat :
  reads_isoformat fromisoformat ->
  resumed_totals 3 one_day_api true fromisoformat (mkdt 2026 1 7 9 30 0 0) 100
  = Some [1; 0] /\
  ~ counter_monotone_across_resume 3 one_day_api true fromisoformat
      (mkdt 2026 1 7 9 30 0 0) 100.
Proof.
  intros Hreads.
  assert (Htotals : resumed_totals 3 one_day_api true fromisoformat
                      (mkdt 2026 1 7 9 30 0 0) 100 = Some [1; 0]).
  { unfold resumed_totals. rewrite download_all_data_one_day by done.
    set (run := download_all_data 3 one_day_api true fromisoformat_py37 _ 100 None _).
    vm_compute in run. subst run. cbv beta iota zeta.
    rewrite download_all_data_one_day by done. vm_compute. reflexivity. }
  split; [exact Htotals|]. intros Hclaim. apply Hclaim in Htotals.
  apply StronglySorted_inv in Htotals as [_ Hle]. inversion Hle; subst. lia.
Qed.

Lemma resumed_run_saves_smaller_total_witness :
  resumed_totals 3 one_day_api true fromisoformat_py37 (mkdt 2026 1 7 9 30 0 0) 100
  = Some [1; 0] /\
  ~ counter_monotone_across_resume 3 one_day_api true fromisoformat_py37
      (mkdt 2026 1 7 9 30 0 0) 100.
Proof.
  exact (resumed_run_saves_smaller_total fromisoformat_py37 fromisoformat_py37_isoformat).
Defined.

(** X4.  Within one run the totals saved never decrease, and each lies
    between zero and the number of lines the run has written: the counter
    starts from zero in every run, whatever the progress file holds. *)
Theorem run_counter_monotone fuel srv decode_rx save_interval progress start_date end_date w s :
  crawl_dates fuel srv decode_rx save_interval progress start_date end_date w = Some s ->
  exists added,
    trace (world (state_of s)) = trace w ++ added /\
    StronglySorted Z.le (saved_totals added) /\
    Forall (fun total => 0 <= total <= Z.of_nat (length (written added))) (saved_totals added).
Proof.
  unfold crawl_dates. intros Hrun.
  destruct (crawl_loop fuel srv decode_rx save_interval end_date _) as [s0|] eqn:Eloop; [|done].
  apply crawl_loop_saved in Eloop as (added & Htr & Hsorted & Hall & Htotal).
  cbn [total_tenders world] in *.
  destruct s0 as [st|e st]; inversion Hrun; subst; cbn [state_of world with_world] in *.
  - exists (added ++ [EvClose; EvSave (downloaded_dates st) (Some (total_tenders st))]).
    unfold _save_progress. rewrite !trace_emit, Htr. split; [by list_assoc|].
    rewrite saved_totals_app, written_app, length_app. cbn. split.
    + apply StronglySorted_app. split; [|split; [done | by repeat constructor]].
      intros t1 t2 Ht1 Ht2. rewrite Forall_forall in Hall. apply Hall in Ht1.
      apply list_elem_of_singleton in Ht2. lia.
    + apply Forall_app. split.
      * eapply Forall_impl; [exact Hall|]. intros t Ht. simpl in Ht. lia.
      * repeat constructor; lia.
  - exists (added ++ [EvClose]). rewrite trace_emit, Htr. split; [by list_assoc|].
    rewrite saved_totals_app, written_app, length_app. cbn. rewrite app_nil_r. split; [done|].
    eapply Forall_impl; [exact Hall|]. intros t Ht. simpl in Ht. lia.
Qed.

Lemma run_counter_monotone_witness :
  exists added,
    trace (world (state_of (Next
      {| current_date := midnight 2026 1 6; downloaded_dates := {["20260105"]};
         downloaded_count := 1; total_tenders := 1; days_processed := 1;
         world := mkio 1
           [EvSave {["20260105"]} (Some 1); EvClose; EvDelay; EvFlush;
            EvSave {["20260105"]} (Some 1);
            EvWrite (JObj [("title", JStr "a"); ("_download_date", JStr "20260105")]);
            EvGet list_url (list_params "20260105") 0] |})))
    = trace (mkio 0 []) ++ added /\
    StronglySorted Z.le (saved_totals added) /\
    Forall (fun total => 0 <= total <= Z.of_nat (length (written added))) (saved_totals added).
Proof.
  refine (run_counter_monotone 3 one_record_then_empty true 1 None
            (midnight 2026 1 5) (midnight 2026 1 5) (mkio 0 []) _ _).
  vm_compute. reflexivity.
Defined.

(** ** The detail pass *)

Section DetailProofs.

Variable str_other : json -> string.

Lemma app_comm_cons_single (e : event) l : e :: l = [e] ++ l.
Proof. reflexivity. Qed.

Lemma fetched_pairs_app a b : fetched_pairs (a ++ b) = fetched_pairs a ++ fetched_pairs b.
Proof. apply omap_app. Qed.

Lemma retry_event_pairs url params more :
  Forall (retry_event url params [1; 2]) more -> fetched_pairs more = [].
Proof.
  induction 1 as [|e rest He _ IH]; [done|].
  destruct e as [u p a| | | | | |]; try done.
  destruct He as (_ & _ & Ha).
  assert (a <> 0) by (intros ->; set_solver).
  cbn. destruct p as [|[? ?] [|[? ?] [|? ?]]]; try exact IH.
  destruct a; [done|exact IH..].
Qed.

(** A turn of the detail loop starts one fetch, for the pair of its record. *)
Lemma detail_body_pairs srv batch_size fields st :
  fetched_pairs (trace (dworld (detail_body str_other srv batch_size fields st)))
  = fetched_pairs (trace (dworld st)) ++ [pair_of fields].
Proof.
  unfold detail_body, get_tender_detail.
  destruct (_request_with_retry srv (BASE_URL +:+ "/tender") _ 3 (dworld st)) as [r w1] eqn:E.
  apply request3_trace in E as (more & Htr & Hmore).
  assert (Hw1 : fetched_pairs (trace w1) = fetched_pairs (trace (dworld st)) ++ [pair_of fields]).
  { rewrite Htr. rewrite (app_comm_cons_single _ more).
    rewrite !fetched_pairs_app, (retry_event_pairs _ _ _ Hmore), app_nil_r.
    reflexivity. }
  destruct r as [detail|e]; cbn [dworld].
  2: { by rewrite trace_emit, fetched_pairs_app, Hw1, app_nil_r. }
  destruct (truthy detail); cbn [dworld].
  2: { by rewrite trace_emit, fetched_pairs_app, Hw1, app_nil_r. }
  destruct (batch_size =? 0); [|destruct (_ mod _ =? 0)]; cbn [dworld];
    rewrite !trace_emit, !fetched_pairs_app, Hw1; cbn; by rewrite !app_nil_r.
Qed.

Lemma detail_loop_pairs srv batch_size tenders :
  forall st,
    fetched_pairs (trace (dworld (detail_loop str_other srv batch_size tenders st)))
    = fetched_pairs (trace (dworld st)) ++ (pair_of <$> tenders).
Proof.
  unfold detail_loop. induction tenders as [|fields rest IH]; intros st; simpl.
  - by rewrite app_nil_r.
  - rewrite IH, detail_body_pairs, <- app_assoc. reflexivity.
Qed.

(** What the scan keeps. *)
Lemma scan_tenders_spec loaded lines fields :
  fields ∈ scan_tenders str_other loaded lines <->
  (Some (JObj fields) ∈ lines) /\ (tender_id str_other fields ∉ loaded) /\
  has_field "unit_id" fields = true /\ has_field "job_number" fields = true.
Proof.
  induction lines as [|line rest IH].
  - simpl. split; [by intros ?%elem_of_nil | by intros [?%elem_of_nil _]].
  - assert (Hskip : (fields ∈ scan_tenders str_other loaded rest <->
                     (Some (JObj fields) ∈ line :: rest) /\ (tender_id str_other fields ∉ loaded) /\
                     has_field "unit_id" fields = true /\ has_field "job_number" fields = true) \/
                    exists fs, line = Some (JObj fs)).
    { destruct line as [[| | | | |fs]|]; try (right; by eexists); left;
        rewrite IH, elem_of_cons; naive_solver. }
    destruct line as [[| | | | |fs]|]; try (destruct Hskip as [Hskip|[? [=]]]; exact Hskip).
    clear Hskip. cbn [scan_tenders].
    destruct (negb (bool_decide (tender_id str_other fs ∈ loaded)) && has_field "unit_id" fs
              && has_field "job_number" fs) eqn:Ekeep.
    + apply andb_prop in Ekeep as [Ekeep Hjob]. apply andb_prop in Ekeep as [Hid Hunit].
      apply negb_true_iff, bool_decide_eq_false in Hid.
      rewrite !elem_of_cons, IH. split.
      * intros [-> | H]; [by repeat split; try left | naive_solver].
      * intros ([[= ->] | H] & ?); [by left | right; naive_solver].
    + rewrite IH, elem_of_cons. split; [naive_solver|].
      intros ([[= ->] | H] & Hid & Hunit & Hjob); [|naive_solver].
      rewrite Hunit, Hjob, bool_decide_eq_false_2 in Ekeep by done. done.
Qed.

End DetailProofs.

(** C2, as stated, fails: a pair that two list records carry is fetched
    twice in one run. *)
Lemma amended_tender_counterexample :
  ~ pair_fetched_at_most_once (fun _ => ""%string) one_day_api 1000 None amended_tender.
Proof.
  unfold pair_fetched_at_most_once.
  replace (fetched_pairs _) with [(JStr "A", JStr "1"); (JStr "A", JStr "1")]
    by (vm_compute; reflexivity).
  intros Hnodup. apply NoDup_cons in Hnodup as [Hnotin _]. apply Hnotin. by left.
Qed.

(** C2, amended.  The detail pass starts exactly one fetch for every list
    record it keeps, in the order of the file, so that a pair carried by
    several kept records is fetched once for each of them; a record is
    kept exactly when it is a dict with both identifier fields non-empty
    whose identifier is not in the progress file read at the start.  A
    pair found in that file is therefore never fetched. *)
Theorem detail_fetches_every_kept_record str_other srv batch_size progress lines w :
  let loaded := match progress with Some (ids, _) => ids | None => ∅ end in
  let tenders := scan_tenders str_other loaded lines in
  let st := download_tender_details str_other srv batch_size progress lines w in
  fetched_pairs (trace (dworld st)) = fetched_pairs (trace w) ++ (pair_of <$> tenders) /\
  (forall fields,
     fields ∈ tenders <->
     (Some (JObj fields) ∈ lines) /\ (tender_id str_other fields ∉ loaded) /\
     has_field "unit_id" fields = true /\ has_field "job_number" fields = true).
Proof.
  intros loaded tenders st. split; [|apply scan_tenders_spec].
  subst st. unfold download_tender_details. cbn [dworld]. fold loaded. fold tenders.
  rewrite !trace_emit, !fetched_pairs_app, detail_loop_pairs. cbn. by rewrite !app_nil_r.
Qed.

(** ** Order of the snapshot and the flush *)

(** C3.  The code saves the snapshot first and flushes the record file
    afterwards, in both passes: with a save at every unit, right after the
    snapshot the progress file lists the unit while its line is still in
    the write buffer and the record file on disk is empty. *)
Theorem checkpoint_saved_before_flush :
  (forall save_interval st,
     save_interval <> 0 -> downloaded_count st mod save_interval = 0 ->
     exists tail,
       trace (world (state_of (periodic_save save_interval st)))
       = trace (world st) ++
           EvSave (downloaded_dates st) (Some (total_tenders st)) :: EvFlush :: tail) /\
  (forall fromisoformat,
     reads_isoformat fromisoformat ->
     exists w before after,
       download_all_data 3 one_day_api true fromisoformat (mkdt 2026 1 7 9 30 0 0) 1 None
         (mkio 0 [])
       = Some (Ok 1, w) /\
       trace w = before ++ EvFlush :: after /\
       checkpoint (replay before no_files) = Some ({["20260105"]}, Some 1) /\
       sink_disk (replay before no_files) = [] /\
       sink_buffer (replay before no_files)
       = [JObj [("unit_id", JStr "A"); ("job_number", JStr "1");
                ("_download_date", JStr "20260105")]]) /\
  (exists before after,
     trace (dworld (download_tender_details (fun _ => ""%string) one_day_api 1 None
                      amended_tender (mkio 0 []))) = before ++ EvFlush :: after /\
     checkpoint (replay before no_files) = Some ({["A_1"]}, None) /\
     sink_disk (replay before no_files) = [] /\
     sink_buffer (replay before no_files) = [JObj [("detail", JStr "x")]]).
Proof.
  split; [|split].
  - intros save_interval st Hinterval Hmod. unfold periodic_save.
    rewrite (proj2 (Z.eqb_neq save_interval 0) Hinterval), Hmod. simpl.
    unfold advance. simpl. destruct (add_one_day (current_date st)); simpl.
    + exists [EvDelay]. unfold trace. simpl. by list_assoc.
    + exists []. unfold trace. simpl. by list_assoc.
  - intros fromisoformat Hreads. rewrite download_all_data_one_day by done.
    eexists.
    exists [EvGet (BASE_URL +:+ "/getinfo") [] 0;
            EvGet list_url (list_params "20260105") 0;
            EvWrite (JObj [("unit_id", JStr "A"); ("job_number", JStr "1");
                           ("_download_date", JStr "20260105")]);
            EvSave {["20260105"]} (Some 1)].
    exists [EvDelay; EvClose; EvSave {["20260105"]} (Some 1)].
    split; [vm_compute; reflexivity|]. by vm_compute.
  - exists [EvGet (BASE_URL +:+ "/tender") [("unit_id", JStr "A"); ("job_number", JStr "1")] 0;
            EvWrite (JObj [("detail", JStr "x")]);
            EvSave {["A_1"]} None].
    eexists. split; [vm_compute; reflexivity|]. by vm_compute.
Qed.

Lemma checkpoint_saved_before_flush_witness :
  (exists tail,
     trace (world (state_of (periodic_save 1 (fresh_crawl (midnight 2026 1 5)))))
     = trace (world (fresh_crawl (midnight 2026 1 5))) ++
         EvSave ∅ (Some 0) :: EvFlush :: tail) /\
  (exists w before after,
     download_all_data 3 one_day_api true fromisoformat_py37 (mkdt 2026 1 7 9 30 0 0) 1 None
       (mkio 0 [])
     = Some (Ok 1, w) /\
     trace w = before ++ EvFlush :: after /\
     checkpoint (replay before no_files) = Some ({["20260105"]}, Some 1) /\
     sink_disk (replay before no_files) = [] /\
     sink_buffer (replay before no_files)
     = [JObj [("unit_id", JStr "A"); ("job_number", JStr "1");
              ("_download_date", JStr "20260105")]]).
Proof.
  split.
  - refine (proj1 checkpoint_saved_before_flush 1 (fresh_crawl (midnight 2026 1 5)) _ eq_refl).
    lia.
  - exact (proj1 (proj2 checkpoint_saved_before_flush) fromisoformat_py37
             fromisoformat_py37_isoformat).
Defined.


(** ** The calendar *)

Lemma lex_leb_dates a b :
  valid_datetime a = true -> valid_datetime b = true ->
  (date_le a b <-> rank a <= rank b) /\ (date_lt a b <-> rank a < rank b).
Proof.
  intros Ha Hb.
  pose proof (valid_datetime_fields a Ha) as (Hda & _).
  pose proof (valid_datetime_fields b Hb) as (Hdb & _).
  pose proof (days_in_month_bounds (year a) (month a)).
  pose proof (days_in_month_bounds (year b) (month b)).
  unfold date_le, date_lt, rank, date_fields. cbn [lex_leb].
  split; (split; intros H1;
    [ repeat (apply orb_prop in H1 as [H1|H1] || apply andb_prop in H1 as [? H1]
              || apply orb_false_elim in H1 as [? H1] || apply andb_false_elim in H1 as [H1|H1]);
      lia
    | ]).
  - destruct (Z.ltb_spec (year a) (year b)); [done|].
    destruct (Z.eqb_spec (year a) (year b)); [|lia]. simpl.
    destruct (Z.ltb_spec (month a) (month b)); [done|].
    destruct (Z.eqb_spec (month a) (month b)); [|lia]. simpl.
    destruct (Z.ltb_spec (day a) (day b)); [done|].
    destruct (Z.eqb_spec (day a) (day b)); [done|lia].
  - destruct (Z.ltb_spec (year b) (year a)); [lia|].
    destruct (Z.eqb_spec (year b) (year a)); [|done]. simpl.
    destruct (Z.ltb_spec (month b) (month a)); [lia|].
    destruct (Z.eqb_spec (month b) (month a)); [|done]. simpl.
    destruct (Z.ltb_spec (day b) (day a)); [lia|].
    destruct (Z.eqb_spec (day b) (day a)); [lia|done].
Qed.

Lemma rank_inj a b :
  valid_datetime a = true -> valid_datetime b = true -> rank a = rank b ->
  year a = year b /\ month a = month b /\ day a = day b.
Proof.
  intros Ha Hb Hrank.
  pose proof (valid_datetime_fields a Ha) as (Hda & _).
  pose proof (valid_datetime_fields b Hb) as (Hdb & _).
  pose proof (days_in_month_bounds (year a) (month a)).
  pose proof (days_in_month_bounds (year b) (month b)).
  unfold rank in Hrank. lia.
Qed.

Lemma lex_leb_prefix a b t t' :
  length a = length b ->
  lex_leb (a ++ t) (b ++ t') = true <->
  (lex_leb b a = false) \/ (a = b /\ lex_leb t t' = true).
Proof.
  revert b. induction a as [|x a IH]; intros [|y b] Hlen; try done.
  - simpl. split; [intros ?; right; by split | by intros [|[_ ?]]].
  - injection Hlen as Hlen. specialize (IH b Hlen). cbn [app lex_leb].
    destruct (Z.lt_trichotomy x y) as [Hxy|[->|Hxy]].
    + replace (x <? y) with true by lia. replace (y <? x) with false by lia.
      replace (y =? x) with false by lia. simpl. split; [by left | done].
    + rewrite Z.ltb_irrefl, Z.eqb_refl. simpl. rewrite IH.
      split; (intros [?|[? ?]]; [by left | right; split; [congruence | done]]).
    + replace (x <? y) with false by lia. replace (x =? y) with false by lia.
      replace (y <? x) with true by lia. simpl.
      split; [done | intros [|[[=] _]]; [done | lia]].
Qed.

(** The loop test on valid datetimes. *)
Lemma dt_leb_rank a b :
  valid_datetime a = true -> valid_datetime b = true ->
  dt_leb a b = true <->
  rank a < rank b \/ (rank a = rank b /\ lex_leb (time_fields a) (time_fields b) = true).
Proof.
  intros Ha Hb. unfold dt_leb. rewrite lex_leb_prefix by done.
  destruct (lex_leb_dates a b Ha Hb) as (_ & Hlt). fold (date_lt a b). rewrite Hlt.
  split; (intros [?|[Heq ?]]; [by left | right; split; [|done]]).
  - unfold date_fields in Heq. injection Heq as Hy Hm Hd. unfold rank. lia.
  - destruct (rank_inj a b Ha Hb Heq) as (Hy & Hm & Hd). unfold date_fields. congruence.
Qed.

Lemma valid_datetime_intro dt :
  1 <= year dt <= 9999 -> 1 <= month dt <= 12 ->
  1 <= day dt <= days_in_month (year dt) (month dt) ->
  valid_time (hour dt) (minute dt) (second dt) (microsecond dt) = true ->
  valid_datetime dt = true.
Proof.
  intros Hy Hm Hd Ht. unfold valid_datetime, valid_date, MAXYEAR. rewrite Ht.
  repeat (apply andb_true_intro; split); lia.
Qed.

(** Stepping a valid datetime by one day. *)
Lemma add_one_day_ok dt next :
  valid_datetime dt = true -> add_one_day dt = Ok next ->
  valid_datetime next = true /\ time_fields next = time_fields dt /\
  rank dt < rank next /\
  (forall x, valid_datetime x = true -> rank dt < rank x -> rank next <= rank x).
Proof.
  intros Hvalid Hstep.
  pose proof (valid_datetime_fields dt Hvalid) as (Hd & _).
  pose proof (days_in_month_bounds (year dt) (month dt)) as Hdim.
  assert (Htime : valid_time (hour dt) (minute dt) (second dt) (microsecond dt) = true).
  { unfold valid_datetime in Hvalid. by apply andb_prop in Hvalid as [_ ?]. }
  assert (Hx : forall x, valid_datetime x = true ->
            1 <= month x <= 12 /\ 1 <= day x <= 31 /\
            (year x = year dt -> month x = month dt ->
             day x <= days_in_month (year dt) (month dt))).
  { intros x Hx. pose proof (valid_datetime_fields x Hx) as (Hdx & _).
    pose proof (days_in_month_bounds (year x) (month x)).
    repeat split; try lia. intros <- <-. lia. }
  unfold add_one_day, MAXYEAR in Hstep.
  destruct (Z.ltb_spec (day dt) (days_in_month (year dt) (month dt))).
  { inversion Hstep; subst next. split; [|split; [done|]].
    - apply valid_datetime_intro; cbn; try done; lia.
    - unfold rank; cbn. split; [lia|]. intros x Hvx Hlt. apply Hx in Hvx. lia. }
  destruct (Z.ltb_spec (month dt) 12).
  { inversion Hstep; subst next. split; [|split; [done|]].
    - pose proof (days_in_month_bounds (year dt) (month dt + 1)).
      apply valid_datetime_intro; cbn; try done; lia.
    - unfold rank; cbn. split; [lia|]. intros x Hvx Hlt. apply Hx in Hvx.
      destruct Hvx as (? & ? & Hday).
      destruct (Z.lt_trichotomy (year x) (year dt)) as [?|[Hy|?]]; [lia| |lia].
      destruct (Z.lt_trichotomy (month x) (month dt)) as [?|[Hm|?]]; [lia| |lia].
      specialize (Hday Hy Hm). lia. }
  destruct (Z.ltb_spec (year dt) 9999); [|done].
  inversion Hstep; subst next. split; [|split; [done|]].
  - apply valid_datetime_intro; cbn; try done; lia.
  - unfold rank; cbn. split; [lia|]. intros x Hvx Hlt. apply Hx in Hvx.
    destruct Hvx as (? & ? & Hday).
    destruct (Z.lt_trichotomy (year x) (year dt)) as [?|[Hy|?]]; [lia| |lia].
    destruct (Z.lt_trichotomy (month x) (month dt)) as [?|[Hm|?]]; [lia| |lia].
    specialize (Hday Hy Hm). lia.
Qed.

Lemma add_one_day_raise dt e :
  valid_datetime dt = true -> add_one_day dt = Raise e -> year dt = MAXYEAR.
Proof.
  intros Hvalid Hstep. pose proof (valid_datetime_fields dt Hvalid) as (Hd & _).
  unfold add_one_day, MAXYEAR in *.
  destruct (_ <? _); [done|]. destruct (_ <? _); [done|].
  destruct (Z.ltb_spec (year dt) 9999); [done | lia].
Qed.

(** Distinct days have distinct keys. *)
Lemma strftime_Ymd_inj a b :
  valid_datetime a = true -> valid_datetime b = true ->
  strftime_Ymd a = strftime_Ymd b -> rank a = rank b.
Proof.
  intros Ha Hb Heq.
  pose proof (valid_datetime_fields a Ha) as (Hda & _).
  pose proof (valid_datetime_fields b Hb) as (Hdb & _).
  pose proof (days_in_month_bounds (year a) (month a)).
  pose proof (days_in_month_bounds (year b) (month b)).
  assert (Hy : digits 4 (year a) = digits 4 (year b)).
  { by apply (f_equal (String.substring 0 4)) in Heq. }
  assert (Hm : digits 2 (month a) = digits 2 (month b)).
  { by apply (f_equal (String.substring 4 2)) in Heq. }
  assert (Hd : digits 2 (day a) = digits 2 (day b)).
  { by apply (f_equal (String.substring 6 2)) in Heq. }
  apply digits_inj in Hy, Hm, Hd; try (simpl; lia). unfold rank. lia.
Qed.

Lemma datetime_ext a b :
  year a = year b -> month a = month b -> day a = day b ->
  time_fields a = time_fields b -> a = b.
Proof.
  destruct a, b. unfold time_fields. simpl. intros -> -> -> [= -> -> -> ->]. reflexivity.
Qed.

Lemma rank_of_year dt :
  valid_datetime dt = true -> 372 * year dt + 32 <= rank dt <= 372 * year dt + 403.
Proof.
  intros Hvalid. pose proof (valid_datetime_fields dt Hvalid) as (Hd & _).
  pose proof (days_in_month_bounds (year dt) (month dt)). unfold rank. lia.
Qed.

(** The days visited are the closed interval, in ascending order. *)
Lemma span_spec end_date fuel :
  valid_datetime end_date = true -> year end_date < MAXYEAR ->
  forall d,
    valid_datetime d = true ->
    lex_leb (time_fields d) (time_fields end_date) = true ->
    Z.max 0 (rank end_date - rank d + 1) < Z.of_nat fuel ->
    StronglySorted date_lt (span fuel d end_date) /\
    (forall x, x ∈ span fuel d end_date <->
               valid_datetime x = true /\ time_fields x = time_fields d /\
               rank d <= rank x <= rank end_date).
Proof.
  intros Hend Hyear. induction fuel as [|k IH]; intros d Hd Htime Hfuel; [lia|].
  pose proof (dt_leb_rank d end_date Hd Hend) as Htest.
  cbn [span]. destruct (dt_leb d end_date).
  2: { split; [constructor|]. intros x. split; [by intros ?%elem_of_nil|].
       intros (Hx & Hxt & Hrank). exfalso.
       assert (dt_false : ~ (rank d < rank end_date \/
                 (rank d = rank end_date /\
                  lex_leb (time_fields d) (time_fields end_date) = true))).
       { intros H. by apply Htest in H. }
       apply dt_false. destruct (decide (rank d < rank end_date)); [by left|].
       right. split; [lia | done]. }
  assert (Hle : rank d <= rank end_date).
  { destruct (proj1 Htest eq_refl) as [?|[? _]]; lia. }
  destruct (add_one_day d) as [next|e] eqn:Estep.
  2: { apply add_one_day_raise in Estep; [|done].
       pose proof (rank_of_year d Hd). pose proof (rank_of_year end_date Hend). lia. }
  destruct (add_one_day_ok d next Hd Estep) as (Hnext & Hnt & Hlt & Hsucc).
  destruct (IH next Hnext) as (Hsorted & Hmem); [by rewrite Hnt | lia |].
  split.
  - constructor; [exact Hsorted|]. apply Forall_forall. intros x Hx.
    apply Hmem in Hx as (Hvx & _ & Hrx & _).
    apply (lex_leb_dates d x Hd Hvx). lia.
  - intros x. rewrite elem_of_cons, Hmem. split.
    + intros [-> | (Hvx & Hxt & Hrx)]; [by repeat split; try lia|].
      split; [done|]. split; [congruence | lia].
    + intros (Hvx & Hxt & Hrx).
      destruct (decide (rank x = rank d)) as [Heq|Hne].
      * left. destruct (rank_inj x d Hvx Hd Heq) as (? & ? & ?). by apply datetime_ext.
      * right. split; [done|]. split; [congruence|]. split; [apply Hsucc; [done|lia] | lia].
Qed.

(** ** The dates fetched by the list pass *)

Lemma fetched_dates_app a b : fetched_dates (a ++ b) = fetched_dates a ++ fetched_dates b.
Proof. apply omap_app. Qed.

Lemma requested_dates_app a b :
  requested_dates (a ++ b) = requested_dates a ++ requested_dates b.
Proof. apply omap_app. Qed.

Lemma get_date_list_url date_str attempt :
  get_date (EvGet list_url (list_params date_str) attempt) = Some (date_str, attempt).
Proof. reflexivity. Qed.

Lemma turn_event_dates date_str keys total more :
  Forall (turn_event date_str keys total) more ->
  fetched_dates more = [] /\ Forall (fun x => x = date_str) (requested_dates more).
Proof.
  induction 1 as [|e rest He _ [IHf IHr]]; [by split|].
  destruct e as [u p a| | | | | |]; try done.
  destruct He as (-> & -> & Ha). unfold fetched_dates, requested_dates in *. cbn [omap list_omap].
  rewrite get_date_list_url. cbn. split.
  - destruct a as [|[]|]; try exact IHf. set_solver.
  - by constructor.
Qed.

(** What a turn adds to the dates fetched and to the set. *)
Lemma loop_body_fetched srv decode_rx save_interval st :
  let date_str := strftime_Ymd (current_date st) in
  let st' := state_of (loop_body srv decode_rx save_interval st) in
  exists added,
    trace (world st') = trace (world st) ++ added /\
    fetched_dates added = (if decide (date_str ∈ downloaded_dates st) then [] else [date_str]) /\
    (forall x, x ∈ requested_dates added -> x ∈ fetched_dates added) /\
    downloaded_dates st ⊆ downloaded_dates st' /\
    downloaded_dates st' ⊆ {[date_str]} ∪ downloaded_dates st.
Proof.
  intros date_str st'. subst st'.
  destruct (decide (date_str ∈ downloaded_dates st)) as [Hin|Hnew].
  - rewrite loop_body_skip by done. destruct (advance_keeps st) as (-> & _ & _ & ->).
    exists []. rewrite app_nil_r. repeat split; try done; set_solver.
  - destruct (loop_body_general srv decode_rx save_interval st Hnew)
      as (Hdates & more & Htr & Hall & _).
    fold date_str in Hdates, Htr, Hall.
    apply turn_event_dates in Hall as (Hf & Hr).
    exists (EvGet list_url (list_params date_str) 0 :: more).
    split; [exact Htr|].
    rewrite (app_comm_cons_single _ more), fetched_dates_app, requested_dates_app, Hf.
    split; [reflexivity|]. split.
    + intros x [Hx|Hx]%elem_of_app.
      * cbn in Hx. set_solver.
      * rewrite Forall_forall in Hr. apply Hr in Hx as ->. cbn. set_solver.
    + destruct Hdates as [-> | ->]; set_solver.
Qed.

(** The loop: from a valid day on, with fuel for every day up to
    [end_date], it ends normally and has started a fetch exactly on the
    days of the span that were not loaded. *)
Lemma crawl_loop_fetched srv decode_rx save_interval end_date (loaded : gset string) fuel :
  valid_datetime end_date = true -> year end_date < MAXYEAR -> save_interval <> 0 ->
  forall st,
    valid_datetime (current_date st) = true ->
    lex_leb (time_fields (current_date st)) (time_fields end_date) = true ->
    Z.max 0 (rank end_date - rank (current_date st) + 1) < Z.of_nat fuel ->
    loaded ⊆ downloaded_dates st ->
    (forall x, valid_datetime x = true -> rank (current_date st) <= rank x ->
               strftime_Ymd x ∈ downloaded_dates st -> strftime_Ymd x ∈ loaded) ->
    exists st' added,
      crawl_loop fuel srv decode_rx save_interval end_date st = Some (Next st') /\
      trace (world st') = trace (world st) ++ added /\
      fetched_dates added
      = filter (fun d => d ∉ loaded) (strftime_Ymd <$> span fuel (current_date st) end_date) /\
      (forall x, x ∈ requested_dates added -> x ∈ fetched_dates added).
Proof.
  intros Hend Hyear Hinterval.
  induction fuel as [|k IH]; intros st Hcur Htime Hfuel Hloaded Hfuture; [lia|].
  pose proof (dt_leb_rank (current_date st) end_date Hcur Hend) as Htest.
  cbn [crawl_loop span]. destruct (dt_leb (current_date st) end_date).
  2: { exists st, []. rewrite app_nil_r. by repeat split. }
  assert (Hle : rank (current_date st) <= rank end_date).
  { destruct (proj1 Htest eq_refl) as [?|[? _]]; lia. }
  destruct (add_one_day (current_date st)) as [next|e] eqn:Estep.
  2: { apply add_one_day_raise in Estep; [|done].
       pose proof (rank_of_year _ Hcur). pose proof (rank_of_year end_date Hend). lia. }
  destruct (add_one_day_ok _ next Hcur Estep) as (Hnext & Hnt & Hlt & _).
  destruct (loop_body_next srv decode_rx save_interval st next Estep Hinterval)
    as (st1 & Ebody & Hcur1).
  destruct (loop_body_fetched srv decode_rx save_interval st)
    as (added1 & Htr1 & Hf1 & Hr1 & Hsub & Hsup).
  rewrite Ebody in *. cbn [state_of] in *.
  destruct (IH st1) as (st' & added2 & Hrun & Htr2 & Hf2 & Hr2).
  { by rewrite Hcur1. }
  { by rewrite Hcur1, Hnt. }
  { rewrite Hcur1. lia. }
  { set_solver. }
  { intros x Hx Hrank Hin. rewrite Hcur1 in Hrank. apply Hsup in Hin.
    apply elem_of_union in Hin as [Hin|Hin].
    - apply elem_of_singleton in Hin. apply strftime_Ymd_inj in Hin; [lia|done..].
    - apply Hfuture; [done|lia|done]. }
  exists st', (added1 ++ added2). split; [exact Hrun|].
  split; [by rewrite Htr2, Htr1, app_assoc|].
  rewrite Hcur1 in Hf2.
  rewrite fetched_dates_app, requested_dates_app, Hf1, Hf2.
  split.
  - cbn [fmap list_fmap]. rewrite filter_cons.
    destruct (decide (strftime_Ymd (current_date st) ∈ downloaded_dates st)) as [Hin|Hnew].
    + rewrite decide_False; [done|]. intros Hnot. apply Hnot.
      apply Hfuture; [done|lia|done].
    + rewrite decide_True; [done|]. set_solver.
  - intros x [Hx|Hx]%elem_of_app; apply elem_of_app.
    + left. rewrite <- Hf1. by apply Hr1.
    + right. rewrite <- Hf2. by apply Hr2.
Qed.

(** C6.  The list pass goes through the days from the start to the end of
    the range, both included, in ascending order, and ends normally; it
    starts a fetch exactly on those days whose key is not in the set
    loaded from the progress file, and sends no request for any other
    date.  So a resumed run does not fetch a day that was saved and does
    fetch the day after it. *)
Theorem list_pass_visits_pending_dates srv decode_rx save_interval progress
    start_date end_date w :
  valid_datetime start_date = true -> valid_datetime end_date = true ->
  year end_date < MAXYEAR ->
  lex_leb (time_fields start_date) (time_fields end_date) = true ->
  save_interval <> 0 ->
  let loaded := match progress with Some (dates, _) => dates | None => ∅ end in
  let days := dates_between start_date end_date in
  StronglySorted date_lt days /\
  (forall x, x ∈ days <->
             valid_datetime x = true /\ time_fields x = time_fields start_date /\
             date_le start_date x /\ date_le x end_date) /\
  exists st added,
    crawl_dates (enough_fuel start_date end_date) srv decode_rx save_interval progress
      start_date end_date w = Some (Next st) /\
    trace (world st) = trace w ++ added /\
    fetched_dates added = filter (fun d => d ∉ loaded) (strftime_Ymd <$> days) /\
    (forall d, d ∈ requested_dates added -> d ∈ fetched_dates added) /\
    (forall d, d ∈ loaded -> d ∉ requested_dates added) /\
    (forall x, x ∈ days -> strftime_Ymd x ∉ loaded -> strftime_Ymd x ∈ fetched_dates added).
Proof.
  intros Hstart Hend Hyear Htime Hinterval loaded days.
  assert (Hfuel : Z.max 0 (rank end_date - rank start_date + 1)
                  < Z.of_nat (enough_fuel start_date end_date)).
  { unfold enough_fuel. lia. }
  destruct (span_spec end_date (enough_fuel start_date end_date) Hend Hyear
              start_date Hstart Htime Hfuel) as (Hsorted & Hmem).
  fold (dates_between start_date end_date) in Hsorted, Hmem. fold days in Hsorted, Hmem.
  split; [exact Hsorted|]. split.
  { intros x. rewrite Hmem. split.
    - intros (Hx & Hxt & Hr). destruct (lex_leb_dates start_date x Hstart Hx) as (H1 & _).
      destruct (lex_leb_dates x end_date Hx Hend) as (H2 & _).
      repeat split; try done; [apply H1 | apply H2]; lia.
    - intros (Hx & Hxt & Hs & He). destruct (lex_leb_dates start_date x Hstart Hx) as (H1 & _).
      destruct (lex_leb_dates x end_date Hx Hend) as (H2 & _).
      apply H1 in Hs. apply H2 in He. by repeat split. }
  set (st0 := {| current_date := start_date; downloaded_dates := loaded;
                 downloaded_count := 0; total_tenders := 0; days_processed := 0;
                 world := w |}).
  destruct (crawl_loop_fetched srv decode_rx save_interval end_date loaded
              (enough_fuel start_date end_date) Hend Hyear Hinterval st0)
    as (st & added & Hrun & Htr & Hf & Hr); try done.
  unfold crawl_dates. fold loaded. fold st0. rewrite Hrun.
  eexists. exists (added ++ [EvClose; EvSave (downloaded_dates st) (Some (total_tenders st))]).
  split; [reflexivity|]. cbn [world with_world]. unfold _save_progress.
  rewrite !trace_emit, Htr. split; [by list_assoc|].
  rewrite fetched_dates_app, requested_dates_app. cbn. rewrite !app_nil_r.
  fold (dates_between start_date end_date) in Hf. fold days in Hf.
  split; [exact Hf|]. split; [exact Hr|]. split.
  - intros d Hd Hreq. apply Hr in Hreq. rewrite Hf in Hreq.
    by apply list_elem_of_filter in Hreq as [Hnot _].
  - intros x Hx Hnot. rewrite Hf. apply list_elem_of_filter. split; [done|].
    by apply list_elem_of_fmap_2.
Qed.

Lemma list_pass_visits_pending_dates_witness :
  let days := dates_between (midnight 2026 1 5) (midnight 2026 1 7) in
  exists st added,
    crawl_dates (enough_fuel (midnight 2026 1 5) (midnight 2026 1 7)) one_record_then_empty
      true 100 (Some ({["20260105"]}, Some 0)) (midnight 2026 1 5) (midnight 2026 1 7)
      (mkio 0 []) = Some (Next st) /\
    trace (world st) = trace (mkio 0 []) ++ added /\
    fetched_dates added = filter (fun d => d ∉ ({["20260105"]} : gset string))
                                 (strftime_Ymd <$> days) /\
    (forall d, d ∈ requested_dates added -> d ∈ fetched_dates added) /\
    (forall d, d ∈ ({["20260105"]} : gset string) -> d ∉ requested_dates added) /\
    (forall x, x ∈ days -> strftime_Ymd x ∉ ({["20260105"]} : gset string) ->
               strftime_Ymd x ∈ fetched_dates added).
Proof.
  refine (proj2 (proj2 (list_pass_visits_pending_dates one_record_then_empty true 100
            (Some ({["20260105"]}, Some 0)) (midnight 2026 1 5) (midnight 2026 1 7)
            (mkio 0 []) eq_refl eq_refl _ eq_refl _))).
  - unfold MAXYEAR. simpl. lia.
  - lia.
Defined.

Example resumed_run_fetches_the_next_days :
  match crawl_dates 5 one_record_then_empty true 100 (Some ({["20260105"]}, Some 0))
          (midnight 2026 1 5) (midnight 2026 1 7) (mkio 0 []) with
  | Some (Next st) => fetched_dates (trace (world st)) = ["20260106"; "20260107"]
  | _ => False
  end.
Proof. vm_compute. reflexivity. Qed.

Example span_crosses_a_leap_day :
  strftime_Ymd <$> dates_between (midnight 2024 2 27) (midnight 2024 3 1)
  = ["20240227"; "20240228"; "20240229"; "20240301"].
Proof. vm_compute. reflexivity. Qed.

(** * Further properties of the code *)

(** ** The fetch: budget of requests and of sleeps *)

Lemma requests_of_app a b : requests_of (a ++ b) = requests_of a ++ requests_of b.
Proof. apply omap_app. Qed.

(** The retry loop sends its requests for the first attempts still to
    come, one each, and nothing else. *)
Lemma retry_loop_requests srv url params max_retries todo :
  forall w r w',
    retry_loop srv url params max_retries todo w = (r, w') ->
    exists k added,
      (k <= length todo)%nat /\
      requests w' = (requests w + k)%nat /\
      trace w' = trace w ++ added /\
      requests_of added = (fun a => (url, params, a)) <$> take k todo.
Proof.
  induction todo as [|attempt rest IH]; intros w r w' Hrun; simpl in Hrun.
  - inversion Hrun; subst. exists 0%nat, []. rewrite app_nil_r, Nat.add_0_r.
    by repeat split.
  - set (w1 := {| requests := S (requests w); log := EvGet url params attempt :: log w |}) in *.
    assert (Hstop : forall r0, (r0, w1) = (r, w') ->
              exists k added,
                (k <= length (attempt :: rest))%nat /\
                requests w' = (requests w + k)%nat /\
                trace w' = trace w ++ added /\
                requests_of added = (fun a => (url, params, a)) <$> take k (attempt :: rest)).
    { intros r0 [= _ <-]. exists 1%nat, [EvGet url params attempt]. simpl.
      repeat split; try done; lia. }
    assert (Hmore : forall why secs,
              retry_loop srv url params max_retries rest (emit (EvSleep why secs) w1) = (r, w') ->
              exists k added,
                (k <= length (attempt :: rest))%nat /\
                requests w' = (requests w + k)%nat /\
                trace w' = trace w ++ added /\
                requests_of added = (fun a => (url, params, a)) <$> take k (attempt :: rest)).
    { intros why secs Hrest. apply IH in Hrest as (k & added & Hk & Hreq & Htr & Hgets).
      exists (S k), (EvGet url params attempt :: EvSleep why secs :: added).
      split; [simpl; lia|]. split; [rewrite Hreq; simpl; lia|]. split.
      - rewrite Htr, trace_emit. unfold trace at 1. simpl. by list_assoc.
      - change (requests_of (EvGet url params attempt :: EvSleep why secs :: added))
          with ((url, params, attempt) :: requests_of added).
        by rewrite Hgets. }
    destruct (srv (requests w) url params) as [status body| |].
    + destruct (status =? 429); [by eapply Hmore|].
      destruct ((400 <=? status) && (status <? 600)); [by eapply Hstop|].
      destruct body; by eapply Hstop.
    + destruct (attempt <? max_retries - 1); [by eapply Hmore | by eapply Hstop].
    + by eapply Hstop.
Qed.

(** X1.  Whatever the server does, one call of the fetch sends at most
    [max_retries] requests, all to its own URL with its own parameters,
    numbered 0, 1, 2, ... without a gap; with no attempt allowed it sends
    nothing and returns [None]. *)
Theorem fetch_stays_within_budget srv url params max_retries w :
  let w' := snd (_request_with_retry srv url params max_retries w) in
  (exists k added,
     0 <= k <= Z.max 0 max_retries /\
     requests w' = (requests w + Z.to_nat k)%nat /\
     trace w' = trace w ++ added /\
     requests_of added = (fun a => (url, params, a)) <$> py_range k) /\
  (max_retries <= 0 -> _request_with_retry srv url params max_retries w = (Ok JNull, w)).
Proof.
  intros w'. subst w'. unfold _request_with_retry. split.
  - destruct (retry_loop srv url params max_retries (py_range max_retries) w)
      as [r w'] eqn:Erun.
    apply retry_loop_requests in Erun as (k & added & Hk & Hreq & Htr & Hgets).
    unfold py_range in Hk, Hgets. rewrite length_fmap, length_seq in Hk.
    exists (Z.of_nat k), added. simpl. rewrite Nat2Z.id.
    split; [lia|]. split; [done|]. split; [done|].
    rewrite Hgets. f_equal. unfold py_range. rewrite <- fmap_take, Nat2Z.id.
    f_equal. rewrite take_seq. f_equal. lia.
  - intros Hnone. unfold py_range. by replace (Z.to_nat max_retries) with 0%nat by lia.
Qed.

Lemma fetch_stays_within_budget_witness :
  _request_with_retry (scripted [] Unreachable) list_url (list_params "20260105") 0 (mkio 0 [])
  = (Ok JNull, mkio 0 []).
Proof.
  refine (proj2 (fetch_stays_within_budget (scripted [] Unreachable) list_url
                   (list_params "20260105") 0 (mkio 0 [])) _).
  lia.
Defined.

Lemma seconds_slept_app a b : seconds_slept (a ++ b) = seconds_slept a + seconds_slept b.
Proof.
  unfold seconds_slept. rewrite sleeps_app, fmap_app, foldr_app.
  generalize (snd <$> sleeps b). induction (snd <$> sleeps a) as [|x l IH]; intros lb; simpl.
  - lia.
  - rewrite IH. lia.
Qed.

(** The sleeps of the retry loop over the attempts [a], [a + 1], ... *)
Lemma retry_loop_sleep_bound srv url params max_retries k :
  forall a w r w',
    retry_loop srv url params max_retries (Z.of_nat <$> seq a k) w = (r, w') ->
    5 <= 10 * (Z.of_nat a + 1) ->
    exists added,
      trace w' = trace w ++ added /\
      0 <= seconds_slept added <= 5 * Z.of_nat k * (2 * Z.of_nat a + Z.of_nat k + 1).
Proof.
  induction k as [|k IH]; intros a w r w' Hrun Ha.
  - simpl in Hrun. inversion Hrun; subst. exists []. rewrite app_nil_r. split; [done|].
    unfold seconds_slept. simpl. lia.
  - change (Z.of_nat <$> seq a (S k)) with (Z.of_nat a :: (Z.of_nat <$> seq (S a) k)) in Hrun.
    cbn [retry_loop session_get] in Hrun.
    set (w1 := {| requests := S (requests w);
                  log := EvGet url params (Z.of_nat a) :: log w |}) in *.
    assert (Hstop : forall r0, (r0, w1) = (r, w') ->
              exists added, trace w' = trace w ++ added /\
                0 <= seconds_slept added
                  <= 5 * Z.of_nat (S k) * (2 * Z.of_nat a + Z.of_nat (S k) + 1)).
    { intros r0 [= _ <-]. exists [EvGet url params (Z.of_nat a)]. split; [done|].
      unfold seconds_slept. simpl. nia. }
    assert (Hmore : forall why secs, 0 <= secs <= 10 * (Z.of_nat a + 1) ->
              retry_loop srv url params max_retries (Z.of_nat <$> seq (S a) k)
                (emit (EvSleep why secs) w1) = (r, w') ->
              exists added, trace w' = trace w ++ added /\
                0 <= seconds_slept added
                  <= 5 * Z.of_nat (S k) * (2 * Z.of_nat a + Z.of_nat (S k) + 1)).
    { intros why secs Hsecs Hrest. apply IH in Hrest as (added & Htr & Hbound); [|lia].
      exists (EvGet url params (Z.of_nat a) :: EvSleep why secs :: added). split.
      - rewrite Htr, trace_emit. unfold trace at 1. simpl. by list_assoc.
      - rewrite (app_comm_cons_single _ (_ :: added)), seconds_slept_app.
        rewrite (app_comm_cons_single _ added), seconds_slept_app.
        change (seconds_slept [EvGet url params (Z.of_nat a)]) with 0.
        change (seconds_slept [EvSleep why secs]) with (secs + 0). nia. }
    destruct (srv (requests w) url params) as [status body| |].
    + destruct (status =? 429); [eapply Hmore; [|done]; lia|].
      destruct ((400 <=? status) && (status <? 600)); [by eapply Hstop|].
      destruct body; by eapply Hstop.
    + destruct (Z.of_nat a <? max_retries - 1); [eapply Hmore; [|done]; lia | by eapply Hstop].
    + by eapply Hstop.
Qed.

(** X2.  Whatever the server does, the sleeps of one call of the fetch add
    up to at most [5 * n * (n + 1)] seconds when [n] attempts are allowed,
    sixty seconds for the three attempts that every caller allows. *)
Theorem fetch_sleeps_are_bounded srv url params max_retries w :
  let w' := snd (_request_with_retry srv url params max_retries w) in
  let n := Z.max 0 max_retries in
  exists added,
    trace w' = trace w ++ added /\
    0 <= seconds_slept added <= 5 * n * (n + 1).
Proof.
  intros w' n. subst w'. unfold _request_with_retry, py_range.
  destruct (retry_loop srv url params max_retries (Z.of_nat <$> seq 0 (Z.to_nat max_retries)) w)
    as [r w'] eqn:Erun.
  apply retry_loop_sleep_bound in Erun as (added & Htr & Hbound); [|lia].
  exists added. split; [done|]. simpl. subst n.
  replace (Z.of_nat (Z.to_nat max_retries)) with (Z.max 0 max_retries) in Hbound by lia.
  nia.
Qed.

(** ** The fetch: failures that are not retried *)

(** X3.  An HTTP error other than 429, a failed connection and a body that
    is not JSON end the fetch at once: the exception leaves after that one
    request, without a sleep, whatever [max_retries] allows. *)
Theorem failures_are_not_retried srv url params max_retries w :
  1 <= max_retries ->
  let w1 := {| requests := S (requests w); log := EvGet url params 0 :: log w |} in
  (forall status body,
     srv (requests w) url params = Responded status body ->
     status <> 429 -> 400 <= status < 600 ->
     _request_with_retry srv url params max_retries w = (Raise (HTTPError status), w1)) /\
  (srv (requests w) url params = Unreachable ->
   _request_with_retry srv url params max_retries w = (Raise ConnectionError, w1)) /\
  (forall status,
     srv (requests w) url params = Responded status None ->
     status <> 429 -> ~ 400 <= status < 600 ->
     _request_with_retry srv url params max_retries w = (Raise JSONDecodeError, w1)).
Proof.
  intros Hmax w1. unfold _request_with_retry, py_range.
  destruct (Z.to_nat max_retries) as [|k] eqn:Ek; [lia|].
  change (Z.of_nat <$> seq 0 (S k)) with (0 :: (Z.of_nat <$> seq 1 k)).
  cbn [retry_loop session_get]. fold w1. split; [|split].
  - intros status body -> Hnot Hrange.
    rewrite (proj2 (Z.eqb_neq status 429) Hnot).
    by replace ((400 <=? status) && (status <? 600)) with true by lia.
  - by intros ->.
  - intros status -> Hnot Hrange.
    rewrite (proj2 (Z.eqb_neq status 429) Hnot).
    by replace ((400 <=? status) && (status <? 600)) with false by lia.
Qed.

Lemma failures_are_not_retried_witness :
  let srv := scripted [Responded 503 None] Unreachable in
  _request_with_retry srv list_url (list_params "20260105") 3 (mkio 0 [])
  = (Raise (HTTPError 503), mkio 1 [EvGet list_url (list_params "20260105") 0]).
Proof.
  intros srv.
  refine (proj1 (failures_are_not_retried srv list_url (list_params "20260105") 3 (mkio 0 []) _)
            503 None eq_refl _ _); lia.
Defined.

(** ** The files after the list pass *)

Lemma replay_app evs1 evs2 f : replay (evs1 ++ evs2) f = replay evs2 (replay evs1 f).
Proof. apply fold_left_app. Qed.

(** Every line written is on disk or in the buffer, after the lines that
    were there before. *)
Lemma replay_lines evs :
  forall f,
    sink_disk (replay evs f) ++ sink_buffer (replay evs f)
    = sink_disk f ++ sink_buffer f ++ written evs.
Proof.
  induction evs as [|e evs IH]; intros f.
  - simpl. by rewrite app_nil_r.
  - change (replay (e :: evs) f) with (replay evs (apply_event f e)). rewrite IH.
    destruct e; simpl; by list_assoc.
Qed.

Lemma replay_close evs f :
  sink_buffer (replay (evs ++ [EvClose]) f) = [] /\
  sink_disk (replay (evs ++ [EvClose]) f) = sink_disk f ++ sink_buffer f ++ written evs /\
  checkpoint (replay (evs ++ [EvClose]) f) = checkpoint (replay evs f).
Proof.
  rewrite replay_app. simpl. by rewrite replay_lines.
Qed.

(** X5.  When the list pass ends, normally or with an exception, the
    record file is closed with every line of the run on disk, after what
    the file held before, and nothing is left in the buffer; after a normal
    end the progress file holds the final set of dates and the counter of
    the run. *)
Theorem list_pass_files_at_end fuel srv decode_rx save_interval progress
    start_date end_date w s f :
  crawl_dates fuel srv decode_rx save_interval progress start_date end_date w = Some s ->
  exists added,
    trace (world (state_of s)) = trace w ++ added /\
    sink_buffer (replay added f) = [] /\
    sink_disk (replay added f) = sink_disk f ++ sink_buffer f ++ written added /\
    (forall st, s = Next st ->
       checkpoint (replay added f) = Some (downloaded_dates st, Some (total_tenders st))).
Proof.
  unfold crawl_dates. intros Hrun.
  destruct (crawl_loop fuel srv decode_rx save_interval end_date _) as [s0|] eqn:Eloop; [|done].
  apply crawl_loop_saved in Eloop as (added & Htr & _).
  cbn [world] in Htr.
  destruct (replay_close added f) as (Hbuf & Hdisk & Hcp).
  destruct s0 as [st|e st]; inversion Hrun; subst; cbn [state_of world with_world] in *.
  - exists ((added ++ [EvClose]) ++ [EvSave (downloaded_dates st) (Some (total_tenders st))]).
    unfold _save_progress. rewrite !trace_emit, Htr. split; [by list_assoc|].
    rewrite (replay_app (added ++ [EvClose])). simpl.
    rewrite !written_app. simpl. rewrite !app_nil_r.
    split; [done|]. split; [done|]. by intros ? [= <-].
  - exists (added ++ [EvClose]). rewrite trace_emit, Htr. split; [by list_assoc|].
    rewrite written_app. simpl. rewrite app_nil_r. by repeat split.
Qed.

Lemma list_pass_files_at_end_witness :
  let s := Next
    {| current_date := midnight 2026 1 6; downloaded_dates := {["20260105"]};
       downloaded_count := 1; total_tenders := 1; days_processed := 1;
       world := mkio 1
         [EvSave {["20260105"]} (Some 1); EvClose; EvDelay; EvFlush;
          EvSave {["20260105"]} (Some 1);
          EvWrite (JObj [("title", JStr "a"); ("_download_date", JStr "20260105")]);
          EvGet list_url (list_params "20260105") 0] |} in
  exists added,
    trace (world (state_of s)) = trace (mkio 0 []) ++ added /\
    sink_buffer (replay added no_files) = [] /\
    sink_disk (replay added no_files)
    = sink_disk no_files ++ sink_buffer no_files ++ written added /\
    (forall st, s = Next st ->
       checkpoint (replay added no_files)
       = Some (downloaded_dates st, Some (total_tenders st))).
Proof.
  refine (list_pass_files_at_end 3 one_record_then_empty true 1 None
            (midnight 2026 1 5) (midnight 2026 1 5) (mkio 0 []) _ no_files _).
  vm_compute. reflexivity.
Defined.

(** ** The set of dates of the list pass *)

Lemma crawl_loop_dates srv decode_rx save_interval end_date fuel :
  forall st s,
    crawl_loop fuel srv decode_rx save_interval end_date st = Some s ->
    exists added,
      trace (world (state_of s)) = trace (world st) ++ added /\
      downloaded_dates st ⊆ downloaded_dates (state_of s) /\
      (forall d, d ∈ downloaded_dates (state_of s) ->
                 d ∈ downloaded_dates st \/ d ∈ fetched_dates added) /\
      (forall d, d ∈ requested_dates added -> d ∈ fetched_dates added).
Proof.
  induction fuel as [|fuel IH]; intros st s Hrun; [done|].
  cbn [crawl_loop] in Hrun.
  destruct (dt_leb (current_date st) end_date).
  2: { inversion Hrun; subst. exists []. rewrite app_nil_r. simpl.
       repeat split; try done. by left. }
  destruct (loop_body_fetched srv decode_rx save_interval st)
    as (added1 & Htr1 & Hf1 & Hr1 & Hsub & Hsup).
  assert (Hone : forall d, d ∈ downloaded_dates
                     (state_of (loop_body srv decode_rx save_interval st)) ->
                   d ∈ downloaded_dates st \/ d ∈ fetched_dates added1).
  { intros d Hd. apply Hsup in Hd. rewrite Hf1.
    destruct (decide (strftime_Ymd (current_date st) ∈ downloaded_dates st)); set_solver. }
  destruct (loop_body srv decode_rx save_interval st) as [st'|e st'] eqn:Ebody;
    cbn [state_of] in *.
  - apply IH in Hrun as (added2 & Htr2 & Hsub2 & Hsup2 & Hr2).
    exists (added1 ++ added2). rewrite Htr2, Htr1, app_assoc.
    rewrite fetched_dates_app, requested_dates_app.
    split; [done|]. split; [set_solver|]. split.
    + intros d Hd. apply Hsup2 in Hd as [Hd|Hd]; [|set_solver].
      apply Hone in Hd. set_solver.
    + intros d [Hd|Hd]%elem_of_app; set_solver.
  - inversion Hrun; subst. cbn [state_of]. exists added1. by repeat split.
Qed.

(** X6.  The set of dates only grows during the list pass, and a date
    enters it only after a fetch for that date was started in the same
    run: what the final snapshot lists is what the progress file listed at
    the start together with days fetched since.  No request is sent for a
    date without a first attempt for it. *)
Theorem list_pass_marks_only_fetched_days fuel srv decode_rx save_interval progress
    start_date end_date w s :
  crawl_dates fuel srv decode_rx save_interval progress start_date end_date w = Some s ->
  let loaded := match progress with Some (dates, _) => dates | None => ∅ end in
  exists added,
    trace (world (state_of s)) = trace w ++ added /\
    loaded ⊆ downloaded_dates (state_of s) /\
    (forall d, d ∈ downloaded_dates (state_of s) -> d ∈ loaded \/ d ∈ fetched_dates added) /\
    (forall d, d ∈ requested_dates added -> d ∈ fetched_dates added).
Proof.
  intros Hrun loaded. unfold crawl_dates in Hrun. fold loaded in Hrun.
  destruct (crawl_loop fuel srv decode_rx save_interval end_date _) as [s0|] eqn:Eloop; [|done].
  apply crawl_loop_dates in Eloop as (added & Htr & Hsub & Hsup & Hreq).
  cbn [world downloaded_dates] in Htr, Hsub, Hsup.
  destruct s0 as [st|e st]; inversion Hrun; subst;
    cbn [state_of world with_world downloaded_dates] in *.
  - exists (added ++ [EvClose; EvSave (downloaded_dates st) (Some (total_tenders st))]).
    unfold _save_progress. rewrite !trace_emit, Htr. split; [by list_assoc|].
    rewrite fetched_dates_app, requested_dates_app. cbn. rewrite !app_nil_r. by repeat split.
  - exists (added ++ [EvClose]). rewrite trace_emit, Htr. split; [by list_assoc|].
    rewrite fetched_dates_app, requested_dates_app. cbn. rewrite !app_nil_r. by repeat split.
Qed.

Lemma list_pass_marks_only_fetched_days_witness :
  let s := Next
    {| current_date := midnight 2026 1 6; downloaded_dates := {["20260105"]};
       downloaded_count := 1; total_tenders := 1; days_processed := 1;
       world := mkio 1
         [EvSave {["20260105"]} (Some 1); EvClose; EvDelay; EvFlush;
          EvSave {["20260105"]} (Some 1);
          EvWrite (JObj [("title", JStr "a"); ("_download_date", JStr "20260105")]);
          EvGet list_url (list_params "20260105") 0] |} in
  exists added,
    trace (world (state_of s)) = trace (mkio 0 []) ++ added /\
    (∅ : gset string) ⊆ downloaded_dates (state_of s) /\
    (forall d, d ∈ downloaded_dates (state_of s) ->
               d ∈ (∅ : gset string) \/ d ∈ fetched_dates added) /\
    (forall d, d ∈ requested_dates added -> d ∈ fetched_dates added).
Proof.
  refine (list_pass_marks_only_fetched_days 3 one_record_then_empty true 1 None
            (midnight 2026 1 5) (midnight 2026 1 5) (mkio 0 []) _ _).
  vm_compute. reflexivity.
Defined.

(** ** A day with a record that is not a dict *)

Lemma write_items_stops date_str good bad rest :
  Forall is_dict good -> ~ is_dict bad ->
  forall w, exists w',
    write_items date_str (good ++ bad :: rest) w = (Raise TypeError, w') /\
    requests w' = requests w /\
    trace w' = trace w ++ (EvWrite <$> (stamp date_str <$> good)).
Proof.
  intros Hgood Hbad. induction Hgood as [|item good Hitem _ IH]; intros w.
  - exists w. simpl. rewrite app_nil_r. by destruct bad.
  - destruct item; try done. simpl.
    destruct (IH (emit (EvWrite (JObj (dict_set "_download_date" (JStr date_str) fields))) w))
      as (w' & Hrun & Hreq & Htr).
    exists w'. split; [exact Hrun|]. split; [by rewrite Hreq|].
    rewrite Htr, trace_emit, <- app_assoc. reflexivity.
Qed.

(** X7.  When the records of a day hold a value that is not a dict, the
    records before it are written with their date, the [TypeError] of the
    assignment ends the day, and the day stays out of the set with the
    counters as they were: a later run fetches the day again and writes
    those records a second time. *)
Theorem malformed_record_leaves_partial_day srv decode_rx save_interval st result
    good bad rest w1 :
  let date_str := strftime_Ymd (current_date st) in
  date_str ∉ downloaded_dates st ->
  _request_with_retry srv list_url (list_params date_str) 3 (world st) = (Ok result, w1) ->
  records_of result = JArr (good ++ bad :: rest) ->
  Forall is_dict good -> ~ is_dict bad ->
  let st' := state_of (loop_body srv decode_rx save_interval st) in
  fst (try_block srv date_str st) = Raise TypeError /\
  downloaded_dates st' = downloaded_dates st /\
  downloaded_count st' = downloaded_count st /\
  total_tenders st' = total_tenders st /\
  written (trace (world st')) = written (trace (world st)) ++ (stamp date_str <$> good).
Proof.
  intros date_str Hnew Hfetch Hrec Hgood Hbad st'.
  pose proof (list_by_date_of_fetch _ _ _ _ _ Hfetch) as Hlist. rewrite Hrec in Hlist.
  pose proof (request_written srv list_url (list_params date_str) 3 (world st)) as Hw1.
  rewrite Hfetch in Hw1. cbn [snd] in Hw1.
  destruct (write_items_stops date_str good bad rest Hgood Hbad w1) as (w2 & Hwrite & _ & Htr2).
  assert (Etry : try_block srv date_str st = (Raise TypeError, with_world w2 st)).
  { unfold try_block. rewrite Hlist.
    replace (truthy (JArr (good ++ bad :: rest))) with true by (by destruct good).
    cbn [py_len py_iter]. by rewrite Hwrite. }
  split; [by rewrite Etry|].
  subst st'. unfold loop_body. fold date_str.
  rewrite bool_decide_eq_false_2 by done. rewrite Etry.
  cbn [is_request_exception].
  destruct (periodic_save_keeps save_interval (with_world w2 st))
    as (Hd & Hc & Ht & _ & tail & Htr & Htail).
  rewrite Hd, Hc, Ht, Htr. cbn [downloaded_dates downloaded_count total_tenders world with_world].
  repeat split; try done.
  by rewrite written_app, (save_event_written _ _ _ Htail), app_nil_r, Htr2, written_app,
    written_writes, Hw1.
Qed.

Lemma malformed_record_leaves_partial_day_witness :
  let srv := scripted [Responded 200 (Some (JObj [("records",
                 JArr [JObj [("title", JStr "a")]; JStr "b"; JObj [("title", JStr "c")]])]))]
               Unreachable in
  let st := fresh_crawl (midnight 2026 1 5) in
  let st' := state_of (loop_body srv true 100 st) in
  fst (try_block srv "20260105" st) = Raise TypeError /\
  downloaded_dates st' = downloaded_dates st /\
  downloaded_count st' = downloaded_count st /\
  total_tenders st' = total_tenders st /\
  written (trace (world st'))
  = written (trace (world st)) ++ (stamp "20260105" <$> [JObj [("title", JStr "a")]]).
Proof.
  intros srv st.
  refine (malformed_record_leaves_partial_day srv true 100 st _
            [JObj [("title", JStr "a")]] (JStr "b") [JObj [("title", JStr "c")]] _
            _ eq_refl eq_refl _ _).
  - apply not_elem_of_empty.
  - by repeat constructor.
  - intros [].
Defined.

(** ** A run with nothing left to fetch *)

Lemma crawl_loop_all_skipped srv decode_rx save_interval end_date fuel :
  valid_datetime end_date = true -> year end_date < MAXYEAR ->
  forall st,
    valid_datetime (current_date st) = true ->
    lex_leb (time_fields (current_date st)) (time_fields end_date) = true ->
    Z.max 0 (rank end_date - rank (current_date st) + 1) < Z.of_nat fuel ->
    (forall x, x ∈ span fuel (current_date st) end_date ->
               strftime_Ymd x ∈ downloaded_dates st) ->
    exists st',
      crawl_loop fuel srv decode_rx save_interval end_date st = Some (Next st') /\
      world st' = world st /\ downloaded_dates st' = downloaded_dates st /\
      total_tenders st' = total_tenders st /\ downloaded_count st' = downloaded_count st.
Proof.
  intros Hend Hyear.
  induction fuel as [|k IH]; intros st Hcur Htime Hfuel Hall; [lia|].
  pose proof (dt_leb_rank (current_date st) end_date Hcur Hend) as Htest.
  cbn [crawl_loop span] in *. destruct (dt_leb (current_date st) end_date).
  2: { by exists st. }
  assert (Hle : rank (current_date st) <= rank end_date).
  { destruct (proj1 Htest eq_refl) as [?|[? _]]; lia. }
  rewrite loop_body_skip by (apply Hall; by left).
  unfold advance.
  destruct (add_one_day (current_date st)) as [next|e] eqn:Estep.
  2: { apply add_one_day_raise in Estep; [|done].
       pose proof (rank_of_year _ Hcur). pose proof (rank_of_year end_date Hend). lia. }
  destruct (add_one_day_ok _ next Hcur Estep) as (Hnext & Hnt & Hlt & _).
  set (st1 := {| current_date := next; downloaded_dates := downloaded_dates st;
                 downloaded_count := downloaded_count st; total_tenders := total_tenders st;
                 days_processed := days_processed st + 1; world := world st |}).
  destruct (IH st1) as (st' & Hrun & Hw & Hd & Ht & Hc).
  - exact Hnext.
  - change (current_date st1) with next. by rewrite Hnt.
  - change (current_date st1) with next. lia.
  - intros x Hx. apply Hall. by right.
  - by exists st'.
Qed.

(** X8.  When every day of the range is in the progress file, the list
    pass sends no request and writes no line: it closes the record file
    and saves the set it loaded with the counter of the run, zero, whatever
    total the progress file held. *)
Theorem complete_progress_sends_no_request srv decode_rx save_interval loaded total
    start_date end_date w :
  valid_datetime start_date = true -> valid_datetime end_date = true ->
  year end_date < MAXYEAR ->
  lex_leb (time_fields start_date) (time_fields end_date) = true ->
  (forall x, x ∈ dates_between start_date end_date -> strftime_Ymd x ∈ loaded) ->
  exists st,
    crawl_dates (enough_fuel start_date end_date) srv decode_rx save_interval
      (Some (loaded, total)) start_date end_date w = Some (Next st) /\
    requests (world st) = requests w /\
    trace (world st) = trace w ++ [EvClose; EvSave loaded (Some 0)].
Proof.
  intros Hstart Hend Hyear Htime Hall.
  set (st0 := {| current_date := start_date; downloaded_dates := loaded;
                 downloaded_count := 0; total_tenders := 0; days_processed := 0;
                 world := w |}).
  destruct (crawl_loop_all_skipped srv decode_rx save_interval end_date
              (enough_fuel start_date end_date) Hend Hyear st0)
    as (st & Hrun & Hw & Hd & Ht & _); try done.
  { unfold enough_fuel. simpl. lia. }
  unfold crawl_dates. fold st0. rewrite Hrun. eexists. split; [reflexivity|].
  cbn [world with_world]. unfold _save_progress. rewrite Hw, Hd, Ht. simpl.
  split; [done|]. unfold trace. simpl. by list_assoc.
Qed.

Lemma complete_progress_sends_no_request_witness :
  exists st,
    crawl_dates (enough_fuel (midnight 2026 1 5) (midnight 2026 1 6)) one_day_api true 100
      (Some ({["20260105"; "20260106"]}, Some 7)) (midnight 2026 1 5) (midnight 2026 1 6)
      (mkio 0 []) = Some (Next st) /\
    requests (world st) = requests (mkio 0 []) /\
    trace (world st)
    = trace (mkio 0 []) ++ [EvClose; EvSave {["20260105"; "20260106"]} (Some 0)].
Proof.
  refine (complete_progress_sends_no_request one_day_api true 100
            {["20260105"; "20260106"]} (Some 7) (midnight 2026 1 5) (midnight 2026 1 6)
            (mkio 0 []) eq_refl eq_refl _ eq_refl _).
  - unfold MAXYEAR. simpl. lia.
  - intros x Hx. vm_compute in Hx.
    apply elem_of_cons in Hx as [->|Hx]; [set_solver|].
    apply elem_of_cons in Hx as [->|Hx]; [set_solver|].
    by apply elem_of_nil in Hx.
Defined.

(** ** Days that fail without a retry *)

(** X9.  A day whose request fails to connect, or is answered with an HTTP
    error other than 429, costs one request: the list pass waits five
    seconds, leaves the day out of the set and steps to the next day,
    without the save, the flush and the delay that end other turns. *)
Theorem failed_day_is_left_pending srv decode_rx save_interval st next :
  let date_str := strftime_Ymd (current_date st) in
  date_str ∉ downloaded_dates st ->
  (srv (requests (world st)) list_url (list_params date_str) = Unreachable \/
   exists status body,
     srv (requests (world st)) list_url (list_params date_str) = Responded status body /\
     status <> 429 /\ 400 <= status < 600) ->
  add_one_day (current_date st) = Ok next ->
  loop_body srv decode_rx save_interval st
  = Next {| current_date := next; downloaded_dates := downloaded_dates st;
            downloaded_count := downloaded_count st; total_tenders := total_tenders st;
            days_processed := days_processed st + 1;
            world := {| requests := S (requests (world st));
                        log := EvSleep NetworkError 5
                                 :: EvGet list_url (list_params date_str) 0
                                 :: log (world st) |} |}.
Proof.
  intros date_str Hnew Hsrv Hnext. unfold loop_body. fold date_str.
  rewrite bool_decide_eq_false_2 by done.
  unfold try_block. rewrite list_by_date_unfold. fold list_url. fold (list_params date_str).
  unfold _request_with_retry. change (py_range 3) with [0; 1; 2].
  cbn [retry_loop session_get].
  destruct Hsrv as [-> | (status & body & -> & Hnot & Hrange)].
  - cbn [is_request_exception]. unfold advance. cbn [current_date with_world]. by rewrite Hnext.
  - rewrite (proj2 (Z.eqb_neq status 429) Hnot).
    replace ((400 <=? status) && (status <? 600)) with true by lia.
    cbn [is_request_exception]. unfold advance. cbn [current_date with_world].
    by rewrite Hnext.
Qed.

Lemma failed_day_is_left_pending_witness :
  loop_body (scripted [Responded 503 None] Unreachable) true 100
    (fresh_crawl (midnight 2026 1 5))
  = Next {| current_date := midnight 2026 1 6; downloaded_dates := ∅;
            downloaded_count := 0; total_tenders := 0; days_processed := 0 + 1;
            world := {| requests := 1;
                        log := [EvSleep NetworkError 5;
                                EvGet list_url (list_params "20260105") 0] |} |}.
Proof.
  refine (failed_day_is_left_pending (scripted [Responded 503 None] Unreachable) true 100
            (fresh_crawl (midnight 2026 1 5)) (midnight 2026 1 6) _ _ eq_refl).
  - apply not_elem_of_empty.
  - right. exists 503, None. split; [reflexivity | lia].
Defined.

(** X10.  A day answered with a body that is not JSON is left out of the
    set in both cases, but what follows depends on whether the decoding
    error of the HTTP library is one of its request exceptions: if it is,
    the turn waits five seconds and skips its end; if it is not, the turn
    ends like a good day, with the delay and, when the count of days is a
    multiple of the interval, with a snapshot that does not list the day. *)
Theorem undecodable_day_is_left_pending srv decode_rx save_interval st status :
  let date_str := strftime_Ymd (current_date st) in
  date_str ∉ downloaded_dates st ->
  srv (requests (world st)) list_url (list_params date_str) = Responded status None ->
  status <> 429 -> ~ 400 <= status < 600 ->
  let w1 := {| requests := S (requests (world st));
               log := EvGet list_url (list_params date_str) 0 :: log (world st) |} in
  loop_body srv decode_rx save_interval st
  = (if decode_rx
     then advance (with_world (emit (EvSleep NetworkError 5) w1) st)
     else periodic_save save_interval (with_world w1 st)) /\
  downloaded_dates (state_of (loop_body srv decode_rx save_interval st)) = downloaded_dates st.
Proof.
  intros date_str Hnew Hsrv Hnot Hrange w1.
  assert (Hbody : loop_body srv decode_rx save_interval st
                  = if decode_rx
                    then advance (with_world (emit (EvSleep NetworkError 5) w1) st)
                    else periodic_save save_interval (with_world w1 st)).
  { unfold loop_body. fold date_str. rewrite bool_decide_eq_false_2 by done.
    unfold try_block. rewrite list_by_date_unfold. fold list_url. fold (list_params date_str).
    unfold _request_with_retry. change (py_range 3) with [0; 1; 2].
    cbn [retry_loop session_get]. rewrite Hsrv.
    rewrite (proj2 (Z.eqb_neq status 429) Hnot).
    replace ((400 <=? status) && (status <? 600)) with false by lia.
    cbn [is_request_exception]. by destruct decode_rx. }
  split; [exact Hbody|]. rewrite Hbody. destruct decode_rx.
  - by destruct (advance_keeps (with_world (emit (EvSleep NetworkError 5) w1) st)) as (-> & _).
  - by destruct (periodic_save_keeps save_interval (with_world w1 st)) as (-> & _).
Qed.

Lemma undecodable_day_is_left_pending_witness :
  let srv := scripted [Responded 200 None] Unreachable in
  let st := fresh_crawl (midnight 2026 1 5) in
  let w1 := {| requests := 1; log := [EvGet list_url (list_params "20260105") 0] |} in
  loop_body srv false 100 st = periodic_save 100 (with_world w1 st) /\
  downloaded_dates (state_of (loop_body srv false 100 st)) = downloaded_dates st.
Proof.
  intros srv st w1.
  refine (undecodable_day_is_left_pending srv false 100 st 200 _ eq_refl _ _).
  - apply not_elem_of_empty.
  - lia.
  - lia.
Defined.

(** ** The preamble of the list pass *)

(** X11.  When the three requests for the API information are all
    answered with 429, the fetch returns [None] after waits of 10, 20 and
    30 seconds and the list pass ends with the [AttributeError] of
    [info.get]: no day is requested, no line is written and no progress is
    saved. *)
Theorem rate_limited_info_ends_the_run fuel srv decode_rx fromisoformat now save_interval
    progress w :
  (forall i, (i < 3)%nat ->
     exists body, srv (requests w + i)%nat (BASE_URL +:+ "/getinfo") [] = Responded 429 body) ->
  exists w',
    download_all_data fuel srv decode_rx fromisoformat now save_interval progress w
    = Some (Raise AttributeError, w') /\
    trace w' = trace w ++
      [EvGet (BASE_URL +:+ "/getinfo") [] 0; EvSleep RateLimit 10;
       EvGet (BASE_URL +:+ "/getinfo") [] 1; EvSleep RateLimit 20;
       EvGet (BASE_URL +:+ "/getinfo") [] 2; EvSleep RateLimit 30].
Proof.
  intros Hsrv.
  destruct (request_all_429 srv (BASE_URL +:+ "/getinfo") [] 3 w) as (w' & Hrun & Htr).
  { intros i Hi. apply Hsrv. lia. }
  exists w'. split; [|exact Htr].
  unfold download_all_data, get_info. by rewrite Hrun.
Qed.

Lemma rate_limited_info_ends_the_run_witness :
  exists w',
    download_all_data 3 (scripted [] (Responded 429 None)) true fromisoformat_py37
      (midnight 2026 1 7) 100 None (mkio 0 [])
    = Some (Raise AttributeError, w') /\
    trace w' = trace (mkio 0 []) ++
      [EvGet (BASE_URL +:+ "/getinfo") [] 0; EvSleep RateLimit 10;
       EvGet (BASE_URL +:+ "/getinfo") [] 1; EvSleep RateLimit 20;
       EvGet (BASE_URL +:+ "/getinfo") [] 2; EvSleep RateLimit 30].
Proof.
  refine (rate_limited_info_ends_the_run 3 (scripted [] (Responded 429 None)) true
            fromisoformat_py37 (midnight 2026 1 7) 100 None (mkio 0 []) _).
  intros [|[|[|i]]] Hi; by exists None.
Defined.

(** ** The files and the set of the detail pass *)

Section DetailFiles.

Variable str_other : json -> string.

(** What a turn of the detail loop does to the counter, the set and the
    record file. *)
Lemma detail_body_effect srv batch_size fields st :
  let st' := detail_body str_other srv batch_size fields st in
  exists added,
    trace (dworld st') = trace (dworld st) ++ added /\
    count st' = count st + Z.of_nat (length (written added)) /\
    Forall (fun line => truthy line = true) (written added) /\
    downloaded_ids st ⊆ downloaded_ids st' /\
    downloaded_ids st' ⊆ {[tender_id str_other fields]} ∪ downloaded_ids st /\
    (written added <> [] -> tender_id str_other fields ∈ downloaded_ids st') /\
    Forall (fun ids => ids = downloaded_ids st') (saved_ids added).
Proof.
  unfold detail_body, get_tender_detail.
  destruct (_request_with_retry srv (BASE_URL +:+ "/tender") _ 3 (dworld st)) as [r w1] eqn:E.
  apply request3_trace in E as (more & Htr & Hmore).
  pose proof (retry_event_written _ _ _ _ Hmore) as Hnone.
  assert (Hsaved : saved_ids more = []).
  { clear -Hmore. induction Hmore as [|e rest He _ IH]; [done|]. by destruct e. }
  set (get := EvGet (BASE_URL +:+ "/tender")
                [("unit_id", dict_get "unit_id" (JStr "") fields);
                 ("job_number", dict_get "job_number" (JStr "") fields)] 0) in *.
  assert (Hskip : exists added,
            trace (emit EvDelay w1) = trace (dworld st) ++ added /\
            count st = count st + Z.of_nat (length (written added)) /\
            Forall (fun line => truthy line = true) (written added) /\
            downloaded_ids st ⊆ downloaded_ids st /\
            downloaded_ids st ⊆ {[tender_id str_other fields]} ∪ downloaded_ids st /\
            (written added <> [] -> tender_id str_other fields ∈ downloaded_ids st) /\
            Forall (fun ids => ids = downloaded_ids st) (saved_ids added)).
  { exists (get :: more ++ [EvDelay]). rewrite trace_emit, Htr.
    split; [by list_assoc|].
    assert (Hw : written (get :: more ++ [EvDelay]) = []).
    { rewrite (app_comm_cons_single _ (more ++ _)), !written_app, Hnone. reflexivity. }
    assert (Hs : saved_ids (get :: more ++ [EvDelay]) = []).
    { unfold saved_ids in *. rewrite (app_comm_cons_single _ (more ++ _)), !omap_app, Hsaved.
      reflexivity. }
    rewrite Hw, Hs. simpl. repeat split; try done; [lia | set_solver]. }
  destruct r as [detail|e]; cbn [dworld downloaded_ids count]; [|exact Hskip].
  destruct (truthy detail) eqn:Etruthy; cbn [dworld downloaded_ids count]; [|exact Hskip].
  clear Hskip.
  assert (Hw : forall tail, written tail = [] ->
            written (get :: more ++ EvWrite detail :: tail) = [detail]).
  { intros tail Htail.
    rewrite (app_comm_cons_single _ (more ++ _)), !written_app, Hnone.
    rewrite (app_comm_cons_single _ tail), written_app, Htail. reflexivity. }
  assert (Hs : forall tail, saved_ids (get :: more ++ EvWrite detail :: tail) = saved_ids tail).
  { intros tail. unfold saved_ids in *.
    rewrite (app_comm_cons_single _ (more ++ _)), !omap_app, Hsaved.
    rewrite (app_comm_cons_single _ tail), omap_app. reflexivity. }
  destruct (batch_size =? 0); [|destruct (_ mod _ =? 0)]; cbn [dworld downloaded_ids count].
  - exists (get :: more ++ EvWrite detail :: [EvDelay]). rewrite !trace_emit, Htr.
    split; [by list_assoc|]. rewrite Hw, Hs by done. simpl.
    repeat split; try done; try set_solver; by repeat constructor.
  - exists (get :: more ++ EvWrite detail ::
              [EvSave ({[tender_id str_other fields]} ∪ downloaded_ids st) None;
               EvFlush; EvDelay]).
    rewrite !trace_emit, Htr. split; [by list_assoc|]. rewrite Hw, Hs by done. simpl.
    repeat split; try done; try set_solver; by repeat constructor.
  - exists (get :: more ++ EvWrite detail :: [EvDelay]). rewrite !trace_emit, Htr.
    split; [by list_assoc|]. rewrite Hw, Hs by done. simpl.
    repeat split; try done; try set_solver; by repeat constructor.
Qed.

Lemma detail_loop_effect srv batch_size tenders :
  forall st,
    let st' := detail_loop str_other srv batch_size tenders st in
    exists added,
      trace (dworld st') = trace (dworld st) ++ added /\
      count st' = count st + Z.of_nat (length (written added)) /\
      Forall (fun line => truthy line = true) (written added) /\
      downloaded_ids st ⊆ downloaded_ids st' /\
      (forall id, id ∈ downloaded_ids st' ->
         id ∈ downloaded_ids st \/
         exists fields, fields ∈ tenders /\ id = tender_id str_other fields) /\
      Forall (fun ids => ids ⊆ downloaded_ids st') (saved_ids added).
Proof.
  unfold detail_loop. induction tenders as [|fields rest IH]; intros st; simpl.
  - exists []. rewrite app_nil_r. simpl. repeat split; try done; [lia | by left].
  - destruct (detail_body_effect srv batch_size fields st)
      as (added1 & Htr1 & Hc1 & Ht1 & Hsub1 & Hsup1 & _ & Hs1).
    destruct (IH (detail_body str_other srv batch_size fields st))
      as (added2 & Htr2 & Hc2 & Ht2 & Hsub2 & Hsup2 & Hs2).
    exists (added1 ++ added2). rewrite Htr2, Htr1, app_assoc. split; [done|].
    unfold saved_ids in *. rewrite written_app, length_app, omap_app.
    split; [lia|]. split; [by apply Forall_app|]. split; [set_solver|]. split.
    + intros id Hid. apply Hsup2 in Hid as [Hid|(fs & Hfs & ->)].
      * apply Hsup1 in Hid. apply elem_of_union in Hid as [Hid|Hid]; [|by left].
        apply elem_of_singleton in Hid. right. exists fields. split; [by left | done].
      * right. exists fs. split; [by right | done].
    + apply Forall_app. split; [|done].
      eapply Forall_impl; [exact Hs1|]. intros ? ->. exact Hsub2.
Qed.

(** A turn on a healthy upstream puts the identifier of its record in the
    set. *)
Lemma detail_body_answered srv batch_size fields st :
  always_answers srv ->
  tender_id str_other fields ∈ downloaded_ids (detail_body str_other srv batch_size fields st).
Proof.
  intros Hsrv. unfold detail_body, get_tender_detail, _request_with_retry.
  change (py_range 3) with [0; 1; 2]. cbn [retry_loop session_get].
  destruct (Hsrv (requests (dworld st)) (BASE_URL +:+ "/tender")
              [("unit_id", dict_get "unit_id" (JStr "") fields);
               ("job_number", dict_get "job_number" (JStr "") fields)])
    as (body & -> & Htruthy).
  change (200 =? 429) with false. change ((400 <=? 200) && (200 <? 600)) with false.
  cbv iota. rewrite Htruthy.
  destruct (batch_size =? 0); [|destruct (_ mod _ =? 0)]; cbn [downloaded_ids]; set_solver.
Qed.

Lemma detail_loop_answered srv batch_size tenders :
  always_answers srv ->
  forall st fields,
    fields ∈ tenders ->
    tender_id str_other fields ∈ downloaded_ids (detail_loop str_other srv batch_size tenders st).
Proof.
  intros Hsrv. unfold detail_loop.
  induction tenders as [|fs rest IH]; intros st fields Hin; [by apply elem_of_nil in Hin|].
  simpl. apply elem_of_cons in Hin as [->|Hin]; [|by apply IH].
  destruct (detail_loop_effect srv batch_size rest (detail_body str_other srv batch_size fs st))
    as (_ & _ & _ & _ & Hsub & _).
  unfold detail_loop in Hsub. apply Hsub. by apply detail_body_answered.
Qed.

End DetailFiles.

(** X12.  At the end of the detail pass the counter is the number of lines
    the run has written, each of them a non-empty document; the set holds
    what the progress file listed and otherwise only identifiers of records
    kept by the scan; every snapshot saved on the way lists a part of the
    final set; the detail file is closed with every line on disk, and the
    progress file holds the final set. *)
Theorem detail_pass_files_at_end str_other srv batch_size progress lines w f :
  let loaded := match progress with Some (ids, _) => ids | None => ∅ end in
  let st := download_tender_details str_other srv batch_size progress lines w in
  exists added,
    trace (dworld st) = trace w ++ added /\
    count st = Z.of_nat (length (written added)) /\
    Forall (fun line => truthy line = true) (written added) /\
    loaded ⊆ downloaded_ids st /\
    (forall id, id ∈ downloaded_ids st ->
       id ∈ loaded \/
       exists fields, fields ∈ scan_tenders str_other loaded lines /\
                      id = tender_id str_other fields) /\
    Forall (fun ids => ids ⊆ downloaded_ids st) (saved_ids added) /\
    sink_buffer (replay added f) = [] /\
    sink_disk (replay added f) = sink_disk f ++ sink_buffer f ++ written added /\
    checkpoint (replay added f) = Some (downloaded_ids st, None).
Proof.
  intros loaded st. subst st. unfold download_tender_details. fold loaded.
  destruct (detail_loop_effect str_other srv batch_size (scan_tenders str_other loaded lines)
              {| downloaded_ids := loaded; count := 0; dworld := w |})
    as (added & Htr & Hc & Ht & Hsub & Hsup & Hs).
  cbn [dworld count downloaded_ids] in *.
  set (st := detail_loop str_other srv batch_size _ _) in *.
  destruct (replay_close added f) as (Hbuf & Hdisk & _).
  exists ((added ++ [EvClose]) ++ [EvSave (downloaded_ids st) None]).
  rewrite !trace_emit, Htr. split; [by list_assoc|].
  rewrite (replay_app (added ++ [EvClose])). unfold saved_ids in *.
  rewrite !written_app, !omap_app. simpl. rewrite !app_nil_r.
  repeat split; try done; try lia.
  apply Forall_app. split; [done | by repeat constructor].
Qed.

(** X13.  After a detail pass on an upstream that answered every request
    with a non-empty document, a second pass over the same list, started
    from the progress file that the first one left, keeps no record: it
    sends no request, writes no line and saves the same set again. *)
Theorem detail_rerun_is_silent str_other srv srv' batch_size batch_size' progress lines w :
  always_answers srv ->
  let st1 := download_tender_details str_other srv batch_size progress lines w in
  let progress' := Some (downloaded_ids st1, @None Z) in
  let st2 := download_tender_details str_other srv' batch_size' progress' lines (dworld st1) in
  scan_tenders str_other (downloaded_ids st1) lines = [] /\
  count st2 = 0 /\
  requests (dworld st2) = requests (dworld st1) /\
  trace (dworld st2) = trace (dworld st1) ++ [EvClose; EvSave (downloaded_ids st1) None].
Proof.
  intros Hsrv st1 progress' st2.
  set (loaded := match progress with Some (ids, _) => ids | None => ∅ end).
  set (start := {| downloaded_ids := loaded; count := 0; dworld := w |}).
  set (kept := scan_tenders str_other loaded lines).
  assert (Hids : downloaded_ids st1
                 = downloaded_ids (detail_loop str_other srv batch_size kept start))
    by reflexivity.
  assert (Hscan : scan_tenders str_other (downloaded_ids st1) lines = []).
  { destruct (scan_tenders str_other (downloaded_ids st1) lines) as [|fields rest] eqn:E;
      [done|exfalso].
    assert (Hin : fields ∈ scan_tenders str_other (downloaded_ids st1) lines)
      by (rewrite E; by left).
    apply scan_tenders_spec in Hin as (Hline & Hnot & Hunit & Hjob). apply Hnot.
    rewrite Hids. apply detail_loop_answered; [done|]. apply scan_tenders_spec.
    repeat split; try done. intros Hloaded. apply Hnot. rewrite Hids.
    destruct (detail_loop_effect str_other srv batch_size kept start) as (_ & _ & _ & _ & Hsub & _).
    by apply Hsub. }
  split; [exact Hscan|].
  subst st2 progress'. unfold download_tender_details at 1 2 3. rewrite Hscan.
  cbn. by list_assoc.
Qed.


Lemma one_day_api_answers : always_answers one_day_api.
Proof.
  intros n url params. unfold one_day_api.
  destruct (String.eqb url _); [|destruct (String.eqb url _)];
    eexists; split; reflexivity.
Qed.

Lemma detail_rerun_is_silent_witness :
  let st1 := download_tender_details (fun _ => ""%string) one_day_api 1000 None
               amended_tender (mkio 0 []) in
  let st2 := download_tender_details (fun _ => ""%string) one_day_api 1000
               (Some (downloaded_ids st1, None)) amended_tender (dworld st1) in
  scan_tenders (fun _ => ""%string) (downloaded_ids st1) amended_tender = [] /\
  count st2 = 0 /\
  requests (dworld st2) = requests (dworld st1) /\
  trace (dworld st2) = trace (dworld st1) ++ [EvClose; EvSave (downloaded_ids st1) None].
Proof.
  exact (detail_rerun_is_silent (fun _ => ""%string) one_day_api one_day_api 1000 1000 None
           amended_tender (mkio 0 []) one_day_api_answers).
Defined.

(** ** The identifier of a tender *)

Lemma string_app_assoc a b c : (a +:+ b) +:+ c = a +:+ (b +:+ c).
Proof.
  induction a as [|x a IH]; [done|].
  change (String x ((a +:+ b) +:+ c) = String x (a +:+ (b +:+ c))). by rewrite IH.
Qed.

(** X14.  The identifier joins the two fields with an underscore, so two
    different pairs can share it: the pair of unit [a_b] with job [c] and
    the pair of unit [a] with job [b_c].  Once the identifier is in the
    progress file, the scan drops a record of the other pair, whose detail
    was never fetched. *)
Theorem tender_id_is_shared_by_two_pairs str_other a b c fields1 fields2 loaded lines :
  dict_lookup "unit_id" fields1 = Some (JStr (a +:+ "_" +:+ b)) ->
  dict_lookup "job_number" fields1 = Some (JStr c) ->
  dict_lookup "unit_id" fields2 = Some (JStr a) ->
  dict_lookup "job_number" fields2 = Some (JStr (b +:+ "_" +:+ c)) ->
  tender_id str_other fields1 = tender_id str_other fields2 /\
  pair_of fields1 <> pair_of fields2 /\
  (tender_id str_other fields1 ∈ loaded ->
   fields2 ∉ scan_tenders str_other loaded lines).
Proof.
  intros Hu1 Hj1 Hu2 Hj2.
  assert (Hid : tender_id str_other fields1 = tender_id str_other fields2).
  { unfold tender_id, dict_get. rewrite Hu1, Hj1, Hu2, Hj2. cbn [py_str].
    by rewrite !string_app_assoc. }
  split; [exact Hid|]. split.
  - unfold pair_of, dict_get. rewrite Hu1, Hj1, Hu2, Hj2. intros [= Ha _].
    apply (f_equal String.length) in Ha. rewrite string_length_app in Ha. simpl in Ha. lia.
  - intros Hin Hkept. apply scan_tenders_spec in Hkept as (_ & Hnot & _).
    apply Hnot. by rewrite <- Hid.
Qed.

Lemma tender_id_is_shared_by_two_pairs_witness :
  let fields1 := [("unit_id", JStr "3.76_A"); ("job_number", JStr "1")] in
  let fields2 := [("unit_id", JStr "3.76"); ("job_number", JStr "A_1")] in
  tender_id (fun _ => ""%string) fields1 = tender_id (fun _ => ""%string) fields2 /\
  pair_of fields1 <> pair_of fields2 /\
  (tender_id (fun _ => ""%string) fields1 ∈ ({["3.76_A_1"]} : gset string) ->
   fields2 ∉ scan_tenders (fun _ => ""%string) {["3.76_A_1"]} [Some (JObj fields2)]).
Proof.
  intros fields1 fields2.
  exact (tender_id_is_shared_by_two_pairs (fun _ => ""%string) "3.76" "A" "1" fields1 fields2
           {["3.76_A_1"]} [Some (JObj fields2)] eq_refl eq_refl eq_refl eq_refl).
Defined.

(** ** The key of a day *)

(** X16.  The key of a day in the progress file has eight characters, and
    two valid datetimes have the same key exactly when they fall on the
    same calendar day; the time of day plays no part. *)
Theorem date_key_identifies_the_day a b :
  valid_datetime a = true -> valid_datetime b = true ->
  1000 <= year a -> 1000 <= year b ->
  String.length (strftime_Ymd a) = 8%nat /\
  (strftime_Ymd a = strftime_Ymd b <->
   year a = year b /\ month a = month b /\ day a = day b).
Proof.
  intros Ha Hb _ _. split.
  - unfold strftime_Ymd. by rewrite !string_length_app, !digits_length.
  - split.
    + intros Hkey. apply strftime_Ymd_inj in Hkey; [|done..]. by apply rank_inj.
    + intros (Hy & Hm & Hd). unfold strftime_Ymd. by rewrite Hy, Hm, Hd.
Qed.

Lemma date_key_identifies_the_day_witness :
  String.length (strftime_Ymd (midnight 2026 1 5)) = 8%nat /\
  (strftime_Ymd (midnight 2026 1 5) = strftime_Ymd (mkdt 2026 1 5 9 30 0 0) <->
   year (midnight 2026 1 5) = year (mkdt 2026 1 5 9 30 0 0) /\
   month (midnight 2026 1 5) = month (mkdt 2026 1 5 9 30 0 0) /\
   day (midnight 2026 1 5) = day (mkdt 2026 1 5 9 30 0 0)).
Proof.
  refine (date_key_identifies_the_day (midnight 2026 1 5) (mkdt 2026 1 5 9 30 0 0)
            eq_refl eq_refl _ _); simpl; lia.
Defined.

(** ** The days of [download_date_range] *)

(** What a turn adds to the trace, whatever the server does. *)
Lemma range_body_dates srv st :
  let date_str := strftime_Ymd (range_date st) in
  let st' := state_of (range_body srv st) in
  exists added,
    trace (range_world st') = trace (range_world st) ++ added /\
    fetched_dates added = [date_str] /\
    (forall x, x ∈ requested_dates added -> x = date_str) /\
    written added = [].
Proof.
  intros date_str st'. subst st'. unfold range_body. fold date_str.
  rewrite list_by_date_unfold. fold list_url. fold (list_params date_str).
  destruct (_request_with_retry srv list_url (list_params date_str) 3 (range_world st))
    as [res w1] eqn:Efetch.
  apply request3_trace in Efetch as (more & Htr & Hmore).
  pose proof (retry_event_written _ _ _ _ Hmore) as Hnone.
  apply (retry_event_turn date_str ∅ 0) in Hmore. apply turn_event_dates in Hmore as (Hf & Hr).
  assert (Hall : forall tail,
            fetched_dates tail = [] -> requested_dates tail = [] -> written tail = [] ->
            forall w',
              w' = fold_left (fun w e => emit e w) tail w1 ->
              exists added,
                trace w' = trace (range_world st) ++ added /\
                fetched_dates added = [date_str] /\
                (forall x, x ∈ requested_dates added -> x = date_str) /\
                written added = []).
  { intros tail Hft Hrt Hwt w' Hw.
    exists (EvGet list_url (list_params date_str) 0 :: more ++ tail).
    assert (Htail : trace (fold_left (fun w e => emit e w) tail w1) = trace w1 ++ tail).
    { clear. revert w1. induction tail as [|e tail IH]; intros w1; simpl.
      - by rewrite app_nil_r.
      - rewrite IH, trace_emit. by list_assoc. }
    rewrite Hw, Htail, Htr. split; [by list_assoc|].
    rewrite (app_comm_cons_single _ (more ++ tail)).
    rewrite !fetched_dates_app, !requested_dates_app, !written_app, Hf, Hft, Hrt, Hnone, Hwt.
    rewrite !app_nil_r. split; [reflexivity|]. split; [|reflexivity].
    intros x [Hx|Hx]%elem_of_app.
    - cbn in Hx. set_solver.
    - rewrite Forall_forall in Hr. by apply Hr. }
  destruct res as [result|e];
    destruct (add_one_day (range_date st)) as [next|e'];
    cbn [state_of range_world].
  - by apply (Hall [EvDelay]).
  - by apply (Hall []).
  - by apply (Hall [EvDelay]).
  - by apply (Hall []).
Qed.

Lemma range_body_next srv st next :
  add_one_day (range_date st) = Ok next ->
  exists st', range_body srv st = Next st' /\ range_date st' = next.
Proof.
  intros Hnext. unfold range_body.
  destruct (list_by_date srv _ (range_world st)) as [r w1]. rewrite Hnext. by eexists.
Qed.

(** The loop: from a valid day on, with fuel for every day up to
    [end_date], it ends normally after one fetch for every day of the
    span. *)
Lemma range_loop_visits srv end_date fuel :
  valid_datetime end_date = true -> year end_date < MAXYEAR ->
  forall st,
    valid_datetime (range_date st) = true ->
    lex_leb (time_fields (range_date st)) (time_fields end_date) = true ->
    Z.max 0 (rank end_date - rank (range_date st) + 1) < Z.of_nat fuel ->
    exists st' added,
      range_loop fuel srv end_date st = Some (Next st') /\
      trace (range_world st') = trace (range_world st) ++ added /\
      fetched_dates added = (strftime_Ymd <$> span fuel (range_date st) end_date) /\
      (forall x, x ∈ requested_dates added -> x ∈ fetched_dates added) /\
      written added = [].
Proof.
  intros Hend Hyear.
  induction fuel as [|k IH]; intros st Hcur Htime Hfuel; [lia|].
  pose proof (dt_leb_rank (range_date st) end_date Hcur Hend) as Htest.
  cbn [range_loop span]. destruct (dt_leb (range_date st) end_date).
  2: { exists st, []. rewrite app_nil_r. by repeat split. }
  assert (Hle : rank (range_date st) <= rank end_date).
  { destruct (proj1 Htest eq_refl) as [?|[? _]]; lia. }
  destruct (add_one_day (range_date st)) as [next|e] eqn:Estep.
  2: { apply add_one_day_raise in Estep; [|done].
       pose proof (rank_of_year _ Hcur). pose proof (rank_of_year end_date Hend). lia. }
  destruct (add_one_day_ok _ next Hcur Estep) as (Hnext & Hnt & Hlt & _).
  destruct (range_body_next srv st next Estep) as (st1 & Ebody & Hcur1).
  destruct (range_body_dates srv st) as (added1 & Htr1 & Hf1 & Hr1 & Hw1).
  rewrite Ebody in *. cbn [state_of] in *.
  destruct (IH st1) as (st' & added2 & Hrun & Htr2 & Hf2 & Hr2 & Hw2).
  { by rewrite Hcur1. }
  { by rewrite Hcur1, Hnt. }
  { rewrite Hcur1. lia. }
  exists st', (added1 ++ added2). split; [exact Hrun|].
  split; [by rewrite Htr2, Htr1, app_assoc|].
  rewrite Hcur1 in Hf2.
  rewrite fetched_dates_app, requested_dates_app, written_app, Hf1, Hf2, Hw1, Hw2.
  split; [reflexivity|]. split; [|reflexivity].
  intros x [Hx|Hx]%elem_of_app.
  - apply Hr1 in Hx as ->. by left.
  - right. rewrite <- Hf2. by apply Hr2.
Qed.

(** X17.  [download_date_range] goes through the days from the start to
    the end, both included and in ascending order, and starts exactly one
    fetch on each of them, whatever the upstream answers: a day that fails
    is passed over for good.  It ends normally, sends no request for any
    other date and names its output after the two ends. *)
Theorem date_range_visits_every_day srv start_date end_date w :
  valid_datetime start_date = true -> valid_datetime end_date = true ->
  1000 <= year start_date -> year end_date < MAXYEAR ->
  lex_leb (time_fields start_date) (time_fields end_date) = true ->
  let days := dates_between start_date end_date in
  exists out w' added,
    download_date_range (enough_fuel start_date end_date) srv
      (DateValue start_date) (DateValue end_date) w = Some (Ok out, w') /\
    trace w' = trace w ++ added /\
    fetched_dates added = (strftime_Ymd <$> days) /\
    (forall d, d ∈ requested_dates added -> d ∈ fetched_dates added) /\
    written added = [] /\
    output_name out
    = "tenders_" +:+ strftime_Ymd start_date +:+ "_" +:+ strftime_Ymd end_date +:+ ".json".
Proof.
  intros Hstart Hend _ Hyear Htime days.
  set (st0 := {| range_date := start_date; range_data := []; range_world := w |}).
  destruct (range_loop_visits srv end_date (enough_fuel start_date end_date) Hend Hyear st0)
    as (st & added & Hrun & Htr & Hf & Hr & Hw); try done.
  { unfold enough_fuel. simpl. lia. }
  unfold download_date_range. cbn [date_of_arg]. fold st0. rewrite Hrun.
  eexists. exists (range_world st), added. split; [reflexivity|]. by repeat split.
Qed.

Lemma date_range_visits_every_day_witness :
  let days := dates_between (midnight 2026 1 5) (midnight 2026 1 7) in
  exists out w' added,
    download_date_range (enough_fuel (midnight 2026 1 5) (midnight 2026 1 7))
      one_record_then_empty (DateValue (midnight 2026 1 5)) (DateValue (midnight 2026 1 7))
      (mkio 0 []) = Some (Ok out, w') /\
    trace w' = trace (mkio 0 []) ++ added /\
    fetched_dates added = (strftime_Ymd <$> days) /\
    (forall d, d ∈ requested_dates added -> d ∈ fetched_dates added) /\
    written added = [] /\
    output_name out
    = "tenders_" +:+ strftime_Ymd (midnight 2026 1 5) +:+ "_"
        +:+ strftime_Ymd (midnight 2026 1 7) +:+ ".json".
Proof.
  refine (date_range_visits_every_day one_record_then_empty (midnight 2026 1 5)
            (midnight 2026 1 7) (mkio 0 []) eq_refl eq_refl _ _ eq_refl).
  - simpl. lia.
  - unfold MAXYEAR. simpl. lia.
Defined.

(** X18.  Dates given as texts are read with the format of the keys: the
    key of a valid day gives that day at midnight, so the texts that the
    command line builds with [strftime] select the same days as the
    datetimes themselves; a text that the format rejects ends the call
    with [ValueError] before any request. *)
Theorem date_range_accepts_keys fuel srv a b w :
  valid_datetime a = true -> valid_datetime b = true ->
  1000 <= year a -> 1000 <= year b ->
  download_date_range fuel srv (DateText (strftime_Ymd a)) (DateText (strftime_Ymd b)) w
  = download_date_range fuel srv
      (DateValue (midnight (year a) (month a) (day a)))
      (DateValue (midnight (year b) (month b) (day b))) w /\
  (forall s d, strptime_Ymd s = None ->
     download_date_range fuel srv (DateText s) d w = Some (Raise ValueError, w)) /\
  (forall s, strptime_Ymd s = None ->
     download_date_range fuel srv (DateValue a) (DateText s) w = Some (Raise ValueError, w)).
Proof.
  intros Ha Hb _ _. split; [|split].
  - unfold download_date_range, date_of_arg. by rewrite !strptime_strftime.
  - intros s d Hs. unfold download_date_range, date_of_arg. by rewrite Hs.
  - intros s Hs. unfold download_date_range, date_of_arg. by rewrite Hs.
Qed.

Lemma date_range_accepts_keys_witness :
  download_date_range 5 one_record_then_empty
    (DateText (strftime_Ymd (mkdt 2026 1 5 9 30 0 0)))
    (DateText (strftime_Ymd (mkdt 2026 1 7 9 30 0 0))) (mkio 0 [])
  = download_date_range 5 one_record_then_empty
      (DateValue (midnight 2026 1 5)) (DateValue (midnight 2026 1 7)) (mkio 0 []).
Proof.
  refine (proj1 (date_range_accepts_keys 5 one_record_then_empty (mkdt 2026 1 5 9 30 0 0)
                   (mkdt 2026 1 7 9 30 0 0) (mkio 0 []) eq_refl eq_refl _ _)); simpl; lia.
Defined.

(** The records gathered by the loop on an upstream that answers every
    day with its list of records. *)
Lemma range_loop_collects srv (records : string -> list json) end_date fuel :
  (forall n d, srv n list_url (list_params d)
               = Responded 200 (Some (JObj [("records", JArr (records d))]))) ->
  forall st s,
    range_loop fuel srv end_date st = Some s ->
    range_data (state_of s)
    = range_data st ++
        concat ((fun d => records (strftime_Ymd d)) <$> span fuel (range_date st) end_date).
Proof.
  intros Hsrv. induction fuel as [|k IH]; intros st s Hrun; [done|].
  cbn [range_loop span] in *. destruct (dt_leb (range_date st) end_date).
  2: { inversion Hrun; subst. simpl. by rewrite app_nil_r. }
  assert (Hbody : range_data (state_of (range_body srv st))
                  = range_data st ++ records (strftime_Ymd (range_date st))).
  { unfold range_body. rewrite list_by_date_unfold. fold list_url.
    fold (list_params (strftime_Ymd (range_date st))).
    unfold _request_with_retry. change (py_range 3) with [0; 1; 2].
    cbn [retry_loop session_get]. rewrite Hsrv.
    change (200 =? 429) with false. change ((400 <=? 200) && (200 <? 600)) with false.
    cbv iota.
    change (records_of (JObj [("records", JArr (records (strftime_Ymd (range_date st))))]))
      with (JArr (records (strftime_Ymd (range_date st)))).
    unfold extend. cbn [py_iter].
    destruct (records (strftime_Ymd (range_date st))) as [|item rest] eqn:Erec;
      destruct (add_one_day (range_date st)); cbn; by rewrite ?app_nil_r. }
  destruct (add_one_day (range_date st)) as [next|e] eqn:Estep.
  - destruct (range_body_next srv st next Estep) as (st1 & Ebody & Hcur1).
    rewrite Ebody in *. cbn [state_of] in Hbody.
    apply IH in Hrun. rewrite Hrun, Hbody, Hcur1. cbn [fmap list_fmap concat]. by list_assoc.
  - assert (Ebody : exists st1, range_body srv st = Crash e st1).
    { unfold range_body. destruct (list_by_date srv _ (range_world st)) as [r w1].
      rewrite Estep. by eexists. }
    destruct Ebody as (st1 & Ebody). rewrite Ebody in *. inversion Hrun; subst.
    cbn [state_of] in *. rewrite Hbody. cbn. by rewrite app_nil_r.
Qed.

(** X19.  On an upstream that answers every day with its list of records,
    [download_date_range] returns the records of the days of the range,
    day after day and in the order received. *)
Theorem date_range_collects_records srv (records : string -> list json)
    start_date end_date w :
  valid_datetime start_date = true -> valid_datetime end_date = true ->
  1000 <= year start_date -> year end_date < MAXYEAR ->
  lex_leb (time_fields start_date) (time_fields end_date) = true ->
  (forall n d, srv n list_url (list_params d)
               = Responded 200 (Some (JObj [("records", JArr (records d))]))) ->
  exists out w',
    download_date_range (enough_fuel start_date end_date) srv
      (DateValue start_date) (DateValue end_date) w = Some (Ok out, w') /\
    all_data out
    = concat ((fun d => records (strftime_Ymd d)) <$> dates_between start_date end_date).
Proof.
  intros Hstart Hend _ Hyear Htime Hsrv.
  set (st0 := {| range_date := start_date; range_data := []; range_world := w |}).
  destruct (range_loop_visits srv end_date (enough_fuel start_date end_date) Hend Hyear st0)
    as (st & added & Hrun & _); try done.
  { unfold enough_fuel. simpl. lia. }
  pose proof (range_loop_collects srv records end_date _ Hsrv st0 _ Hrun) as Hdata.
  unfold download_date_range. cbn [date_of_arg]. fold st0. rewrite Hrun.
  eexists. eexists. split; [reflexivity|]. exact Hdata.
Qed.

Lemma date_range_collects_records_witness :
  let records := fun d : string => [JObj [("date", JStr d)]] in
  let srv : server := fun _ _ params =>
    match params with
    | [(_, JStr d)] => Responded 200 (Some (JObj [("records", JArr (records d))]))
    | _ => Unreachable
    end in
  exists out w',
    download_date_range (enough_fuel (midnight 2026 1 5) (midnight 2026 1 7)) srv
      (DateValue (midnight 2026 1 5)) (DateValue (midnight 2026 1 7)) (mkio 0 [])
    = Some (Ok out, w') /\
    all_data out
    = concat ((fun d => records (strftime_Ymd d))
                <$> dates_between (midnight 2026 1 5) (midnight 2026 1 7)).
Proof.
  intros records srv.
  refine (date_range_collects_records srv records (midnight 2026 1 5) (midnight 2026 1 7)
            (mkio 0 []) eq_refl eq_refl _ _ eq_refl _).
  - simpl. lia.
  - unfold MAXYEAR. simpl. lia.
  - reflexivity.
Defined.

(** ** The pages of [download_all_tenders_by_keyword] *)

Lemma searched_pages_app a b : searched_pages (a ++ b) = searched_pages a ++ searched_pages b.
Proof. apply omap_app. Qed.

Lemma retry_event_pages url params more :
  Forall (retry_event url params [1; 2]) more -> searched_pages more = [].
Proof.
  induction 1 as [|e rest He _ IH]; [done|].
  destruct e as [u p a| | | | | |]; try done.
  destruct He as (_ & _ & Ha).
  assert (a <> 0) by (intros ->; set_solver).
  cbn. destruct p as [|[? ?] [|[? []] [|? ?]]]; try exact IH.
  destruct a; [done|exact IH..].
Qed.

(** What a turn of the search adds to the trace, whatever the server does. *)
Lemma search_body_pages srv keyword st :
  let st' := fst (search_body srv keyword st) in
  exists added,
    trace (search_world st') = trace (search_world st) ++ added /\
    searched_pages added = [page st] /\
    written added = [] /\
    page st' = (if snd (search_body srv keyword st) then page st + 1 else page st).
Proof.
  unfold search_body, search_by_title. fold search_url. fold (search_params keyword (page st)).
  destruct (_request_with_retry srv search_url (search_params keyword (page st)) 3
              (search_world st)) as [res w1] eqn:Efetch.
  apply request3_trace in Efetch as (more & Htr & Hmore).
  pose proof (retry_event_written _ _ _ _ Hmore) as Hnone.
  pose proof (retry_event_pages _ _ _ Hmore) as Hpages.
  assert (Hstop : exists added,
            trace w1 = trace (search_world st) ++ added /\
            searched_pages added = [page st] /\ written added = [] /\ page st = page st).
  { exists (EvGet search_url (search_params keyword (page st)) 0 :: more).
    split; [exact Htr|].
    rewrite (app_comm_cons_single _ more), searched_pages_app, written_app, Hpages, Hnone.
    by repeat split. }
  destruct res as [result|e]; cbn [fst snd search_world page]; [|exact Hstop].
  destruct (negb (truthy (records_of result))); cbn [fst snd search_world page]; [exact Hstop|].
  destruct (py_len (records_of result)) as [n|e]; cbn [fst snd search_world page];
    [|exact Hstop].
  destruct (n =? 0); cbn [fst snd search_world page]; [exact Hstop|].
  destruct (extend (found st) (records_of result)); cbn [fst snd search_world page];
    [|exact Hstop].
  exists (EvGet search_url (search_params keyword (page st)) 0 :: more ++ [EvDelay]).
  rewrite trace_emit, Htr. split; [by list_assoc|].
  rewrite (app_comm_cons_single _ (more ++ _)), !searched_pages_app, !written_app, Hpages, Hnone.
  by repeat split.
Qed.

Lemma seq_pages p k :
  (fun i => p + 1 + Z.of_nat i) <$> seq 0 k = (fun i => p + Z.of_nat i) <$> seq 1 k.
Proof.
  rewrite <- (fmap_S_seq 0 k), <- list_fmap_compose. apply list_fmap_ext.
  intros _ i _. simpl. lia.
Qed.

(** The loop: with fuel for every page up to [max_pages] it ends, after
    searches on consecutive pages. *)
Lemma search_loop_pages srv keyword max_pages fuel :
  forall st,
    Z.max 0 (max_pages - page st + 1) < Z.of_nat fuel ->
    exists st' added k,
      search_loop fuel srv keyword max_pages st = Some st' /\
      trace (search_world st') = trace (search_world st) ++ added /\
      searched_pages added = ((fun i => page st + Z.of_nat i) <$> seq 0 k) /\
      Z.of_nat k <= Z.max 0 (max_pages - page st + 1) /\
      written added = [].
Proof.
  induction fuel as [|f IH]; intros st Hfuel; [lia|].
  cbn [search_loop]. destruct (Z.leb_spec (page st) max_pages) as [Hle|Hgt].
  2: { exists st, [], 0%nat. rewrite app_nil_r. repeat split; try done. lia. }
  destruct (search_body_pages srv keyword st) as (added1 & Htr1 & Hp1 & Hw1 & Hpage).
  destruct (search_body srv keyword st) as [st1 continue]. cbn [fst snd] in *.
  destruct continue.
  - destruct (IH st1) as (st' & added2 & k & Hrun & Htr2 & Hp2 & Hk & Hw2); [lia|].
    exists st', (added1 ++ added2), (S k). split; [exact Hrun|].
    rewrite Htr2, Htr1, searched_pages_app, written_app, Hp1, Hp2, Hw1, Hw2, Hpage.
    split; [by list_assoc|]. split; [|split; [lia|done]].
    rewrite seq_pages. cbn [seq fmap list_fmap app]. f_equal. f_equal. lia.
  - exists st1, added1, 1%nat. split; [done|]. split; [done|]. split; [|split; [lia|done]].
    rewrite Hp1. cbn. f_equal. lia.
Qed.

(** X20.  The keyword search asks for the pages 1, 2, ... one after the
    other, at most [max_pages] of them, and ends: with a [max_pages] below
    one it sends no request at all.  It writes no record line and names
    its output after the keyword. *)
Theorem keyword_search_pages srv keyword max_pages w :
  exists out w' added k,
    download_all_tenders_by_keyword (Z.to_nat max_pages + 1) srv keyword max_pages w
    = Some (out, w') /\
    trace w' = trace w ++ added /\
    searched_pages added = (Z.of_nat <$> seq 1 k) /\
    Z.of_nat k <= Z.max 0 max_pages /\
    written added = [] /\
    output_name out = "search_" +:+ safe_keyword keyword +:+ ".json".
Proof.
  set (st0 := {| page := 1; found := []; search_world := w |}).
  destruct (search_loop_pages srv keyword max_pages (Z.to_nat max_pages + 1) st0)
    as (st & added & k & Hrun & Htr & Hp & Hk & Hw).
  { simpl. lia. }
  unfold download_all_tenders_by_keyword. fold st0. rewrite Hrun.
  eexists. exists (search_world st), added, k. split; [reflexivity|].
  split; [exact Htr|]. split; [|split; [simpl in Hk; lia | by split]].
  rewrite Hp. rewrite <- (fmap_S_seq 0 k), <- list_fmap_compose. apply list_fmap_ext.
  intros _ i _. simpl. lia.
Qed.

(** The records gathered by the loop on an upstream that answers every
    page with its list of records. *)
Lemma search_loop_collects srv keyword (pages : Z -> list json) max_pages :
  (forall n p, srv n search_url (search_params keyword p)
               = Responded 200 (Some (JObj [("records", JArr (pages p))]))) ->
  forall n fuel st,
    (n < fuel)%nat ->
    (forall i, (i < n)%nat -> pages (page st + Z.of_nat i) <> []) ->
    (page st + Z.of_nat n <= max_pages -> pages (page st + Z.of_nat n) = []) ->
    page st + Z.of_nat n <= max_pages + 1 ->
    exists st',
      search_loop fuel srv keyword max_pages st = Some st' /\
      found st' = found st ++ concat ((fun i => pages (page st + Z.of_nat i)) <$> seq 0 n).
Proof.
  intros Hsrv.
  assert (Hbody : forall st,
            search_body srv keyword st
            = match pages (page st) with
              | [] => ({| page := page st; found := found st;
                          search_world := {| requests := S (requests (search_world st));
                                             log := EvGet search_url
                                                      (search_params keyword (page st)) 0
                                                      :: log (search_world st) |} |}, false)
              | _ => ({| page := page st + 1; found := found st ++ pages (page st);
                         search_world :=
                           emit EvDelay
                             {| requests := S (requests (search_world st));
                                log := EvGet search_url (search_params keyword (page st)) 0
                                         :: log (search_world st) |} |}, true)
              end).
  { intros st. unfold search_body, search_by_title. fold search_url.
    fold (search_params keyword (page st)).
    unfold _request_with_retry. change (py_range 3) with [0; 1; 2].
    cbn [retry_loop session_get]. rewrite Hsrv.
    change (200 =? 429) with false. change ((400 <=? 200) && (200 <? 600)) with false.
    cbv iota.
    change (records_of (JObj [("records", JArr (pages (page st)))]))
      with (JArr (pages (page st))).
    destruct (pages (page st)) as [|item rest]; [reflexivity|].
    cbn [truthy negb py_len extend py_iter].
    replace (Z.of_nat (length (item :: rest)) =? 0) with false by (simpl; lia).
    reflexivity. }
  induction n as [|n IH]; intros fuel st Hfuel Hfull Hlast Hmax;
    (destruct fuel as [|f]; [lia|]); cbn [search_loop].
  - rewrite Z.add_0_r in Hlast. destruct (Z.leb_spec (page st) max_pages) as [Hle|Hgt].
    + rewrite Hbody, (Hlast Hle). eexists. split; [reflexivity|]. simpl. by rewrite app_nil_r.
    + exists st. split; [done|]. simpl. by rewrite app_nil_r.
  - replace (page st <=? max_pages) with true by lia.
    rewrite Hbody. pose proof (Hfull 0%nat ltac:(lia)) as Hfirst.
    rewrite Z.add_0_r in Hfirst.
    destruct (pages (page st)) as [|item rest] eqn:Epage; [done|].
    set (st1 := {| page := page st + 1; found := found st ++ item :: rest;
                   search_world := _ |}).
    destruct (IH f st1) as (st' & Hrun & Hfound).
    + lia.
    + intros i Hi. change (page st1) with (page st + 1).
      replace (page st + 1 + Z.of_nat i) with (page st + Z.of_nat (S i)) by lia.
      apply Hfull. lia.
    + change (page st1) with (page st + 1).
      replace (page st + 1 + Z.of_nat n) with (page st + Z.of_nat (S n)) by lia. exact Hlast.
    + change (page st1) with (page st + 1). lia.
    + exists st'. split; [exact Hrun|]. rewrite Hfound.
      change (page st1) with (page st + 1). change (found st1) with (found st ++ item :: rest).
      cbn [seq fmap list_fmap concat]. rewrite Z.add_0_r, Epage, <- app_assoc.
      f_equal. f_equal. f_equal.
      rewrite <- (fmap_S_seq 0 n), <- list_fmap_compose. apply list_fmap_ext.
      intros _ i _. simpl. f_equal. lia.
Qed.

(** X21.  On an upstream that answers every page with its list of
    records, the keyword search returns the records of the pages before
    the first empty one, or of all [max_pages] pages when none of them is
    empty, page after page and in the order received. *)
Theorem keyword_search_collects_pages srv keyword (pages : Z -> list json) max_pages n w :
  (forall k p, srv k search_url (search_params keyword p)
               = Responded 200 (Some (JObj [("records", JArr (pages p))]))) ->
  (forall p, 1 <= p <= Z.of_nat n -> pages p <> []) ->
  (Z.of_nat n < max_pages -> pages (Z.of_nat n + 1) = []) ->
  Z.of_nat n <= max_pages ->
  exists out w',
    download_all_tenders_by_keyword (Z.to_nat max_pages + 1) srv keyword max_pages w
    = Some (out, w') /\
    all_data out = concat (pages <$> (Z.of_nat <$> seq 1 n)).
Proof.
  intros Hsrv Hfull Hlast Hmax.
  set (st0 := {| page := 1; found := []; search_world := w |}).
  destruct (search_loop_collects srv keyword pages max_pages Hsrv n
              (Z.to_nat max_pages + 1) st0) as (st & Hrun & Hfound).
  - lia.
  - intros i Hi. apply Hfull. simpl. lia.
  - simpl. intros Hle. replace (1 + Z.of_nat n) with (Z.of_nat n + 1) by lia.
    apply Hlast. lia.
  - simpl. lia.
  - unfold download_all_tenders_by_keyword. fold st0. rewrite Hrun.
    eexists. eexists. split; [reflexivity|]. cbn [all_data]. rewrite Hfound. simpl.
    f_equal. rewrite <- (fmap_S_seq 0 n), <- !list_fmap_compose. apply list_fmap_ext.
    intros _ i _. simpl. f_equal. lia.
Qed.

Lemma keyword_search_collects_pages_witness :
  let pages := fun p : Z => if p <=? 2 then [JNum p] else [] in
  let srv : server := fun _ _ params =>
    match params with
    | [_; (_, JNum p)] => Responded 200 (Some (JObj [("records", JArr (pages p))]))
    | _ => Unreachable
    end in
  exists out w',
    download_all_tenders_by_keyword (Z.to_nat 100 + 1) srv "road" 100 (mkio 0 [])
    = Some (out, w') /\
    all_data out = concat (pages <$> (Z.of_nat <$> seq 1 2)).
Proof.
  intros pages srv.
  refine (keyword_search_collects_pages srv "road" pages 100 2 (mkio 0 []) _ _ _ _).
  - reflexivity.
  - intros p Hp. unfold pages. by replace (p <=? 2) with true by lia.
  - reflexivity.
  - lia.
Defined.

(** ** The name of the output of a search *)

Lemma replace_char old new s :
  str_replace (String old EmptyString) (String new EmptyString) s
  = map_chars (fun c => if Ascii.eqb c old then new else c) s.
Proof.
  unfold str_replace. induction s as [|c s IH]; [reflexivity|].
  cbn [replace_from map_chars String.prefix String.length Nat.sub].
  destruct (ascii_dec old c) as [<-|Hne].
  - rewrite Ascii.eqb_refl. replace (String.prefix "" s) with true by (by destruct s).
    rewrite IH. reflexivity.
  - rewrite (proj2 (Ascii.eqb_neq c old)) by congruence. by rewrite IH.
Qed.

Lemma map_chars_length f s : String.length (map_chars f s) = String.length s.
Proof. induction s as [|c s IH]; simpl; [done | by rewrite IH]. Qed.

(** X22.  The keyword is made safe for a file name one character at a
    time: a slash or a backslash becomes an underscore and every other
    character stays.  So the name has the length of the keyword and holds
    neither of the two, and a keyword shares its output file with its own
    safe form. *)
Theorem safe_keyword_replaces_separators keyword :
  safe_keyword keyword = map_chars safe_char keyword /\
  String.length (safe_keyword keyword) = String.length keyword /\
  has_char "/" (safe_keyword keyword) = false /\
  has_char "\" (safe_keyword keyword) = false /\
  safe_keyword (safe_keyword keyword) = safe_keyword keyword.
Proof.
  assert (Hmap : forall s, safe_keyword s = map_chars safe_char s).
  { intros s. unfold safe_keyword. rewrite !replace_char.
    induction s as [|c s IH]; [reflexivity|]. cbn [map_chars]. rewrite IH. f_equal.
    unfold safe_char. destruct (Ascii.eqb_spec c "/") as [->|Hslash]; [reflexivity|].
    simpl. by destruct (Ascii.eqb c "\"). }
  assert (Hchar : forall c, safe_char c <> "/"%char /\ safe_char c <> "\"%char /\
                            safe_char (safe_char c) = safe_char c).
  { intros c. unfold safe_char.
    destruct (Ascii.eqb_spec c "/") as [->|Hslash]; [by repeat split|].
    destruct (Ascii.eqb_spec c "\") as [->|Hback]; [by repeat split|].
    cbn [orb]. repeat split; try done.
    rewrite (proj2 (Ascii.eqb_neq c "/")), (proj2 (Ascii.eqb_neq c "\")) by done.
    reflexivity. }
  split; [apply Hmap|]. rewrite !Hmap. split; [apply map_chars_length|].
  split; [|split]; induction keyword as [|c s IH]; try reflexivity;
    destruct (Hchar c) as (Hslash & Hback & Hidem); cbn [map_chars has_char].
  - rewrite IH, orb_false_r. apply Ascii.eqb_neq. congruence.
  - rewrite IH, orb_false_r. apply Ascii.eqb_neq. congruence.
  - by rewrite IH, Hidem.
Qed.

(** ** The tables *)

Lemma keys_of_fields key (fields : list (string * json)) :
  key ∈ (list_to_set (map fst fields) : gset string) <-> is_Some (dict_lookup key fields).
Proof.
  rewrite elem_of_list_to_set. induction fields as [|[k v] rest IH].
  - simpl. split; [by intros ?%elem_of_nil | by intros [? ?]].
  - cbn [map fst dict_lookup]. rewrite elem_of_cons, IH.
    destruct (String.eqb_spec k key) as [->|Hne].
    + split; [by eexists | by left].
    + split; [by intros [->|?] | by right].
Qed.

Lemma all_keys_spec data key :
  key ∈ all_keys data <->
  exists fields, JObj fields ∈ data /\ is_Some (dict_lookup key fields).
Proof.
  induction data as [|item rest IH].
  - simpl. split; [by intros ?%elem_of_empty | by intros (? & ?%elem_of_nil & _)].
  - assert (Hskip : ~ is_dict item ->
              (key ∈ all_keys rest <->
               exists fields, JObj fields ∈ item :: rest /\ is_Some (dict_lookup key fields))).
    { intros Hno. rewrite IH. split; intros (fields & Hin & Hkey); exists fields.
      - split; [by right | done].
      - apply elem_of_cons in Hin as [<-|Hin]; [by destruct Hno | done]. }
    destruct item; try (apply Hskip; by intros []).
    cbn [all_keys]. rewrite elem_of_union, keys_of_fields, IH. split.
    + intros [Hkey|(fs & Hin & Hkey)]; [exists fields | exists fs];
        (split; [|done]); [by left | by right].
    + intros (fs & Hin & Hkey). apply elem_of_cons in Hin as [[= ->]|Hin]; [by left|].
      right. by exists fs.
Qed.

Lemma sorted_keys_lists data : lists_keys_of data (sorted_keys (all_keys data)).
Proof.
  unfold lists_keys_of, sorted_keys. split; [|split].
  - apply StronglySorted_merge_sort; apply _.
  - rewrite merge_sort_Permutation. apply NoDup_elements.
  - intros key. rewrite merge_sort_Permutation, elem_of_elements. apply all_keys_spec.
Qed.

(** X23.  The header of both tables is the sorted list of the keys of the
    dicts among the documents, each key once: no field of any record is
    left without a column, and there is no column that no record has. *)
Theorem csv_header_lists_every_key :
  (forall data t, export_to_csv data = Some t -> lists_keys_of data (header t)) /\
  (forall lines, lists_keys_of (decoded lines) (header (convert_jsonl_to_csv lines))).
Proof.
  split.
  - intros data t Hexp. unfold export_to_csv in Hexp.
    destruct data as [|item rest]; [done|]. inversion Hexp; subst. cbn [header].
    apply sorted_keys_lists.
  - intros lines. unfold convert_jsonl_to_csv. cbn [header]. apply sorted_keys_lists.
Qed.

Lemma csv_header_lists_every_key_witness :
  lists_keys_of [JObj [("b", JNum 1)]; JStr "x"; JObj [("a", JNum 2); ("b", JNum 3)]]
    ["a"; "b"].
Proof.
  exact (proj1 csv_header_lists_every_key
           [JObj [("b", JNum 1)]; JStr "x"; JObj [("a", JNum 2); ("b", JNum 3)]]
           {| header := ["a"; "b"]; rows := [[JStr ""; JNum 1]; [JNum 2; JNum 3]] |}
           eq_refl).
Defined.

Lemma dict_rows_map fieldnames data :
  dict_rows fieldnames data
  = (fun fields => map (fun key => dict_get key (JStr "") fields) fieldnames) <$> dicts_of data.
Proof.
  unfold dicts_of. induction data as [|item rest IH]; [reflexivity|].
  destruct item; cbn [dict_rows omap list_omap]; try exact IH.
  cbn [fmap list_fmap]. by rewrite IH.
Qed.

Lemma dicts_of_elem fields data : fields ∈ dicts_of data -> JObj fields ∈ data.
Proof.
  unfold dicts_of. intros Hin. apply list_elem_of_omap in Hin as (v & Hv & Heq).
  destruct v; try done. by inversion Heq; subst.
Qed.

Lemma sorted_keys_holds data :
  holds_fields_of data (sorted_keys (all_keys data))
    (dict_rows (sorted_keys (all_keys data)) data).
Proof.
  unfold holds_fields_of. rewrite dict_rows_map. split; [by rewrite length_fmap|].
  intros i fields Hi. eexists. split; [by rewrite list_lookup_fmap, Hi|].
  split; [by rewrite length_map|]. split.
  - intros j key Hj. change (map ?f ?l) with (f <$> l). by rewrite list_lookup_fmap, Hj.
  - intros key v Hkey.
    assert (Hin : key ∈ sorted_keys (all_keys data)).
    { apply (sorted_keys_lists data). exists fields. split; [|by eexists].
      apply dicts_of_elem. by eapply list_elem_of_lookup_2. }
    apply list_elem_of_lookup_1 in Hin as (j & Hj). exists j. split; [done|].
    change (map ?f ?l) with (f <$> l). rewrite list_lookup_fmap, Hj. cbn.
    unfold dict_get. by rewrite Hkey.
Qed.

(** X24.  Both tables have one row for every dict among the documents, in
    the order of the input, and nothing for the other documents; a row has
    one cell for every column, a dict without the key of a column leaves
    the empty text there, and every field of the dict is found in the
    column of its key. *)
Theorem csv_rows_hold_every_field :
  (forall data t, export_to_csv data = Some t -> holds_fields_of data (header t) (rows t)) /\
  (forall lines,
     holds_fields_of (decoded lines) (header (convert_jsonl_to_csv lines))
       (rows (convert_jsonl_to_csv lines))).
Proof.
  split.
  - intros data t Hexp. unfold export_to_csv in Hexp.
    destruct data as [|item rest]; [done|]. inversion Hexp; subst. cbn [header rows].
    apply sorted_keys_holds.
  - intros lines. unfold convert_jsonl_to_csv. cbn [header rows]. apply sorted_keys_holds.
Qed.

Lemma csv_rows_hold_every_field_witness :
  holds_fields_of [JObj [("b", JNum 1)]; JStr "x"; JObj [("a", JNum 2); ("b", JNum 3)]]
    ["a"; "b"] [[JStr ""; JNum 1]; [JNum 2; JNum 3]].
Proof.
  exact (proj1 csv_rows_hold_every_field
           [JObj [("b", JNum 1)]; JStr "x"; JObj [("a", JNum 2); ("b", JNum 3)]]
           {| header := ["a"; "b"]; rows := [[JStr ""; JNum 1]; [JNum 2; JNum 3]] |}
           eq_refl).
Defined.

(** ** The passes on an upstream that answers *)

(** A fetch whose first request is answered with a document. *)
Lemma request_answered srv url params w body :
  srv (requests w) url params = Responded 200 (Some body) ->
  _request_with_retry srv url params 3 w
  = (Ok body, {| requests := S (requests w); log := EvGet url params 0 :: log w |}).
Proof.
  intros Hsrv. unfold _request_with_retry. change (py_range 3) with [0; 1; 2].
  cbn [retry_loop session_get]. by rewrite Hsrv.
Qed.

(** The lines of the days in [keys], in order. *)
Lemma crawl_loop_collects srv decode_rx save_interval (records : string -> list json)
    end_date (loaded : gset string) fuel :
  valid_datetime end_date = true -> year end_date < MAXYEAR -> save_interval <> 0 ->
  (forall n d, srv n list_url (list_params d)
               = Responded 200 (Some (JObj [("records", JArr (records d))]))) ->
  (forall d, Forall is_dict (records d)) ->
  forall st,
    valid_datetime (current_date st) = true ->
    lex_leb (time_fields (current_date st)) (time_fields end_date) = true ->
    Z.max 0 (rank end_date - rank (current_date st) + 1) < Z.of_nat fuel ->
    loaded ⊆ downloaded_dates st ->
    (forall x, valid_datetime x = true -> rank (current_date st) <= rank x ->
               strftime_Ymd x ∈ downloaded_dates st -> strftime_Ymd x ∈ loaded) ->
    let pending := filter (fun d => d ∉ loaded)
                          (strftime_Ymd <$> span fuel (current_date st) end_date) in
    let lines := concat ((fun d => stamp d <$> records d) <$> pending) in
    exists st',
      crawl_loop fuel srv decode_rx save_interval end_date st = Some (Next st') /\
      downloaded_dates st' = downloaded_dates st ∪ list_to_set pending /\
      written (trace (world st')) = written (trace (world st)) ++ lines /\
      total_tenders st' = total_tenders st + Z.of_nat (length lines).
Proof.
  intros Hend Hyear Hinterval Hsrv Hdicts.
  induction fuel as [|k IH]; intros st Hcur Htime Hfuel Hloaded Hfuture; [lia|].
  pose proof (dt_leb_rank (current_date st) end_date Hcur Hend) as Htest.
  cbn [crawl_loop span]. destruct (dt_leb (current_date st) end_date).
  2: { exists st. cbn. rewrite app_nil_r. repeat split; [set_solver | lia]. }
  assert (Hle : rank (current_date st) <= rank end_date).
  { destruct (proj1 Htest eq_refl) as [?|[? _]]; lia. }
  destruct (add_one_day (current_date st)) as [next|e] eqn:Estep.
  2: { apply add_one_day_raise in Estep; [|done].
       pose proof (rank_of_year _ Hcur). pose proof (rank_of_year end_date Hend). lia. }
  destruct (add_one_day_ok _ next Hcur Estep) as (Hnext & Hnt & Hlt & _).
  destruct (loop_body_next srv decode_rx save_interval st next Estep Hinterval)
    as (st1 & Ebody & Hcur1).
  set (date_str := strftime_Ymd (current_date st)).
  assert (Hturn :
    if decide (date_str ∈ loaded)
    then downloaded_dates st1 = downloaded_dates st /\
         written (trace (world st1)) = written (trace (world st)) /\
         total_tenders st1 = total_tenders st
    else downloaded_dates st1 = {[date_str]} ∪ downloaded_dates st /\
         written (trace (world st1))
         = written (trace (world st)) ++ (stamp date_str <$> records date_str) /\
         total_tenders st1 = total_tenders st + Z.of_nat (length (records date_str))).
  { destruct (decide (date_str ∈ loaded)) as [Hin|Hnew].
    - assert (Hskip : loop_body srv decode_rx save_interval st = advance st).
      { apply loop_body_skip. by apply Hloaded. }
      destruct (advance_keeps st) as (Hd & _ & Ht & Hw).
      rewrite <- Hskip, Ebody in Hd, Ht, Hw. cbn [state_of] in *. by rewrite Hd, Ht, Hw.
    - assert (Hpending : date_str ∉ downloaded_dates st).
      { intros Hin. apply Hnew. apply Hfuture; [done | lia | done]. }
      pose proof (request_answered srv list_url (list_params date_str) (world st) _
                    (Hsrv (requests (world st)) date_str)) as Hfetch.
      destruct (loop_body_of_fetch srv decode_rx save_interval st _ (records date_str) _
                  Hpending Hfetch eq_refl (Hdicts date_str)) as (Hd & _ & Ht & Hw & _).
      rewrite Ebody in Hd, Ht, Hw. cbn [state_of] in *. by rewrite Hd, Ht, Hw. }
  rewrite Ebody.
  destruct (IH st1) as (st' & Hrun & Hd' & Hw' & Ht').
  { by rewrite Hcur1. }
  { by rewrite Hcur1, Hnt. }
  { rewrite Hcur1. lia. }
  { destruct (decide (date_str ∈ loaded)); destruct Hturn as (-> & _); set_solver. }
  { intros x Hx Hrank Hin. rewrite Hcur1 in Hrank.
    destruct (decide (date_str ∈ loaded)); destruct Hturn as (Hd & _); rewrite Hd in Hin.
    - apply Hfuture; [done|lia|done].
    - apply elem_of_union in Hin as [Hin|Hin].
      + apply elem_of_singleton in Hin. apply strftime_Ymd_inj in Hin; [lia|done..].
      + apply Hfuture; [done|lia|done]. }
  rewrite Hcur1 in Hd', Hw', Ht'. exists st'. split; [exact Hrun|].
  cbn [fmap list_fmap]. fold date_str. rewrite filter_cons.
  destruct (decide (date_str ∈ loaded)) as [Hin|Hnew]; destruct Hturn as (Hd & Hw & Ht).
  - rewrite decide_False by (intros Hnot; by apply Hnot).
    rewrite Hd', Hw', Ht', Hd, Hw, Ht. by repeat split.
  - rewrite decide_True by done. cbn [fmap list_fmap concat].
    rewrite Hd', Hw', Ht', Hd, Hw, Ht, length_app, length_fmap.
    repeat split; [set_solver | by list_assoc | lia].
Qed.

(** X25.  Against an upstream that answers every day with a list of
    records, the list pass ends normally with every day of the range in
    the set; it has written, day after day and in the order received, the
    records of the days that the progress file did not list, each with its
    date, and returns their number. *)
Theorem list_pass_collects_pending_days srv decode_rx save_interval
    (records : string -> list json) progress start_date end_date w :
  valid_datetime start_date = true -> valid_datetime end_date = true ->
  year end_date < MAXYEAR ->
  lex_leb (time_fields start_date) (time_fields end_date) = true ->
  save_interval <> 0 ->
  (forall n d, srv n list_url (list_params d)
               = Responded 200 (Some (JObj [("records", JArr (records d))]))) ->
  (forall d, Forall is_dict (records d)) ->
  let loaded := match progress with Some (dates, _) => dates | None => ∅ end in
  let keys := strftime_Ymd <$> dates_between start_date end_date in
  let lines := concat ((fun d => stamp d <$> records d)
                         <$> filter (fun d => d ∉ loaded) keys) in
  exists st,
    crawl_dates (enough_fuel start_date end_date) srv decode_rx save_interval progress
      start_date end_date w = Some (Next st) /\
    downloaded_dates st = loaded ∪ list_to_set keys /\
    written (trace (world st)) = written (trace w) ++ lines /\
    total_tenders st = Z.of_nat (length lines).
Proof.
  intros Hstart Hend Hyear Htime Hinterval Hsrv Hdicts loaded keys lines.
  set (st0 := {| current_date := start_date; downloaded_dates := loaded;
                 downloaded_count := 0; total_tenders := 0; days_processed := 0;
                 world := w |}).
  destruct (crawl_loop_collects srv decode_rx save_interval records end_date loaded
              (enough_fuel start_date end_date) Hend Hyear Hinterval Hsrv Hdicts st0)
    as (st & Hrun & Hd & Hw & Ht); try done.
  { unfold enough_fuel. simpl. lia. }
  cbn [current_date downloaded_dates world total_tenders] in Hd, Hw, Ht.
  fold (dates_between start_date end_date) in Hd, Hw, Ht. fold keys in Hd, Hw, Ht.
  fold lines in Hw, Ht.
  unfold crawl_dates. fold loaded. fold st0. rewrite Hrun. eexists. split; [reflexivity|].
  cbn [downloaded_dates total_tenders world with_world]. unfold _save_progress.
  rewrite !trace_emit, !written_app. cbn. rewrite !app_nil_r.
  split; [|by split]. rewrite Hd. apply set_eq. intros d.
  rewrite !elem_of_union, !elem_of_list_to_set, list_elem_of_filter.
  destruct (decide (d ∈ loaded)); naive_solver.
Qed.

Lemma list_pass_collects_pending_days_witness :
  let records := fun d : string => [JObj [("date", JStr d)]] in
  let srv : server := fun _ _ params =>
    match params with
    | [(_, JStr d)] => Responded 200 (Some (JObj [("records", JArr (records d))]))
    | _ => Unreachable
    end in
  let loaded : gset string := {["20260106"]} in
  let keys := strftime_Ymd <$> dates_between (midnight 2026 1 5) (midnight 2026 1 7) in
  let lines := concat ((fun d => stamp d <$> records d)
                         <$> filter (fun d => d ∉ loaded) keys) in
  exists st,
    crawl_dates (enough_fuel (midnight 2026 1 5) (midnight 2026 1 7)) srv true 100
      (Some (loaded, Some 1)) (midnight 2026 1 5) (midnight 2026 1 7) (mkio 0 [])
    = Some (Next st) /\
    downloaded_dates st = loaded ∪ list_to_set keys /\
    written (trace (world st)) = written (trace (mkio 0 [])) ++ lines /\
    total_tenders st = Z.of_nat (length lines).
Proof.
  intros records srv loaded.
  refine (list_pass_collects_pending_days srv true 100 records (Some (loaded, Some 1))
            (midnight 2026 1 5) (midnight 2026 1 7) (mkio 0 []) eq_refl eq_refl _ eq_refl
            _ _ _).
  - unfold MAXYEAR. simpl. lia.
  - lia.
  - reflexivity.
  - intros d. by repeat constructor.
Defined.

(** ** The detail pass on an upstream that answers *)

Section DetailAnswers.

Variable str_other : json -> string.

Lemma detail_loop_collects srv batch_size (detail_of : json -> json -> json) tenders :
  (forall n u j, srv n (BASE_URL +:+ "/tender") [("unit_id", u); ("job_number", j)]
                 = Responded 200 (Some (detail_of u j))) ->
  (forall u j, truthy (detail_of u j) = true) ->
  forall st,
    let st' := detail_loop str_other srv batch_size tenders st in
    downloaded_ids st'
    = downloaded_ids st ∪ list_to_set (tender_id str_other <$> tenders) /\
    count st' = count st + Z.of_nat (length tenders) /\
    written (trace (dworld st'))
    = written (trace (dworld st))
        ++ ((fun fields => detail_of (fst (pair_of fields)) (snd (pair_of fields)))
              <$> tenders).
Proof.
  intros Hsrv Htruthy. unfold detail_loop.
  induction tenders as [|fields rest IH]; intros st.
  - simpl. rewrite app_nil_r. split; [set_solver|]. split; [lia | done].
  - cbn [fold_left]. destruct (IH (detail_body str_other srv batch_size fields st))
      as (Hd & Hc & Hw).
    assert (Hbody :
      let st1 := detail_body str_other srv batch_size fields st in
      downloaded_ids st1 = {[tender_id str_other fields]} ∪ downloaded_ids st /\
      count st1 = count st + 1 /\
      written (trace (dworld st1))
      = written (trace (dworld st))
          ++ [detail_of (fst (pair_of fields)) (snd (pair_of fields))]).
    { unfold detail_body, get_tender_detail.
      rewrite (request_answered srv _ _ (dworld st) _ (Hsrv (requests (dworld st)) _ _)).
      rewrite Htruthy.
      set (w1 := {| requests := S (requests (dworld st)); log := _ :: log (dworld st) |}).
      assert (Hw1 : written (trace w1) = written (trace (dworld st))).
      { unfold trace, w1. cbn [log rev]. rewrite written_app. cbn [written omap list_omap].
        by rewrite app_nil_r. }
      destruct (batch_size =? 0); [|destruct (_ mod _ =? 0)];
        cbn [downloaded_ids count dworld]; rewrite !trace_emit, !written_app, Hw1;
        (split; [done|]); (split; [done|]); cbn [written omap list_omap];
        by rewrite !app_nil_r. }
    destruct Hbody as (Hd1 & Hc1 & Hw1). rewrite Hd, Hc, Hw, Hd1, Hc1, Hw1.
    cbn [fmap list_fmap length list_to_set]. repeat split; [set_solver | lia | by list_assoc].
Qed.

End DetailAnswers.

(** X26.  Against an upstream that answers every detail request with a
    non-empty document, the detail pass writes the detail of every kept
    record, in the order of the list file, counts them all, and ends with
    the loaded identifiers and the identifiers of all kept records in the
    set. *)
Theorem detail_pass_collects_kept_records str_other srv batch_size
    (detail_of : json -> json -> json) progress lines w :
  (forall n u j, srv n (BASE_URL +:+ "/tender") [("unit_id", u); ("job_number", j)]
                 = Responded 200 (Some (detail_of u j))) ->
  (forall u j, truthy (detail_of u j) = true) ->
  let loaded := match progress with Some (ids, _) => ids | None => ∅ end in
  let tenders := scan_tenders str_other loaded lines in
  let st := download_tender_details str_other srv batch_size progress lines w in
  downloaded_ids st = loaded ∪ list_to_set (tender_id str_other <$> tenders) /\
  count st = Z.of_nat (length tenders) /\
  written (trace (dworld st))
  = written (trace w)
      ++ ((fun fields => detail_of (fst (pair_of fields)) (snd (pair_of fields)))
            <$> tenders).
Proof.
  intros Hsrv Htruthy loaded tenders st. subst st. unfold download_tender_details.
  fold loaded. fold tenders.
  destruct (detail_loop_collects str_other srv batch_size detail_of tenders Hsrv Htruthy
              {| downloaded_ids := loaded; count := 0; dworld := w |}) as (Hd & Hc & Hw).
  cbn [downloaded_ids count dworld] in *.
  rewrite !trace_emit, !written_app, Hw. cbn. rewrite !app_nil_r. by repeat split.
Qed.

Lemma detail_pass_collects_kept_records_witness :
  let detail_of := fun u j : json => JObj [("unit", u); ("job", j)] in
  let srv : server := fun _ _ params =>
    match params with
    | [(_, u); (_, j)] => Responded 200 (Some (detail_of u j))
    | _ => Unreachable
    end in
  let tenders := scan_tenders (fun _ => ""%string) ∅ amended_tender in
  let st := download_tender_details (fun _ => ""%string) srv 1000 None amended_tender
              (mkio 0 []) in
  downloaded_ids st = ∅ ∪ list_to_set (tender_id (fun _ => ""%string) <$> tenders) /\
  count st = Z.of_nat (length tenders) /\
  written (trace (dworld st))
  = written (trace (mkio 0 []))
      ++ ((fun fields => detail_of (fst (pair_of fields)) (snd (pair_of fields)))
            <$> tenders).
Proof.
  intros detail_of srv.
  refine (detail_pass_collects_kept_records (fun _ => ""%string) srv 1000 detail_of None
            amended_tender (mkio 0 []) _ _).
  - reflexivity.
  - reflexivity.
Defined.
